(** * NoCorn extension: session lifecycle, point policy, rate limiter and
      integrity log

    A shallow embedding of the parts of the extension that decide how a
    blocking session is started, ticked, completed and emergency-disabled
    (class [NoCornPopup], kept in [scripts/blocked.js], and class
    [NoCornBackground] of [background.js]), how the hardened pipeline
    validates and prices an action (classes [SupabaseSecuritySystem] and
    [SimpleBlockchain] of [src/security/SupabaseSecuritySystem.js], and the
    popup [SecureNoCornPopup] built on them), how blocks of the hash
    chain are mined, and how [BackendConnection.updateScore] keeps the
    score.

    Conventions.
    - JavaScript numbers that hold timestamps, day counts and scores are
      integers here ([Z]); [Math.floor(a / b)] for a positive [b] is [a / b]
      on [Z], which rounds towards minus infinity as [Math.floor] does.
    - A property that may be [undefined] is an [option]; [x || d] is written
      out by the helpers of module [JS].
    - [Date.now()] is an explicit argument [now] (milliseconds).
    - DOM work, notifications and the calls to [chrome.*] other than
      [chrome.storage.local] do not influence the values studied here; what
      an operation shows to the user is returned as an outcome next to the
      new state. *)

From Stdlib Require Import ZArith QArith Qround String Ascii List Lia.
From Stdlib Require Import DecimalString Sorted.
From Stdlib Require DecimalZ DecimalPos.
From stdpp Require Import gmap strings list.

Open Scope Z_scope.

(** ** JavaScript idioms *)

Module JS.

(** [x || 0] on a number that may be [undefined]. *)
Definition orZero (x : option Z) : Z :=
  match x with Some v => v | None => 0 end.

(** [x || 1]: [undefined] and the falsy number [0] both give [1]. *)
Definition orOne (x : option Z) : Z :=
  match x with
  | Some v => if v =? 0 then 1 else v
  | None => 1
  end.

(** [!x] on the result of [parseInt]: [NaN] ([None]) and [0] are falsy. *)
Definition falsy (x : option Z) : bool :=
  match x with Some v => v =? 0 | None => true end.

(** [hay.includes(needle)]. *)
Fixpoint includes (hay needle : string) : bool :=
  String.prefix needle hay ||
  match hay with
  | EmptyString => false
  | String _ rest => includes rest needle
  end.

(** What is left of [s] after the literal prefix [p], when [s] starts
    with it. *)
Fixpoint dropPrefix (p s : string) : option string :=
  match p, s with
  | EmptyString, _ => Some s
  | String a p', String b s' =>
      if Ascii.eqb a b then dropPrefix p' s' else None
  | String _ _, EmptyString => None
  end.

(** [s.replace(/^p/, '')] for a literal prefix [p]. *)
Definition stripPrefix (p s : string) : string :=
  match dropPrefix p s with
  | Some rest => rest
  | None => s
  end.

(** [s.split('/')[0]]: the part of [s] before the first slash. *)
Fixpoint beforeSlash (s : string) : string :=
  match s with
  | EmptyString => EmptyString
  | String c rest =>
      if Ascii.eqb c "/"%char then EmptyString else String c (beforeSlash rest)
  end.

(** White space removed by [String.prototype.trim], as far as it is a
    single byte: the statements below rest on [trim] for texts of ASCII
    characters only. The spaces beyond ASCII that [trim] removes as well
    (U+00A0, U+2028 and the like) are left in place here. *)
Definition isSpace (c : ascii) : bool :=
  let n := nat_of_ascii c in
  ((9 <=? n)%nat && (n <=? 13)%nat) || (n =? 32)%nat.

Fixpoint trimStart (s : string) : string :=
  match s with
  | EmptyString => EmptyString
  | String c rest => if isSpace c then trimStart rest else s
  end.

Fixpoint trimEnd (s : string) : string :=
  match s with
  | EmptyString => EmptyString
  | String c rest =>
      match trimEnd rest with
      | EmptyString => if isSpace c then EmptyString else String c EmptyString
      | kept => String c kept
      end
  end.

(** [s.trim()]. *)
Definition trim (s : string) : string := trimEnd (trimStart s).

(** Number to string conversion of an integer, as string concatenation
    performs it. *)
Definition numberToString (z : Z) : string :=
  NilZero.string_of_int (Z.to_int z).

(** The property names that every object literal inherits from
    [Object.prototype]: a lookup [table[name]] with one of them finds the
    inherited member, a truthy value, instead of [undefined]. *)
Definition objectPrototypeMember (name : string) : bool :=
  existsb (String.eqb name)
    [ "constructor"; "__proto__"; "hasOwnProperty"; "isPrototypeOf";
      "propertyIsEnumerable"; "toLocaleString"; "toString"; "valueOf";
      "__defineGetter__"; "__defineSetter__"; "__lookupGetter__";
      "__lookupSetter__" ].

(** [Array(n + 1).join("0")]: [n] zero characters. *)
Fixpoint zeros (n : nat) : string :=
  match n with
  | O => EmptyString
  | S k => String "0"%char (zeros k)
  end.

End JS.

(** Milliseconds of one day, [24 * 60 * 60 * 1000]. *)
Definition DAY_MS : Z := 24 * 60 * 60 * 1000.

(** ** The session object

    Built by [startBlockSession]; [lastDailyBonus] is added later by the
    background tick, so it starts out [undefined]. *)

Record Session := mkSession {
  startTime : Z;
  endTime : Z;
  duration : Z;
  blockedSites : list string;
  emergencyAttempts : option Z;
  lastDailyBonus : option Z
}.

Record HistoryEntry := mkHistoryEntry {
  h_date : Z;
  h_streak : Z;
  h_daysCompleted : Z
}.

Record Stats := mkStats {
  totalCleanDays : Z;
  bestStreak : Z;
  sessionsCompleted : Z;
  progressHistory : list HistoryEntry
}.

(** ** The popup ([NoCornPopup]) *)

Module Popup.

Record EmergencyLog := mkEmergencyLog {
  log_timestamp : Z;
  log_reason : string;
  log_sessionDuration : Z;
  log_penalty : Z
}.

(** The fields of the popup object that the session operations use. *)
Record State := mkState {
  sites : list string;
  activeSession : option Session;
  totalScore : Z;
  currentStreak : Z;
  stats : Stats;
  lastEmergencyDisable : option EmergencyLog
}.

(** What the two duration controls hold when the start button is pressed:
    either the select is on ['custom'] and [customDays] was parsed by
    [parseInt] ([None] for [NaN]), or the select holds one of its numeric
    options. *)
Inductive DurationChoice :=
| Custom (customDays : option Z)
| Preset (days : Z).

Inductive StartOutcome :=
| EmptySiteList      (* 'Add at least one site to block' *)
| InvalidDuration    (* 'Please enter a valid number of days (1-365)' *)
| Cancelled          (* the confirmation dialog was dismissed *)
| Started.

(** The duration check of [startBlockSession]: only a custom value is
    range checked. *)
Definition chosenDays (c : DurationChoice) : option Z :=
  match c with
  | Custom d =>
      if JS.falsy d || (JS.orZero d <? 1) || (JS.orZero d >? 365)
      then None else d
  | Preset d => Some d
  end.

(** [s.replace(/^https?:\/\//, '')]: one leading scheme is removed. *)
Definition stripScheme (s : string) : string :=
  match JS.dropPrefix "http://" s with
  | Some rest => rest
  | None => JS.stripPrefix "https://" s
  end.

(** [cleanSite] of [addSite]. *)
Definition cleanSite (site : string) : string :=
  JS.beforeSlash (JS.stripPrefix "www." (stripScheme site)).

(** [addSite], given the trimmed and lower-cased text of the input box, up
    to its last statements: when it has added the site, the method goes on
    to [this.updateDisplay()], which is [updateBlockStatus] below;
    [Handler.addSite] is the method with that call. *)
Definition addSite (st : State) (site : string) : State :=
  if String.eqb site "" then st
  else
    let clean := cleanSite site in
    if existsb (String.eqb clean) (sites st) then st
    else
      mkState (sites st ++ [clean]) (activeSession st)
              (totalScore st + 10) (currentStreak st) (stats st)
              (lastEmergencyDisable st).

(** [startBlockSession] on the local path (no backend connection), up to
    its last statements: when it has started the session, the method goes
    on to [this.updateDisplay()], which is [updateBlockStatus] below;
    [Handler.startBlockSession] is the method with that call. *)
Definition startBlockSession (st : State) (choice : DurationChoice)
    (confirmed : bool) (now : Z) : StartOutcome * State :=
  match sites st with
  | [] => (EmptySiteList, st)
  | _ :: _ =>
      match chosenDays choice with
      | None => (InvalidDuration, st)
      | Some days =>
          if confirmed then
            let session :=
              mkSession now (now + days * 24 * 60 * 60 * 1000) days
                        (sites st) (Some 0) None in
            (Started,
             mkState (sites st) (Some session) (totalScore st + days * 50)
                     (currentStreak st) (stats st) (lastEmergencyDisable st))
          else (Cancelled, st)
      end
  end.

(** [completeSession]; [None] when there is no session object to read. *)
Definition completeSession (st : State) (now : Z) : option State :=
  match activeSession st with
  | None => None
  | Some s =>
      let days := (now - startTime s) / DAY_MS in
      let streak := currentStreak st + days in
      let stats' :=
        mkStats (totalCleanDays (stats st) + days)
                (Z.max (bestStreak (stats st)) streak)
                (sessionsCompleted (stats st) + 1)
                (progressHistory (stats st)) in
      Some (mkState (sites st) None (totalScore st + days * 100) streak
                    stats' (lastEmergencyDisable st))
  end.

Inductive EmergencyOutcome :=
| ShowEmergencyDisableForm
| ShowMotivationalIntervention.

(** [attemptEmergencyDisable]. *)
Definition attemptEmergencyDisable (st : State)
    : option (EmergencyOutcome * State) :=
  match activeSession st with
  | None => None
  | Some s =>
      let attempts := JS.orZero (emergencyAttempts s) + 1 in
      let s' := mkSession (startTime s) (endTime s) (duration s)
                          (blockedSites s) (Some attempts) (lastDailyBonus s) in
      let st' := mkState (sites st) (Some s') (totalScore st)
                         (currentStreak st) (stats st)
                         (lastEmergencyDisable st) in
      Some (if attempts >=? 3 then ShowEmergencyDisableForm
            else ShowMotivationalIntervention, st')
  end.

(** The 'I'll Stay Strong' button of the intervention dialog, up to its
    closing [this.updateDisplay()]; [Handler.stayStrong] is the handler
    with that call. *)
Definition stayStrong (st : State) : State :=
  mkState (sites st) (activeSession st) (totalScore st + 25)
          (currentStreak st) (stats st) (lastEmergencyDisable st).

(** [performEmergencyDisable]. *)
Definition performEmergencyDisable (st : State) (reason : string) (now : Z)
    : option State :=
  match activeSession st with
  | None => None
  | Some s =>
      let log := mkEmergencyLog now reason (now - startTime s) 500 in
      Some (mkState (sites st) None (Z.max 0 (totalScore st - 500)) 0
                    (stats st) (Some log))
  end.

(** The click handler of [#emergency-confirm] in [showEmergencyDisableForm]:
    the text of the reason box goes to [performEmergencyDisable] as it is. *)
Definition emergencyConfirm (st : State) (reasonBox : string) (now : Z)
    : option State :=
  performEmergencyDisable st reasonBox now.

(** [n] presses of the emergency button in a row. *)
Fixpoint attempts (n : nat) (st : State) : option State :=
  match n with
  | O => Some st
  | S k =>
      match attemptEmergencyDisable st with
      | Some (_, st') => attempts k st'
      | None => None
      end
  end.

(** [removeSite], up to its closing [this.updateDisplay()];
    [Handler.removeSite] is the method with that call. *)
Definition removeSite (st : State) (site : string) : State :=
  mkState (List.filter (fun s => negb (String.eqb s site)) (sites st))
          (activeSession st) (totalScore st) (currentStreak st) (stats st)
          (lastEmergencyDisable st).

(** The three numbers that [formatTimeRemaining] prints; [%] is the
    remainder that takes the sign of the dividend. *)
Definition remainingDays (milliseconds : Z) : Z :=
  milliseconds / (24 * 60 * 60 * 1000).

Definition remainingHours (milliseconds : Z) : Z :=
  Z.rem milliseconds (24 * 60 * 60 * 1000) / (60 * 60 * 1000).

Definition remainingMinutes (milliseconds : Z) : Z :=
  Z.rem milliseconds (60 * 60 * 1000) / (60 * 1000).

(** [formatTimeRemaining]. *)
Definition formatTimeRemaining (milliseconds : Z) : string :=
  let days := remainingDays milliseconds in
  let hours := remainingHours milliseconds in
  let minutes := remainingMinutes milliseconds in
  if days >? 0 then
    JS.numberToString days +:+ "d " +:+ JS.numberToString hours +:+ "h "
    +:+ JS.numberToString minutes +:+ "m"
  else if hours >? 0 then
    JS.numberToString hours +:+ "h " +:+ JS.numberToString minutes +:+ "m"
  else JS.numberToString minutes +:+ "m".

(** The [achievementDefinitions] of [checkAchievements]: the id and the
    condition of each achievement, in the order of the array. *)
Definition achievementDefinitions : list (string * (State -> bool)) :=
  [ ("first_site", fun st => (1 <=? length (sites st))%nat);
    ("week_warrior", fun st => currentStreak st >=? 7);
    ("month_master", fun st => currentStreak st >=? 30);
    ("point_collector", fun st => totalScore st >=? 1000);
    ("session_starter", fun st => sessionsCompleted (stats st) >=? 1);
    ("dedication", fun st => sessionsCompleted (stats st) >=? 5) ].

(** One turn of the [forEach] of [checkAchievements] over the unlocked
    achievements (id to [unlockedAt]) and the list of new ones. *)
Definition unlock (st : State) (now : Z)
    (acc : gmap string Z * list string) (def : string * (State -> bool))
    : gmap string Z * list string :=
  match fst acc !! fst def with
  | Some _ => acc
  | None =>
      if snd def st then (<[fst def := now]> (fst acc), snd acc ++ [fst def])
      else acc
  end.

(** [checkAchievements]: the [achievements] object afterwards and the ids
    that were unlocked by this call. *)
Definition checkAchievements (st : State) (achievements : gmap string Z)
    (now : Z) : gmap string Z * list string :=
  fold_left (unlock st now) achievementDefinitions (achievements, []).

(** The part of [updateBlockStatus] that changes the popup object: a session
    whose time is up is handed to [completeSession]. [updateDisplay] calls
    it at the end of every handler. *)
Definition updateBlockStatus (st : State) (now : Z) : State :=
  match activeSession st with
  | None => st
  | Some s =>
      if endTime s - now >? 0 then st
      else match completeSession st now with
           | Some st' => st'
           | None => st
           end
  end.

(** The methods that end with [this.updateDisplay()], in full. The
    display refresh reads the clock again ([shown]) and hands a session
    whose time is up to [completeSession]; [addSite] and
    [startBlockSession] reach it only when they have added the site or
    started the session. [completeSession] and [performEmergencyDisable]
    refresh the display as well, after they have cleared the session, when
    the refresh changes nothing in the popup object. *)
Module Handler.

Definition addSite (st : State) (site : string) (shown : Z) : State :=
  if String.eqb site "" then st
  else if existsb (String.eqb (cleanSite site)) (sites st) then st
  else updateBlockStatus (Popup.addSite st site) shown.

Definition removeSite (st : State) (site : string) (shown : Z) : State :=
  updateBlockStatus (Popup.removeSite st site) shown.

Definition startBlockSession (st : State) (choice : DurationChoice)
    (confirmed : bool) (now shown : Z) : StartOutcome * State :=
  match Popup.startBlockSession st choice confirmed now with
  | (Started, st') => (Started, updateBlockStatus st' shown)
  | (outcome, st') => (outcome, st')
  end.

Definition stayStrong (st : State) (shown : Z) : State :=
  updateBlockStatus (Popup.stayStrong st) shown.

End Handler.

(** What the user can do in the popup. *)
Inductive Action :=
| AddSite (site : string)
| RemoveSite (site : string)
| StartBlockSession (choice : DurationChoice) (confirmed : bool) (now : Z)
| AttemptEmergencyDisable
| StayStrong
| EmergencyConfirm (reasonBox : string) (now : Z)
| UpdateDisplay (now : Z).

(** The effect of an action on the popup object; [None] where the handler
    throws for want of a session object. *)
Definition perform (a : Action) (st : State) : option State :=
  match a with
  | AddSite site => Some (addSite st site)
  | RemoveSite site => Some (removeSite st site)
  | StartBlockSession choice confirmed now =>
      Some (snd (startBlockSession st choice confirmed now))
  | AttemptEmergencyDisable =>
      match attemptEmergencyDisable st with
      | Some (_, st') => Some st'
      | None => None
      end
  | StayStrong => Some (stayStrong st)
  | EmergencyConfirm reasonBox now => emergencyConfirm st reasonBox now
  | UpdateDisplay now => Some (updateBlockStatus st now)
  end.

(** A run of actions; it stops at the first one that throws. *)
Fixpoint performAll (actions : list Action) (st : State) : option State :=
  match actions with
  | [] => Some st
  | a :: rest =>
      match perform a st with
      | Some st' => performAll rest st'
      | None => None
      end
  end.

End Popup.

(** ** The background service worker ([NoCornBackground]) *)

Module Background.

(** The keys of [chrome.storage.local] that the session alarm reads and
    writes; a key that was never set reads as [undefined]. *)
Record Storage := mkStorage {
  activeSession : option Session;
  currentStreak : option Z;
  totalScore : option Z;
  stats : option Stats
}.

Inductive TickOutcome :=
| NoActiveSession                    (* the alarm is cleared *)
| SessionCompleted (daysCompleted completionBonus : Z)
| DailyProgress (bonusPoints : Z)    (* '+N points for staying strong!' *)
| NothingToAward.

(** [completeSession(session)]. *)
Definition completeSession (session : Session) (now : Z) (st : Storage)
    : Storage * TickOutcome :=
  let daysCompleted := (now - startTime session) / (24 * 60 * 60 * 1000) in
  let completionBonus := daysCompleted * 100 in
  let newStreak := JS.orZero (currentStreak st) + daysCompleted in
  let newScore := JS.orZero (totalScore st) + completionBonus in
  let old := match stats st with
             | Some s => s
             | None => mkStats 0 0 0 []
             end in
  let stats' :=
    mkStats (totalCleanDays old + daysCompleted)
            (Z.max (bestStreak old) newStreak)
            (sessionsCompleted old + 1)
            (progressHistory old ++ [mkHistoryEntry now newStreak daysCompleted]) in
  (mkStorage None (Some newStreak) (Some newScore) (Some stats'),
   SessionCompleted daysCompleted completionBonus).

(** [updateSession], the handler of the hourly ['sessionUpdate'] alarm. *)
Definition updateSession (now : Z) (st : Storage) : Storage * TickOutcome :=
  match activeSession st with
  | None => (st, NoActiveSession)
  | Some s =>
      if now >=? endTime s then completeSession s now st
      else
        let hoursElapsed := (now - startTime s) / (60 * 60 * 1000) in
        let dailyBonus := hoursElapsed / 24 * 10 in
        if dailyBonus >? JS.orZero (lastDailyBonus s) then
          let bonusPoints := dailyBonus - JS.orZero (lastDailyBonus s) in
          let s' := mkSession (startTime s) (endTime s) (duration s)
                              (blockedSites s) (emergencyAttempts s)
                              (Some dailyBonus) in
          let newScore := JS.orZero (totalScore st) + bonusPoints in
          (mkStorage (Some s') (currentStreak st) (Some newScore) (stats st),
           DailyProgress bonusPoints)
        else (st, NothingToAward)
  end.

(** The alarm firing at each of the given instants, one after the other. *)
Fixpoint ticks (nows : list Z) (st : Storage) : Storage :=
  match nows with
  | [] => st
  | now :: rest => ticks rest (fst (updateSession now st))
  end.

Record BlockingStatus := mkBlockingStatus {
  blocked : bool;
  site : option string;
  timeRemaining : option Z
}.

Section Blocking.

(** [new URL(url).hostname]; [None] when the constructor throws. *)
Variable URL_hostname : string -> option string.

(** [extractDomain]. *)
Definition extractDomain (url : string) : string :=
  match URL_hostname url with
  | Some hostname => JS.stripPrefix "www." hostname
  | None => ""
  end.

(** [getBlockingStatus]. *)
Definition getBlockingStatus (st : Storage) (url : string) (now : Z)
    : BlockingStatus :=
  match activeSession st with
  | None => mkBlockingStatus false None None
  | Some s =>
      let domain := extractDomain url in
      let isBlocked :=
        existsb (fun site => JS.includes domain site) (blockedSites s) in
      mkBlockingStatus isBlocked (Some domain) (Some (endTime s - now))
  end.

End Blocking.

Inductive StartupOutcome :=
| NothingStored
| CompletedAtStartup (daysCompleted completionBonus : Z)
| RulesRestored (sites : list string).   (* rules and hourly alarm set up again *)

(** [checkActiveSession], run when the worker starts. *)
Definition checkActiveSession (now : Z) (st : Storage)
    : Storage * StartupOutcome :=
  match activeSession st with
  | None => (st, NothingStored)
  | Some s =>
      if now >=? endTime s then
        match completeSession s now st with
        | (st', SessionCompleted d b) => (st', CompletedAtStartup d b)
        | (st', _) => (st', NothingStored)
        end
      else (st, RulesRestored (blockedSites s))
  end.

(** The alarm firing every hour, [n] times, the first time one hour after
    [start]. *)
Definition hourly (start : Z) (n : nat) : list Z :=
  List.map (fun k => start + Z.of_nat k * (60 * 60 * 1000)) (seq 1 n).

End Background.

(** ** The keys of [chrome.storage.local] that only the worker uses

    [chrome.storage.local.get] answers with an object that holds the keys it
    found, so the result is an object (and truthy) also when the key is
    missing: a default written behind [||] after it is never taken. *)

Module Store.

Inductive Value :=
| Num (n : Z)
| Sites (sites : list string)
| ActiveSession (session : option Session)
| StatsOf (stats : Stats)
| PanicModeStats (count : Z) (lastUsed : option Z)
| EmergencyLog (entries : list Popup.EmergencyLog)
| Json (text : string).

(** The [defaultData] of [initializeStorage], in the order of its keys. *)
Definition defaultData : list (string * Value) :=
  [ ("currentStreak", Num 0);
    ("totalScore", Num 0);
    ("blockedSites", Sites []);
    ("activeSession", ActiveSession None);
    ("achievements", Json "{}");
    ("stats", StatsOf (mkStats 0 0 0 []));
    ("settings", Json "{notifications,accountabilityPartner,motivationalMessages,strictMode}") ].

(** [chrome.storage.local.set(items)]. *)
Definition set (items : list (string * Value)) (store : gmap string Value)
    : gmap string Value :=
  fold_left (fun acc item => <[fst item := snd item]> acc) items store.

(** [initializeStorage]: the defaults of the keys that are missing. *)
Definition initializeStorage (store : gmap string Value) : gmap string Value :=
  let dataToSet :=
    List.filter (fun item => match store !! fst item with
                             | None => true
                             | Some _ => false
                             end) defaultData in
  match dataToSet with
  | [] => store
  | _ :: _ => set dataToSet store
  end.

(** [data.totalScore || 0]. *)
Definition totalScore (store : gmap string Value) : Z :=
  match store !! "totalScore" with
  | Some (Num n) => n
  | _ => 0
  end.

(** [handlePanicMode]; [None] when reading [stats.panicModeStats.count]
    throws, which is before anything is written. *)
Definition handlePanicMode (now : Z) (store : gmap string Value)
    : option (gmap string Value) :=
  match store !! "panicModeStats" with
  | Some (PanicModeStats count _) =>
      let store1 :=
        set [("panicModeStats", PanicModeStats (count + 1) (Some now))] store in
      let newScore := totalScore store1 + 25 in
      Some (set [("totalScore", Num newScore)] store1)
  | _ => None
  end.

(** [handleEmergencyDisable], given the log object sent by the popup;
    [None] when [log.emergencyLog.push] throws. *)
Definition handleEmergencyDisable (data : Popup.EmergencyLog) (now : Z)
    (store : gmap string Value) : option (gmap string Value) :=
  match store !! "emergencyLog" with
  | Some (EmergencyLog entries) =>
      let entry := Popup.mkEmergencyLog now (Popup.log_reason data)
                     (Popup.log_sessionDuration data) (Popup.log_penalty data) in
      Some (set [("emergencyLog", EmergencyLog (entries ++ [entry]))] store)
  | _ => None
  end.

(** What the worker does to the store on its own account: the set-up on
    installation and start-up, and the two messages above. A handler that
    throws has written nothing. *)
Inductive Call :=
| Initialize
| PanicMode (now : Z)
| EmergencyDisable (data : Popup.EmergencyLog) (now : Z).

Definition call (c : Call) (store : gmap string Value) : gmap string Value :=
  match c with
  | Initialize => initializeStorage store
  | PanicMode now => default store (handlePanicMode now store)
  | EmergencyDisable data now => default store (handleEmergencyDisable data now store)
  end.

Definition run (calls : list Call) (store : gmap string Value)
    : gmap string Value :=
  fold_left (fun acc c => call c acc) calls store.

End Store.

(** ** The hardened pipeline ([SupabaseSecuritySystem]) *)

Module Security.

Inductive Error :=
| RateLimitExceeded (action : string)  (* 'Rate limit exceeded for ...' *)
| InvalidSessionDuration               (* 'Invalid session duration (1-365 days)' *)
| SessionAlreadyActive                 (* 'Cannot start new session while another is active' *)
| MaxEmergencyAttempts                 (* 'Maximum emergency attempts reached for this session' *)
| QueryFailed.                         (* the error object of a failed query *)

Inductive Result (A : Type) :=
| Ok (a : A)
| Throw (e : Error).
Arguments Ok {A} a.
Arguments Throw {A} e.

(** The [data] object handed to [validateAndAwardPoints], reduced to the
    properties that the validators and the point table read. *)
Record ActionData := mkActionData {
  d_duration : option Z;
  d_daysCompleted : option Z;
  d_action : option string
}.

(** *** Rate limiting *)

Record Limit := mkLimit { max : nat; window : Z }.

(** The [limits] table of [checkRateLimit], own properties only: an action
    named like a member of [Object.prototype] ([JS.objectPrototypeMember])
    finds that member in the source, not [undefined]. No caller of the
    sources sends such a name; a statement about every action that depends
    on the lookup excludes them. *)
Definition limits (action : string) : option Limit :=
  if String.eqb action "add_site" then Some (mkLimit 5 (60 * 60 * 1000))
  else if String.eqb action "panic_mode" then Some (mkLimit 3 (30 * 60 * 1000))
  else if String.eqb action "emergency_resist" then Some (mkLimit 10 (60 * 60 * 1000))
  else if String.eqb action "session_start" then Some (mkLimit 3 (24 * 60 * 60 * 1000))
  else None.

(** The key [`${action}_${this.userId}`]. *)
Definition rateKey (action userId : string) : string :=
  action +:+ "_" +:+ userId.

(** [checkRateLimit]: the outcome and the [rateLimits] map afterwards. *)
Definition checkRateLimit (userId : string) (now : Z) (action : string)
    (rateLimits : gmap string (list Z)) : Result bool * gmap string (list Z) :=
  match limits action with
  | None => (Ok true, rateLimits)
  | Some limit =>
      let key := rateKey action userId in
      let attempts := default [] (rateLimits !! key) in
      let validAttempts :=
        List.filter (fun time => now - time <? window limit) attempts in
      if (max limit <=? length validAttempts)%nat
      then (Throw (RateLimitExceeded action), rateLimits)
      else (Ok true, <[key := validAttempts ++ [now]]> rateLimits)
  end.

(** Calls of [checkRateLimit] for one user and action at the given
    instants; the outcomes in order, and the final map. *)
Fixpoint checkAll (userId action : string) (nows : list Z)
    (rateLimits : gmap string (list Z))
    : list (Result bool) * gmap string (list Z) :=
  match nows with
  | [] => ([], rateLimits)
  | now :: rest =>
      let '(r, m) := checkRateLimit userId now action rateLimits in
      let '(rs, m') := checkAll userId action rest m in
      (r :: rs, m')
  end.

(** *** Validators *)

(** [validateEmergencyAttempt], given the outcome of the query for the
    [emergency_attempts] column of the active session ([None]: the query
    failed; [Some None]: the column is null). *)
Definition validateEmergencyAttempt (row : option (option Z)) : Result bool :=
  match row with
  | None => Throw QueryFailed
  | Some emergency_attempts =>
      if JS.orZero emergency_attempts >=? 3 then Throw MaxEmergencyAttempts
      else Ok true
  end.

(** [validateSession], given the number of rows of the user with status
    ['active'] ([None]: the query failed). A comparison with an
    [undefined] duration is false. *)
Definition validateSession (data : ActionData) (activeSession : option nat)
    : Result bool :=
  let tooShort := match d_duration data with Some d => d <? 1 | None => false end in
  let tooLong := match d_duration data with Some d => d >? 365 | None => false end in
  if tooShort || tooLong then Throw InvalidSessionDuration
  else
    match activeSession with
    | None => Throw QueryFailed
    | Some rows =>
        let isStart := match d_action data with
                       | Some a => String.eqb a "start_session"
                       | None => false
                       end in
        if (0 <? rows)%nat && isStart then Throw SessionAlreadyActive
        else Ok true
    end.

(** *** Point policy *)

(** [getDiminishingReturnsMultiplier], given the [action_count] of the
    user's row for the action ([None]: the query failed or found no row).
    The literals [0.8], [0.6] and [0.4] are the rationals 8/10, 6/10 and
    4/10 here; for the integer bases of the point table the floor of the
    double-precision product is the floor of the exact one. *)
Definition getDiminishingReturnsMultiplier (row : option Z) : Q :=
  match row with
  | None => 1
  | Some count =>
      if count <? 10 then 1
      else if count <? 50 then 8 # 10
      else if count <? 100 then 6 # 10
      else 4 # 10
  end.

(** The [pointRules] table, own properties only, as for [limits]. *)
Definition pointRules (action : string) (data : ActionData) : option Z :=
  if String.eqb action "add_site" then Some 10
  else if String.eqb action "start_session" then Some (JS.orOne (d_duration data) * 50)
  else if String.eqb action "complete_session" then Some (JS.orOne (d_daysCompleted data) * 100)
  else if String.eqb action "daily_bonus" then Some 10
  else if String.eqb action "emergency_resist" then Some 25
  else if String.eqb action "panic_mode" then Some 25
  else None.

(** [calculateSecurePoints]. *)
Definition calculateSecurePoints (action : string) (data : ActionData)
    (row : option Z) : Z :=
  let basePoints := JS.orZero (pointRules action data) in
  let multiplier := getDiminishingReturnsMultiplier row in
  Qfloor (inject_Z basePoints * multiplier).

(** The table [user_action_counts]: one row for a user and an action
    ([UNIQUE(user_id, action_type)]), holding the [action_count]. The
    sources read it, in [getDiminishingReturnsMultiplier], and never write
    it: the schema creates it, and no insert, update, stored procedure or
    trigger of the repository names it. *)
Definition actionCount (counts : gmap (string * string) Z)
    (userId action : string) : option Z :=
  counts !! (userId, action).

(** The requests of one user for one action, priced one after the other;
    every request leaves the table as it found it. *)
Fixpoint pricedOccurrences (userId action : string) (datas : list ActionData)
    (counts : gmap (string * string) Z)
    : list Z * gmap (string * string) Z :=
  match datas with
  | [] => ([], counts)
  | data :: rest =>
      let points :=
        calculateSecurePoints action data (actionCount counts userId action) in
      (points :: fst (pricedOccurrences userId action rest counts),
       snd (pricedOccurrences userId action rest counts))
  end.

(** *** The hash chain ([SimpleBlockchain], [recordToBlockchain]) *)

Record BlockData := mkBlockData {
  bd_userId : string;
  bd_action : string;
  bd_points : Z;
  bd_timestamp : string;
  bd_data : string;
  bd_previousHash : string
}.

Record Block := mkBlock {
  timestamp : Z;
  data : BlockData;
  previousHash : string;
  nonce : Z;
  hash : string
}.

(** A row of the table [blockchain_blocks]. *)
Record BlockRow := mkBlockRow {
  user_id : string;
  block_hash : string;
  previous_hash : string;
  action_type : string;
  points_awarded : Z;
  block_data : Block
}.

(** The difficulty that the constructor of [SimpleBlockchain] sets. *)
Definition constructedDifficulty : nat := 2.

Section Chain.

(** [CryptoJS.SHA256(s).toString()] and [JSON.stringify] of a block's
    [data], both library code. *)
Variable SHA256 : string -> string.
Variable JSON_stringify : BlockData -> string.

(** [this.difficulty] of the [SimpleBlockchain] object. *)
Variable difficulty : nat.

(** [calculateHash]. *)
Definition calculateHash (block : Block) : string :=
  SHA256 (previousHash block +:+ JS.numberToString (timestamp block)
          +:+ JSON_stringify (data block)
          +:+ JS.numberToString (nonce block)).

(** The loop condition of the proof of work, negated. *)
Definition mined (h : string) : bool :=
  String.eqb (String.substring 0 difficulty h) (JS.zeros difficulty).

(** One turn of the loop body. *)
Definition bump (block : Block) : Block :=
  let b := mkBlock (timestamp block) (data block) (previousHash block)
                   (nonce block + 1) (hash block) in
  mkBlock (timestamp b) (data b) (previousHash b) (nonce b) (calculateHash b).

(** The [while] loop of [createBlock]; [None] when [fuel] turns do not
    reach a mined hash. *)
Fixpoint mine (fuel : nat) (block : Block) : option Block :=
  if mined (hash block) then Some block
  else
    match fuel with
    | O => None
    | S k => mine k (bump block)
    end.

(** [createBlock]. *)
Definition createBlock (d : BlockData) (now : Z) (fuel : nat) : option Block :=
  let block := mkBlock now d (bd_previousHash d) 0 "" in
  mine fuel (mkBlock (timestamp block) (data block) (previousHash block)
                     (nonce block) (calculateHash block)).

(** [getLastBlockHash]: the table is kept in the order of [created_at],
    latest row last. *)
Definition getLastBlockHash (userId : string) (table : list BlockRow) : string :=
  match List.rev (List.filter (fun r => String.eqb (user_id r) userId) table) with
  | r :: _ => block_hash r
  | [] => "0"
  end.

(** [recordToBlockchain], given the digest of the action's data and the
    two clock readings; the row is added to the table. *)
Definition recordToBlockchain (userId action : string) (points : Z)
    (isoNow dataDigest : string) (now : Z) (fuel : nat)
    (table : list BlockRow) : option (BlockRow * list BlockRow) :=
  let blockData :=
    mkBlockData userId action points isoNow dataDigest
                (getLastBlockHash userId table) in
  match createBlock blockData now fuel with
  | None => None
  | Some block =>
      let row := mkBlockRow userId (hash block) (previousHash block)
                            action points block in
      Some (row, table ++ [row])
  end.

End Chain.

(** *** The cooldown of the panic mode ([validatePanicMode]) *)

Inductive PanicOutcome :=
| PanicAllowed
| OnCooldown (remaining : Z).   (* 'Panic mode on cooldown. N minutes remaining.' *)

Definition cooldown : Z := 30 * 60 * 1000.

(** The row that [order('created_at', { ascending: false }).limit(1)]
    selects from the [created_at] values of the user's rows. *)
Definition latest (logs : list Z) : option Z :=
  match logs with
  | [] => None
  | t :: rest => Some (fold_left Z.max rest t)
  end.

(** [Math.ceil(x / 60000)] for an integer [x]. *)
Definition ceilMinutes (x : Z) : Z := - ((- x) / 60000).

(** [validatePanicMode], given the [created_at] values of the user's rows
    of [user_panic_logs] (the query succeeds); the outcome and the rows
    afterwards. *)
Definition validatePanicMode (now : Z) (logs : list Z)
    : PanicOutcome * list Z :=
  match latest logs with
  | Some lastPanic =>
      if now - lastPanic <? cooldown
      then (OnCooldown (ceilMinutes (cooldown - (now - lastPanic))), logs)
      else (PanicAllowed, logs ++ [now])
  | None => (PanicAllowed, logs ++ [now])
  end.

(** Calls of [validatePanicMode] at the given instants; the rows afterwards. *)
Definition panicCalls (nows : list Z) (logs : list Z) : list Z :=
  fold_left (fun rows now => snd (validatePanicMode now rows)) nows logs.

End Security.

(** ** The hardened popup ([SecureNoCornPopup]) *)

Module SecurePopup.

Inductive StartRequest :=
| NotReady           (* 'Security system not ready' *)
| EmptySiteList      (* 'Add at least one site to block' *)
| InvalidDuration    (* 'Please enter a valid number of days (1-365)' *)
| Cancelled
| Submit (data : Security.ActionData).

(** The [data] object that [startSecureBlockSession] sends with the action
    ['start_session']: [duration], [blockedSites] and [timestamp], and no
    [action] property. *)
Definition startSessionData (days : Z) : Security.ActionData :=
  Security.mkActionData (Some days) None None.

(** [startSecureBlockSession] up to the call of [validateAndAwardPoints]. *)
Definition startSecureBlockSession (isInitialized : bool)
    (sites : list string) (choice : Popup.DurationChoice) (confirmed : bool)
    : StartRequest :=
  if negb isInitialized then NotReady
  else
    match sites with
    | [] => EmptySiteList
    | _ :: _ =>
        match Popup.chosenDays choice with
        | None => InvalidDuration
        | Some days => if confirmed then Submit (startSessionData days)
                       else Cancelled
        end
    end.

Inductive ConfirmOutcome :=
| ReasonRequired     (* 'Reason is required for security logging' *)
| PerformSecureEmergencyDisable (reason : string).

(** The click handler of [#emergency-confirm] in
    [showSecureEmergencyDisableForm]. *)
Definition emergencyConfirm (reasonBox : string) : ConfirmOutcome :=
  let reason := JS.trim reasonBox in
  if String.eqb reason "" then ReasonRequired
  else PerformSecureEmergencyDisable reason.

(** The [data] object that [completeSecureSession] sends with the action
    ['complete_session']: [sessionId] and [timestamp] only. *)
Definition completeSessionData : Security.ActionData :=
  Security.mkActionData None None None.

End SecurePopup.

(** ** The checks of [validateAndAwardPoints] in their order

    The body of [validateAndAwardPoints] from its first line to the
    calculation of the points. The answers of the remote checks and queries
    of one request are its [Queries]; what the requests of a user change on
    the way is the limiter's map and the panic log. *)

Module Pipeline.

Record Queries := mkQueries {
  serverValid : bool;                 (* [serverSideValidation] does not throw *)
  timestampValid : bool;              (* [validateTimestamp] does not throw *)
  siteAccepted : bool;                (* [validateSite] does not throw *)
  emergencyRow : option (option Z);   (* for [validateEmergencyAttempt] *)
  activeRows : option nat;            (* for [validateSession] *)
  actionCount : option Z              (* for [getDiminishingReturnsMultiplier] *)
}.

Record State := mkState {
  rateLimits : gmap string (list Z);
  panicLogs : list Z
}.

Inductive Outcome :=
| Points (points : Z)
| ServerRefused
| TimestampRefused
| Thrown (e : Security.Error)
| SiteRefused
| CooldownRefused (remaining : Z).

Definition validate (userId : string) (now : Z) (action : string)
    (data : Security.ActionData) (q : Queries) (st : State) : Outcome * State :=
  if negb (serverValid q) then (ServerRefused, st)
  else if negb (timestampValid q) then (TimestampRefused, st)
  else
    match Security.checkRateLimit userId now action (rateLimits st) with
    | (Security.Throw e, _) => (Thrown e, st)
    | (Security.Ok _, rateLimits') =>
        let st1 := mkState rateLimits' (panicLogs st) in
        if String.eqb action "add_site" && negb (siteAccepted q)
        then (SiteRefused, st1)
        else
          match (if String.eqb action "panic_mode"
                 then Security.validatePanicMode now (panicLogs st)
                 else (Security.PanicAllowed, panicLogs st)) with
          | (Security.OnCooldown remaining, _) => (CooldownRefused remaining, st1)
          | (Security.PanicAllowed, panicLogs') =>
              let st2 := mkState rateLimits' panicLogs' in
              match (if String.eqb action "emergency_resist"
                     then Security.validateEmergencyAttempt (emergencyRow q)
                     else Security.Ok true) with
              | Security.Throw e => (Thrown e, st2)
              | Security.Ok _ =>
                  match (if JS.includes action "session"
                         then Security.validateSession data (activeRows q)
                         else Security.Ok true) with
                  | Security.Throw e => (Thrown e, st2)
                  | Security.Ok _ =>
                      (Points (Security.calculateSecurePoints action data
                                 (actionCount q)), st2)
                  end
              end
          end
    end.

(** One request as it reaches the pipeline. *)
Record Request := mkRequest {
  at_time : Z;
  data : Security.ActionData;
  queries : Queries
}.

(** The requests of one user for one action, one after the other. *)
Fixpoint validateAll (userId action : string) (requests : list Request)
    (st : State) : list Outcome * State :=
  match requests with
  | [] => ([], st)
  | r :: rest =>
      let step := validate userId (at_time r) action (data r) (queries r) st in
      (fst step :: fst (validateAll userId action rest (snd step)),
       snd (validateAll userId action rest (snd step)))
  end.

(** The request went past the limiter. *)
Definition pastLimiter (o : Outcome) : bool :=
  match o with
  | Thrown (Security.RateLimitExceeded _) => false
  | _ => true
  end.

End Pipeline.

(** ** The score kept by the backend ([BackendConnection.updateScore]) *)

Module Backend.

(** The score that [updateScore] writes, given the [total_score] it has
    read; the stored procedure [update_user_score_secure] computes the
    same. *)
Definition updateScore (total_score points : Z) : Z :=
  Z.max 0 (total_score + points).

(** One update after the other. *)
Definition updateScores (points : list Z) (total_score : Z) : Z :=
  fold_left updateScore points total_score.

End Backend.

(** ** Verification of the chain *)

Module IntegrityLog.

Import Security.

Inductive Verdict :=
| Valid
| TamperedAt (index : nat).

Section Verify.

Variable SHA256 : string -> string.
Variable JSON_stringify : BlockData -> string.
Variable difficulty : nat.

(** Modelled from the spec: [verifyChain(entries)]. The sources only hold
    the caller of the remote procedure [validate_blockchain_integrity]
    ([AdminDashboard.validateBlockchainIntegrity]); its body is missing.
    Following the specification, each entry's hash is recomputed (with
    [calculateHash], the digest of the sources) and the first index whose
    recomputed hash is not the stored one is reported, or [Valid] when
    there is none. An entry is the block kept in the [block_data] column;
    its points are [bd_points] of its [data]. *)
Fixpoint verifyFrom (index : nat) (entries : list Block) : Verdict :=
  match entries with
  | [] => Valid
  | e :: rest =>
      if String.eqb (calculateHash SHA256 JSON_stringify e) (hash e)
      then verifyFrom (S index) rest
      else TamperedAt index
  end.

Definition verifyChain (entries : list Block) : Verdict :=
  verifyFrom 0 entries.

(** The entries of a table, oldest first. *)
Definition entriesOf (table : list BlockRow) : list Block :=
  List.map block_data table.

(** A stored entry whose points are overwritten after the fact; the stored
    hash stays as it was. These are the points inside the block, which the
    digest reads; the row keeps them in a column as well, see
    [setPointsAwarded]. *)
Definition setPoints (p : Z) (e : Block) : Block :=
  mkBlock (timestamp e)
          (mkBlockData (bd_userId (data e)) (bd_action (data e)) p
                       (bd_timestamp (data e)) (bd_data (data e))
                       (bd_previousHash (data e)))
          (previousHash e) (nonce e) (hash e).

(** The [data] of a block with other points. *)
Definition setDataPoints (p : Z) (d : BlockData) : BlockData :=
  mkBlockData (bd_userId d) (bd_action d) p (bd_timestamp d) (bd_data d)
              (bd_previousHash d).

(** A stored row keeps the points twice: in the [points_awarded] column
    and, as [points], in the [data] of the block of its [block_data]
    column. A row whose block has its points overwritten after the fact;
    the column and the stored hash stay as they were. *)
Definition setBlockPoints (p : Z) (row : BlockRow) : BlockRow :=
  mkBlockRow (user_id row) (block_hash row) (previous_hash row)
             (action_type row) (points_awarded row)
             (setPoints p (block_data row)).

(** A row whose [points_awarded] column is overwritten after the fact; the
    block kept beside it stays as it was. *)
Definition setPointsAwarded (p : Z) (row : BlockRow) : BlockRow :=
  mkBlockRow (user_id row) (block_hash row) (previous_hash row)
             (action_type row) p (block_data row).

(** Tables that [recordToBlockchain] builds up from the empty one. *)
Inductive Appended : list BlockRow -> Prop :=
| Appended_nil : Appended []
| Appended_snoc table userId action points isoNow dataDigest now fuel row table' :
    Appended table ->
    recordToBlockchain SHA256 JSON_stringify difficulty userId action points
                       isoNow dataDigest now fuel table = Some (row, table') ->
    Appended table'.

(** The hash that [createBlock] tries at a given nonce, and the block
    that its loop holds at that point. *)
Definition hashAt (d : BlockData) (now : Z) (n : Z) : string :=
  calculateHash SHA256 JSON_stringify (mkBlock now d (bd_previousHash d) n "").

Definition blockAt (d : BlockData) (now : Z) (n : Z) : Block :=
  mkBlock now d (bd_previousHash d) n (hashAt d now n).

(** The proof-of-work postcondition of a stored row: the stored hash is the
    digest of the block's previous hash, time stamp, data and nonce, and it
    is mined. *)
Definition rowMined (row : BlockRow) : Prop :=
  block_hash row = hash (block_data row) /\
  hash (block_data row) = calculateHash SHA256 JSON_stringify (block_data row) /\
  mined difficulty (block_hash row) = true /\
  previous_hash row = previousHash (block_data row).

End Verify.

(** The hash of the last of [rows], or [prev] when there is none. *)
Definition lastHash (prev : string) (rows : list BlockRow) : string :=
  match List.rev rows with
  | r :: _ => block_hash r
  | [] => prev
  end.

(** Each row names the hash of the row before it, the first one [prev]. *)
Fixpoint linked (prev : string) (rows : list BlockRow) : Prop :=
  match rows with
  | [] => True
  | r :: rest => previous_hash r = prev /\ linked (block_hash r) rest
  end.

(** The rows of one user. *)
Definition rowsOf (userId : string) (table : list BlockRow) : list BlockRow :=
  List.filter (fun r => String.eqb (user_id r) userId) table.

End IntegrityLog.

(** ** Stand-ins for library code, used to run the model on examples *)

Module Samples.

Fixpoint checksum (s : string) : nat :=
  match s with
  | EmptyString => O
  | String c rest => (nat_of_ascii c + checksum rest)%nat
  end.

(** A digest that keeps its whole input (so it has no collisions) behind
    a two character tag; the tag is "00" for one input out of four. *)
Definition digest (s : string) : string :=
  (if (checksum s mod 4 =? 0)%nat then "00" else "1f") +:+ s.

Definition stringify (d : Security.BlockData) : string :=
  Security.bd_userId d +:+ "|" +:+ Security.bd_action d +:+ "|"
  +:+ JS.numberToString (Security.bd_points d) +:+ "|"
  +:+ Security.bd_timestamp d +:+ "|" +:+ Security.bd_data d +:+ "|"
  +:+ Security.bd_previousHash d.

(** A URL reader for [https://host/path] addresses; anything else does
    not parse. *)
Definition hostname (url : string) : option string :=
  if String.prefix "https://" url
  then Some (JS.beforeSlash (JS.stripPrefix "https://" url))
  else None.

Definition emptyStats : Stats := mkStats 0 0 0 [].

(** One more point transaction recorded with the stand-ins, the difficulty
    of the constructor and at most 64 turns of the mining loop. *)
Definition record (userId action : string) (points : Z) (isoNow : string)
    (now : Z) (table : list Security.BlockRow) : list Security.BlockRow :=
  match Security.recordToBlockchain digest stringify
          Security.constructedDifficulty userId action points isoNow "ctx"
          now 64 table with
  | Some (_, table') => table'
  | None => table
  end.

Definition log1 : list Security.BlockRow :=
  record "u1" "start_session" 350 "2025-09-02T10:00:00.000Z" 1756807200000 [].

Definition log2 : list Security.BlockRow :=
  record "u2" "add_site" 10 "2025-09-02T11:00:00.000Z" 1756810800000 log1.

Definition log3 : list Security.BlockRow :=
  record "u1" "daily_bonus" 10 "2025-09-03T10:00:00.000Z" 1756893600000 log2.

Definition idle (sites : list string) (score : Z) : Popup.State :=
  Popup.mkState sites None score 0 emptyStats None.

End Samples.

(** ** Statements of the specification *)

Module Spec.

Definition withAttempts (a : option Z) (s : Session) : Session :=
  mkSession (startTime s) (endTime s) (duration s) (blockedSites s) a
            (lastDailyBonus s).

Definition attemptsOf (st : Popup.State) : option Z :=
  match Popup.activeSession st with
  | Some s => Some (JS.orZero (emergencyAttempts s))
  | None => None
  end.

(** The claim about starting a session, in the words of the specification,
    for a start function of the shape of [Popup.startBlockSession] that is
    asked for [days] days and confirmed. A start fails when it is not
    [Started]; a failed start changes nothing. *)
Definition StartSessionSpec
    (start : Popup.State -> Popup.DurationChoice -> bool -> Z
             -> Popup.StartOutcome * Popup.State) : Prop :=
  forall st days now,
    let r := start st (Popup.Custom (Some days)) true now in
    (days < 1 \/ 365 < days -> fst r <> Popup.Started /\ snd r = st) /\
    (Popup.sites st = [] -> fst r = Popup.EmptySiteList /\ snd r = st) /\
    (Popup.activeSession st <> None -> fst r <> Popup.Started /\ snd r = st) /\
    (fst r = Popup.Started ->
     Popup.totalScore (snd r) = Popup.totalScore st + days * 50 /\
     Popup.activeSession (snd r) <> None).

(** The claim about the flow, in the words of the specification: a
    confirmation with an empty reason does not go through. *)
Definition MissingReasonSpec
    (confirm : Popup.State -> string -> Z -> option Popup.State) : Prop :=
  forall st now, confirm st "" now = None.

(** The claim about the counter, in the words of the specification: it stays
    within 0..3 however often the button is pressed on a new session. *)
Definition AttemptsCappedSpec : Prop :=
  forall st s n st',
    Popup.activeSession st = Some s ->
    emergencyAttempts s = Some 0 ->
    Popup.attempts n st = Some st' ->
    exists a, attemptsOf st' = Some a /\ 0 <= a <= 3.

(** Readings of the stored values. *)
Definition score (st : Background.Storage) : Z :=
  JS.orZero (Background.totalScore st).

Definition streak (st : Background.Storage) : Z :=
  JS.orZero (Background.currentStreak st).

(** [daysElapsed = floor((now - startTime) / 86400s)]. *)
Definition daysElapsed (s : Session) (now : Z) : Z :=
  (now - startTime s) / DAY_MS.

(** The session keeps the bonus already granted in points, ten per day:
    the last day paid for is a tenth of it. *)
Definition lastDailyBonusDay (s : Session) : Z :=
  JS.orZero (lastDailyBonus s) / 10.

(** The claim about natural completion, in the words of the specification:
    the days counted never exceed the length of the session. *)
Definition CompletionClampedSpec : Prop :=
  forall s now st d b,
    snd (Background.completeSession s now st) = Background.SessionCompleted d b ->
    d <= duration s.

(** The configured windows, in the words of the specification: the action,
    its maximum and its window in milliseconds. *)
Definition specWindow (action : string) : option (nat * Z) :=
  if String.eqb action "add_site" then Some (5%nat, 3600 * 1000)
  else if String.eqb action "panic_mode" then Some (3%nat, 1800 * 1000)
  else if String.eqb action "emergency_resist" then Some (10%nat, 3600 * 1000)
  else if String.eqb action "start_session" then Some (3%nat, 86400 * 1000)
  else None.

(** The time stamps of a key that lie within the trailing window. *)
Definition recent (rateLimits : gmap string (list Z)) (key : string)
    (now window : Z) : list Z :=
  List.filter (fun time => now - time <? window) (default [] (rateLimits !! key)).

(** What the specification asks of [checkAndRecord] for an action with a
    window of [window] milliseconds and a maximum of [max]. *)
Definition LimitedAs (action : string) (max : nat) (window : Z) : Prop :=
  forall userId now (rateLimits : gmap string (list Z)),
    let key := Security.rateKey action userId in
    let inWindow := recent rateLimits key now window in
    Security.checkRateLimit userId now action rateLimits
    = if (max <=? length inWindow)%nat
      then (Security.Throw (Security.RateLimitExceeded action), rateLimits)
      else (Security.Ok true, <[key := inWindow ++ [now]]> rateLimits).

Definition RateLimitSpec : Prop :=
  forall action max window,
    specWindow action = Some (max, window) -> LimitedAs action max window.

(** The multiplier of the specification, in tenths. *)
Definition specMultiplierTenths (count : Z) : Z :=
  if count <? 10 then 10
  else if count <? 50 then 8
  else if count <? 100 then 6
  else 4.

(** The base table of the specification; an action whose context value is
    missing has no base. *)
Definition specBase (action : string) (data : Security.ActionData) : option Z :=
  if String.eqb action "add_site" then Some 10
  else if String.eqb action "start_session"
       then option_map (fun d => d * 50) (Security.d_duration data)
  else if String.eqb action "complete_session"
       then option_map (fun d => d * 100) (Security.d_daysCompleted data)
  else if String.eqb action "daily_bonus" then Some 10
  else if String.eqb action "panic_mode" then Some 25
  else if String.eqb action "emergency_resist" then Some 25
  else None.

(** [floor(base * multiplier)] for a multiplier of [tenths] tenths. *)
Definition PointPolicySpec : Prop :=
  forall action data count base,
    specBase action data = Some base ->
    Security.calculateSecurePoints action data (Some count)
    = base * specMultiplierTenths count / 10.

(** The example of the specification: for a user without earlier
    occurrences, the 9th [add_site] yields 10 points, the 11th 8, the 51st
    6 and the 101st 4. *)
Definition DiminishingOccurrencesSpec : Prop :=
  forall userId data,
    let points :=
      fst (Security.pricedOccurrences userId "add_site" (repeat data 101) ∅) in
    points !! 8%nat = Some 10 /\ points !! 10%nat = Some 8 /\
    points !! 50%nat = Some 6 /\ points !! 100%nat = Some 4.

(** The claim about tampering, in the words of the specification, read on
    the column that bears the name: overwriting the points awarded of one
    stored row makes [verifyChain] report that row. *)
Definition TamperReportedSpec (SHA256 : string -> string)
    (JSON_stringify : Security.BlockData -> string) (difficulty : nat) : Prop :=
  forall table i row p,
    IntegrityLog.Appended SHA256 JSON_stringify difficulty table ->
    table !! i = Some row ->
    p <> Security.points_awarded row ->
    IntegrityLog.verifyChain SHA256 JSON_stringify
      (IntegrityLog.entriesOf (<[i := IntegrityLog.setPointsAwarded p row]> table))
    = IntegrityLog.TamperedAt i.

(** [needle] occurs in [hay] as a substring. *)
Definition isSubstring (needle hay : string) : Prop :=
  exists before after, hay = before +:+ needle +:+ after.

(** The claim about the blocking status, in the words of the specification,
    for a given reading of URLs. *)
Definition BlockingSpec (URL_hostname : string -> option string) : Prop :=
  forall st url now,
    let r := Background.getBlockingStatus URL_hostname st url now in
    (Background.activeSession st = None -> Background.blocked r = false) /\
    (forall s, Background.activeSession st = Some s ->
       (Background.blocked r = true <->
        exists site, In site (blockedSites s) /\
                     isSubstring site (Background.extractDomain URL_hostname url))) /\
    (URL_hostname url = None ->
     Background.extractDomain URL_hostname url = "" /\
     Background.blocked r = false).

(** The claim about the daily bonus, in the words of the specification: on
    any stored session a tick pays ten points for each elapsed day that is
    not paid yet. *)
Definition DailyBonusSpec : Prop :=
  forall st s now,
    Background.activeSession st = Some s ->
    JS.orZero (lastDailyBonus s) = 10 * lastDailyBonusDay s ->
    score (fst (Background.updateSession now st))
    = score st + (if daysElapsed s now >? lastDailyBonusDay s
                  then 10 * (daysElapsed s now - lastDailyBonusDay s)
                  else 0).

(** The numeric options of the duration select are positive day counts
    (the page that holds them is not part of the sources): an action is
    permitted when it does not pick a day count below one from the list. *)
Definition Permitted (a : Popup.Action) : Prop :=
  match a with
  | Popup.StartBlockSession (Popup.Preset days) _ _ => 1 <= days
  | _ => True
  end.

(** A popup object in good order: score and streak are not negative, the
    streak does not exceed the best streak, no site is listed twice, and a
    stored session lasts [duration] whole days, at least one, with a
    counter of emergency attempts that is not negative. *)
Record Healthy (st : Popup.State) : Prop := mkHealthy {
  healthy_score : 0 <= Popup.totalScore st;
  healthy_streak : 0 <= Popup.currentStreak st;
  healthy_best : Popup.currentStreak st <= bestStreak (Popup.stats st);
  healthy_sites : List.NoDup (Popup.sites st);
  healthy_session : forall s,
    Popup.activeSession st = Some s ->
    1 <= duration s /\ endTime s = startTime s + duration s * DAY_MS /\
    0 <= JS.orZero (emergencyAttempts s)
}.

(** Whether a call of the limiter went through. *)
Definition accepted (r : Security.Result bool) : bool :=
  match r with
  | Security.Ok _ => true
  | Security.Throw _ => false
  end.

(** A sliding-window limiter that forgets nothing: it keeps the times of
    all the calls it has let through, and lets a call through when fewer
    than [max] of them lie within the trailing window. *)
Fixpoint slidingWindow (max : nat) (window : Z) (history nows : list Z)
    : list bool * list Z :=
  match nows with
  | [] => ([], history)
  | now :: rest =>
      let inWindow := List.filter (fun time => now - time <? window) history in
      if (max <=? length inWindow)%nat then
        (false :: fst (slidingWindow max window history rest),
         snd (slidingWindow max window history rest))
      else
        (true :: fst (slidingWindow max window (history ++ [now]) rest),
         snd (slidingWindow max window (history ++ [now]) rest))
  end.

(** The instants of the calls that went through. *)
Fixpoint acceptedTimes (nows : list Z) (outcomes : list bool) : list Z :=
  match nows, outcomes with
  | now :: nows', true :: outcomes' => now :: acceptedTimes nows' outcomes'
  | _ :: nows', false :: outcomes' => acceptedTimes nows' outcomes'
  | _, _ => []
  end.

End Spec.

Import Spec.

(** * Properties *)

(** ** Starting a session *)

Lemma startBlockSession_empty st choice confirmed now :
  Popup.sites st = [] ->
  Popup.startBlockSession st choice confirmed now = (Popup.EmptySiteList, st).
Proof. intros H. unfold Popup.startBlockSession. now rewrite H. Qed.

Lemma chosenDays_custom_range d days :
  Popup.chosenDays (Popup.Custom d) = Some days -> d = Some days /\ 1 <= days <= 365.
Proof.
  unfold Popup.chosenDays. destruct d as [v|]; simpl; [|discriminate].
  destruct (v =? 0) eqn:E0; simpl; [discriminate|].
  destruct (v <? 1) eqn:E1; simpl; [discriminate|].
  destruct (v >? 365) eqn:E2; simpl; [discriminate|].
  intros [= <-]. split; [reflexivity | lia].
Qed.

Lemma startBlockSession_custom_invalid st d confirmed now :
  Popup.sites st <> [] ->
  (forall v, d = Some v -> v < 1 \/ 365 < v) ->
  Popup.startBlockSession st (Popup.Custom d) confirmed now
  = (Popup.InvalidDuration, st).
Proof.
  intros Hs Hd. unfold Popup.startBlockSession.
  destruct (Popup.sites st) as [|x xs]; [congruence|].
  destruct (Popup.chosenDays (Popup.Custom d)) as [days|] eqn:E; [|reflexivity].
  apply chosenDays_custom_range in E as [-> Hr].
  destruct (Hd days eq_refl); lia.
Qed.

(** A start that goes through adds [days * 50] points and stores a session
    that runs from [now] for [days] days over a copy of the site list, with
    no emergency attempt so far. *)
Lemma startBlockSession_started st choice confirmed now st' :
  Popup.startBlockSession st choice confirmed now = (Popup.Started, st') ->
  exists days,
    Popup.chosenDays choice = Some days /\
    Popup.totalScore st' = Popup.totalScore st + days * 50 /\
    Popup.currentStreak st' = Popup.currentStreak st /\
    Popup.activeSession st'
    = Some (mkSession now (now + days * DAY_MS) days (Popup.sites st) (Some 0) None).
Proof.
  unfold Popup.startBlockSession.
  destruct (Popup.sites st) as [|x xs] eqn:Hs; [discriminate|].
  destruct (Popup.chosenDays choice) as [days|]; [|discriminate].
  destruct confirmed; [|discriminate].
  intros [= <-]. exists days. simpl. repeat split.
  do 2 f_equal. unfold DAY_MS. lia.
Qed.

Lemma validateSession_duration data rows d :
  Security.d_duration data = Some d -> d < 1 \/ 365 < d ->
  Security.validateSession data rows = Security.Throw Security.InvalidSessionDuration.
Proof.
  intros Hd Hr. unfold Security.validateSession. rewrite Hd.
  destruct (d <? 1) eqn:E1; [reflexivity|].
  destruct (d >? 365) eqn:E2; [reflexivity|]. lia.
Qed.

(** The check for a running session looks for [data.action], which the
    request of [startSecureBlockSession] does not carry: the request passes
    however many active rows the user has. *)
Lemma validateSession_start_request days rows :
  1 <= days <= 365 ->
  Security.validateSession (SecurePopup.startSessionData days) (Some rows)
  = Security.Ok true.
Proof.
  intros Hr. unfold Security.validateSession, SecurePopup.startSessionData. simpl.
  destruct (days <? 1) eqn:E1; [lia|].
  destruct (days >? 365) eqn:E2; [lia|]. simpl.
  now rewrite andb_false_r.
Qed.

(** Apart from the check for a running session, [startBlockSession] does
    what the specification asks of a start. *)
Lemma startBlockSession_other_parts st days now :
  let r := Popup.startBlockSession st (Popup.Custom (Some days)) true now in
  (days < 1 \/ 365 < days -> fst r <> Popup.Started /\ snd r = st) /\
  (Popup.sites st = [] -> fst r = Popup.EmptySiteList /\ snd r = st) /\
  (fst r = Popup.Started ->
   Popup.totalScore (snd r) = Popup.totalScore st + days * 50 /\
   Popup.activeSession (snd r) <> None).
Proof.
  intros r. split; [|split].
  - intros Hd. destruct (Popup.sites st) as [|x xs] eqn:Hs; subst r.
    + rewrite startBlockSession_empty by exact Hs. split; [discriminate | reflexivity].
    + rewrite startBlockSession_custom_invalid.
      * split; [discriminate | reflexivity].
      * now rewrite Hs.
      * now intros v [= <-].
  - intros Hs. subst r. now rewrite startBlockSession_empty.
  - intros Hst. destruct r as [o st'] eqn:E. simpl in *. subst o.
    apply startBlockSession_started in E as (d & Hc & Hsc & _ & Ha).
    apply chosenDays_custom_range in Hc as [[= ->] _].
    split; [exact Hsc | now rewrite Ha].
Qed.

(** C1 (evaluation at the failing input). A user with the site
    [example.com] and 100 points is three days into a 7 day session; the
    start button is pressed again, for 7 days (typed into the custom box or
    picked from the list), and the dialog is confirmed, at time
    [3 * DAY_MS]. The popup does not refuse: it starts a second session over
    the first and adds another 350 points. The validator of the hardened
    pipeline lets the same request through although one active row
    exists. *)
Theorem C1_start_over_active_session :
  let running := mkSession 0 (7 * DAY_MS) 7 ["example.com"] (Some 0) None in
  let st := Popup.mkState ["example.com"] (Some running) 100 0
                          Samples.emptyStats None in
  let restarted :=
    Popup.mkState ["example.com"]
      (Some (mkSession (3 * DAY_MS) (10 * DAY_MS) 7 ["example.com"] (Some 0) None))
      450 0 Samples.emptyStats None in
  Popup.startBlockSession st (Popup.Custom (Some 7)) true (3 * DAY_MS)
  = (Popup.Started, restarted)
  /\ Popup.startBlockSession st (Popup.Preset 7) true (3 * DAY_MS)
     = (Popup.Started, restarted)
  /\ Security.validateSession (SecurePopup.startSessionData 7) (Some 1%nat)
     = Security.Ok true
  /\ ~ StartSessionSpec Popup.startBlockSession.
Proof.
  split; [reflexivity|]. split; [reflexivity|]. split; [reflexivity|].
  intros H.
  pose (running := mkSession 0 (7 * DAY_MS) 7 ["example.com"] (Some 0) None).
  destruct (H (Popup.mkState ["example.com"] (Some running) 100 0
                             Samples.emptyStats None) 7 (3 * DAY_MS))
    as (_ & _ & Hactive & _).
  destruct Hactive as [Hfail _]; [discriminate|].
  apply Hfail. reflexivity.
Qed.

(** ** The emergency-disable flow *)

(** One press of the emergency button: the counter goes up by one, the form
    opens from the third press on, and neither the score nor the streak
    moves. *)
Lemma attemptEmergencyDisable_step st s :
  Popup.activeSession st = Some s ->
  exists st',
    Popup.attemptEmergencyDisable st
    = Some (if JS.orZero (emergencyAttempts s) + 1 >=? 3
            then Popup.ShowEmergencyDisableForm
            else Popup.ShowMotivationalIntervention, st') /\
    Popup.activeSession st'
    = Some (withAttempts (Some (JS.orZero (emergencyAttempts s) + 1)) s) /\
    Popup.totalScore st' = Popup.totalScore st /\
    Popup.currentStreak st' = Popup.currentStreak st.
Proof.
  intros H. unfold Popup.attemptEmergencyDisable. rewrite H.
  eexists. split; [reflexivity|]. simpl. repeat split.
Qed.

Lemma attempts_count n : forall st s,
  Popup.activeSession st = Some s ->
  exists st',
    Popup.attempts n st = Some st' /\
    attemptsOf st' = Some (JS.orZero (emergencyAttempts s) + Z.of_nat n) /\
    Popup.totalScore st' = Popup.totalScore st /\
    Popup.currentStreak st' = Popup.currentStreak st.
Proof.
  induction n as [|n IH]; intros st s H.
  - exists st. unfold attemptsOf. rewrite H. simpl. repeat split.
    f_equal. lia.
  - destruct (attemptEmergencyDisable_step st s H) as (st1 & E & Hs & Hsc & Hstr).
    destruct (IH st1 _ Hs) as (st' & E' & Ha & Hsc' & Hstr').
    exists st'. simpl Popup.attempts. rewrite E. split; [exact E'|].
    split; [|split; congruence].
    rewrite Ha. simpl. f_equal. lia.
Qed.

(** Whenever it runs, [performEmergencyDisable] zeroes the streak, takes 500
    points without going below zero, and ends the session; the reason is
    only copied into the log. *)
Lemma performEmergencyDisable_penalty st s reason now :
  Popup.activeSession st = Some s ->
  exists st',
    Popup.performEmergencyDisable st reason now = Some st' /\
    Popup.currentStreak st' = 0 /\
    Popup.totalScore st' = Z.max 0 (Popup.totalScore st - 500) /\
    Popup.activeSession st' = None /\
    Popup.lastEmergencyDisable st'
    = Some (Popup.mkEmergencyLog now reason (now - startTime s) 500).
Proof.
  intros H. unfold Popup.performEmergencyDisable. rewrite H.
  eexists. split; [reflexivity|]. simpl. repeat split.
Qed.

Lemma trimStart_blank s :
  JS.trim s = "" <-> JS.trimStart s = "".
Proof.
  unfold JS.trim. split; intros H; [|now rewrite H].
  destruct (JS.trimStart s) as [|c r] eqn:E; [reflexivity|].
  assert (Hc : JS.isSpace c = false).
  { clear H. revert c r E. induction s as [|a s IH]; simpl; [discriminate|].
    intros c r. destruct (JS.isSpace a) eqn:Ea.
    - apply IH.
    - intros [= <- <-]. exact Ea. }
  simpl in H. rewrite Hc in H. destruct (JS.trimEnd r); discriminate.
Qed.

(** The hardened form refuses a reason that is empty or only white space. *)
Lemma secure_emergencyConfirm_blank reasonBox :
  JS.trimStart reasonBox = "" ->
  SecurePopup.emergencyConfirm reasonBox = SecurePopup.ReasonRequired.
Proof.
  intros H. apply trimStart_blank in H. unfold SecurePopup.emergencyConfirm.
  now rewrite H.
Qed.

(** C2 (evaluation at the failing input). A user with 300 points and a
    streak of 4 has a running session. The first two presses of the
    emergency button show the intervention and change neither score nor
    streak, the third opens the form. Confirming the form with an empty
    reason box is not refused by the popup: the session is disabled, the
    streak is 0 and the score is 0 (300 - 500 floored at 0). The form of the
    hardened popup refuses the same empty reason. *)
Theorem C2_empty_reason_is_accepted :
  let running := mkSession 0 (7 * DAY_MS) 7 ["example.com"] (Some 0) None in
  let st0 := Popup.mkState ["example.com"] (Some running) 300 4
                           Samples.emptyStats None in
  let st1 := Popup.mkState ["example.com"] (Some (withAttempts (Some 1) running))
                           300 4 Samples.emptyStats None in
  let st2 := Popup.mkState ["example.com"] (Some (withAttempts (Some 2) running))
                           300 4 Samples.emptyStats None in
  let st3 := Popup.mkState ["example.com"] (Some (withAttempts (Some 3) running))
                           300 4 Samples.emptyStats None in
  Popup.attemptEmergencyDisable st0
  = Some (Popup.ShowMotivationalIntervention, st1) /\
  Popup.attemptEmergencyDisable st1
  = Some (Popup.ShowMotivationalIntervention, st2) /\
  Popup.attemptEmergencyDisable st2
  = Some (Popup.ShowEmergencyDisableForm, st3) /\
  Popup.emergencyConfirm st3 "" DAY_MS
  = Some (Popup.mkState ["example.com"] None 0 0 Samples.emptyStats
            (Some (Popup.mkEmergencyLog DAY_MS "" DAY_MS 500))) /\
  SecurePopup.emergencyConfirm "" = SecurePopup.ReasonRequired /\
  ~ MissingReasonSpec Popup.emergencyConfirm.
Proof.
  repeat (split; [reflexivity|]).
  intros H.
  specialize (H (Popup.mkState [] (Some (mkSession 0 0 0 [] None None)) 0 0
                               Samples.emptyStats None) 0).
  discriminate H.
Qed.

(** C9 (counterexample). Four presses of the emergency button on a new
    session leave the counter at 4. *)
Lemma C9_four_attempts :
  let running := mkSession 0 (7 * DAY_MS) 7 ["example.com"] (Some 0) None in
  let st := Popup.mkState ["example.com"] (Some running) 0 0
                          Samples.emptyStats None in
  (exists st', Popup.attempts 4 st = Some st' /\ attemptsOf st' = Some 4) /\
  ~ AttemptsCappedSpec.
Proof.
  split.
  - eexists. split; reflexivity.
  - intros H.
    pose (running := mkSession 0 (7 * DAY_MS) 7 ["example.com"] (Some 0) None).
    destruct (H (Popup.mkState ["example.com"] (Some running) 0 0
                               Samples.emptyStats None)
                running 4%nat _ eq_refl eq_refl eq_refl) as (a & Ha & Hr).
    injection Ha as <-. lia.
Qed.

(** C9 (amended). On a session whose counter is not negative, [n] presses
    of the emergency button always go through and leave the counter at its
    old value plus [n]: it never goes below zero and it is not capped. Each
    press opens the disable form exactly when the counter it leaves is 3 or
    more. *)
Theorem C9_attempts_count st s n :
  Popup.activeSession st = Some s ->
  0 <= JS.orZero (emergencyAttempts s) ->
  (exists st',
     Popup.attempts n st = Some st' /\
     attemptsOf st' = Some (JS.orZero (emergencyAttempts s) + Z.of_nat n) /\
     0 <= JS.orZero (emergencyAttempts s) + Z.of_nat n) /\
  (exists st1,
     Popup.attemptEmergencyDisable st
     = Some (if 3 <=? JS.orZero (emergencyAttempts s) + 1
             then Popup.ShowEmergencyDisableForm
             else Popup.ShowMotivationalIntervention, st1) /\
     attemptsOf st1 = Some (JS.orZero (emergencyAttempts s) + 1)).
Proof.
  intros H H0. split.
  - destruct (attempts_count n st s H) as (st' & E & Ha & _).
    exists st'. repeat split; [exact E | exact Ha | lia].
  - destruct (attemptEmergencyDisable_step st s H) as (st1 & E & Hs & _).
    exists st1. split.
    + rewrite E. now rewrite Z.geb_leb.
    + unfold attemptsOf. now rewrite Hs.
Qed.

Lemma C9_attempts_count_witness :
  let running := mkSession 0 (7 * DAY_MS) 7 ["example.com"] (Some 0) None in
  let st := Popup.mkState ["example.com"] (Some running) 0 0
                          Samples.emptyStats None in
  (exists st',
     Popup.attempts 5 st = Some st' /\
     attemptsOf st' = Some (0 + Z.of_nat 5) /\
     0 <= 0 + Z.of_nat 5) /\
  (exists st1,
     Popup.attemptEmergencyDisable st
     = Some (if 3 <=? 0 + 1
             then Popup.ShowEmergencyDisableForm
             else Popup.ShowMotivationalIntervention, st1) /\
     attemptsOf st1 = Some (0 + 1)).
Proof.
  intros running st.
  apply (C9_attempts_count st running 5 eq_refl).
  simpl. lia.
Defined.

(** ** The daily bonus *)

Lemma dailyBonus_days x :
  x / (60 * 60 * 1000) / 24 * 10 = 10 * (x / DAY_MS).
Proof.
  rewrite Z.div_div by lia. unfold DAY_MS.
  replace (60 * 60 * 1000 * 24) with (24 * 60 * 60 * 1000) by lia. lia.
Qed.

(** The tick of a session that has not reached its end. *)
Lemma updateSession_running st s now :
  Background.activeSession st = Some s ->
  now < endTime s ->
  Background.updateSession now st
  = if 10 * daysElapsed s now >? JS.orZero (lastDailyBonus s)
    then
      (Background.mkStorage
         (Some (mkSession (startTime s) (endTime s) (duration s) (blockedSites s)
                          (emergencyAttempts s) (Some (10 * daysElapsed s now))))
         (Background.currentStreak st)
         (Some (score st + (10 * daysElapsed s now - JS.orZero (lastDailyBonus s))))
         (Background.stats st),
       Background.DailyProgress
         (10 * daysElapsed s now - JS.orZero (lastDailyBonus s)))
    else (st, Background.NothingToAward).
Proof.
  intros Ha Hend. unfold Background.updateSession. rewrite Ha.
  destruct (now >=? endTime s) eqn:E; [lia|].
  rewrite dailyBonus_days. reflexivity.
Qed.

Lemma updateSession_paid st s now :
  Background.activeSession st = Some s ->
  now < endTime s ->
  10 * daysElapsed s now <= JS.orZero (lastDailyBonus s) ->
  Background.updateSession now st = (st, Background.NothingToAward).
Proof.
  intros Ha Hend Hp. rewrite (updateSession_running st s now Ha Hend).
  destruct (10 * daysElapsed s now >? JS.orZero (lastDailyBonus s)) eqn:E;
    [lia | reflexivity].
Qed.

Lemma ticks_paid st s now n :
  Background.activeSession st = Some s ->
  now < endTime s ->
  10 * daysElapsed s now <= JS.orZero (lastDailyBonus s) ->
  Background.ticks (repeat now n) st = st.
Proof.
  intros Ha Hend Hp. induction n as [|n IH]; [reflexivity|].
  simpl. now rewrite (updateSession_paid st s now Ha Hend Hp).
Qed.

(** After a tick before the end, the session is still there with the same
    start and end, and the day of the tick is paid for. *)
Lemma updateSession_running_after st s now :
  Background.activeSession st = Some s ->
  now < endTime s ->
  exists s',
    Background.activeSession (fst (Background.updateSession now st)) = Some s' /\
    startTime s' = startTime s /\ endTime s' = endTime s /\
    JS.orZero (lastDailyBonus s')
    = Z.max (10 * daysElapsed s now) (JS.orZero (lastDailyBonus s)).
Proof.
  intros Ha Hend. rewrite (updateSession_running st s now Ha Hend).
  destruct (10 * daysElapsed s now >? JS.orZero (lastDailyBonus s)) eqn:E.
  - eexists. split; [reflexivity|]. simpl. repeat split. lia.
  - exists s. simpl. repeat split; [exact Ha | lia].
Qed.

(** The bonus recorded in a stored session stays a multiple of ten points:
    a new session has none, and a tick before the end records ten times
    the elapsed days. *)
Lemma lastDailyBonus_whole_days st s now :
  Background.activeSession st = Some s ->
  now < endTime s ->
  JS.orZero (lastDailyBonus s) = 10 * lastDailyBonusDay s ->
  exists s',
    Background.activeSession (fst (Background.updateSession now st)) = Some s' /\
    JS.orZero (lastDailyBonus s') = 10 * lastDailyBonusDay s' /\
    lastDailyBonusDay s' = Z.max (daysElapsed s now) (lastDailyBonusDay s).
Proof.
  intros Ha Hend Hl.
  destruct (updateSession_running_after st s now Ha Hend)
    as (s' & Ha' & _ & _ & Hl').
  exists s'. split; [exact Ha'|].
  assert (E : JS.orZero (lastDailyBonus s')
              = 10 * Z.max (daysElapsed s now) (lastDailyBonusDay s)) by lia.
  assert (D : lastDailyBonusDay s'
              = Z.max (daysElapsed s now) (lastDailyBonusDay s)).
  { unfold lastDailyBonusDay at 1. rewrite E, Z.mul_comm. apply Z.div_mul. lia. }
  split; [rewrite D; exact E | exact D].
Qed.

(** C3 (counterexample). A two day session is ticked when exactly two days
    have elapsed and no day is paid yet. The end time is reached, so the
    tick completes the session: it pays the completion bonus of 200 points
    and no daily bonus, where the claim has 20 points; four more ticks find
    no session and pay nothing. *)
Lemma C3_tick_at_end_time :
  let s := mkSession 0 (2 * DAY_MS) 2 ["example.com"] (Some 0) None in
  let st := Background.mkStorage (Some s) (Some 0) (Some 100) None in
  let now := 2 * DAY_MS in
  daysElapsed s now = 2 /\ lastDailyBonusDay s = 0 /\
  snd (Background.updateSession now st) = Background.SessionCompleted 2 200 /\
  score (fst (Background.updateSession now st)) = 300 /\
  score (Background.ticks (repeat now 5) st) = 300 /\
  ~ DailyBonusSpec.
Proof.
  repeat (split; [reflexivity|]).
  intros H.
  pose (s := mkSession 0 (2 * DAY_MS) 2 ["example.com"] (Some 0) None).
  specialize (H (Background.mkStorage (Some s) (Some 0) (Some 100) None) s
                (2 * DAY_MS) eq_refl eq_refl).
  discriminate H.
Qed.

(** C3 (amended). For a stored session that has not reached its end time
    (from the end time on the tick completes the session instead) and whose
    granted bonus stands for [lastDailyBonusDay] whole days: a tick at
    [now], with
    [daysElapsed = floor((now - startTime) / 86400s)], adds
    [10 * (daysElapsed - lastDailyBonusDay)] points when [daysElapsed]
    exceeds [lastDailyBonusDay] and nothing otherwise; a further tick at any
    instant of the same elapsed day adds nothing; neither does any number of
    repeated ticks; and with two days elapsed and no day paid yet, five
    ticks in a row add 20 points in all. *)
Theorem C3_daily_bonus_tick st s now :
  Background.activeSession st = Some s ->
  now < endTime s ->
  JS.orZero (lastDailyBonus s) = 10 * lastDailyBonusDay s ->
  let d := daysElapsed s now in
  let l := lastDailyBonusDay s in
  let st' := fst (Background.updateSession now st) in
  snd (Background.updateSession now st)
  = (if d >? l then Background.DailyProgress (10 * (d - l))
     else Background.NothingToAward) /\
  score st' = score st + (if d >? l then 10 * (d - l) else 0) /\
  (forall now', now' < endTime s -> daysElapsed s now' = d ->
     Background.updateSession now' st' = (st', Background.NothingToAward)) /\
  (forall n, Background.ticks (repeat now n) st' = st') /\
  (d = 2 -> l = 0 ->
   score (Background.ticks (repeat now 5) st) = score st + 20).
Proof.
  intros Ha Hend Hl d l st'.
  assert (Hout : snd (Background.updateSession now st)
                 = (if d >? l then Background.DailyProgress (10 * (d - l))
                    else Background.NothingToAward)).
  { rewrite (updateSession_running st s now Ha Hend). fold d.
    rewrite Hl. fold l.
    destruct (10 * d >? 10 * l) eqn:E; destruct (d >? l) eqn:E'; try lia.
    - simpl. f_equal. lia.
    - reflexivity. }
  assert (Hscore : score st' = score st + (if d >? l then 10 * (d - l) else 0)).
  { subst st'. rewrite (updateSession_running st s now Ha Hend). fold d.
    rewrite Hl. fold l.
    destruct (10 * d >? 10 * l) eqn:E; destruct (d >? l) eqn:E'; try lia.
    - unfold score at 1. simpl. lia.
    - simpl. lia. }
  destruct (updateSession_running_after st s now Ha Hend)
    as (s' & Ha' & Hst & Hen & Hl'). fold st' in Ha'. fold d in Hl'.
  assert (Hpaid : forall now', daysElapsed s now' = d ->
                    10 * daysElapsed s' now' <= JS.orZero (lastDailyBonus s')).
  { intros now' Hd. unfold daysElapsed in *. rewrite Hst, Hd, Hl'. lia. }
  split; [exact Hout|]. split; [exact Hscore|]. split; [|split].
  - intros now' Hend' Hd.
    apply (updateSession_paid st' s' now' Ha'); [lia | auto].
  - intros n. apply (ticks_paid st' s' now n Ha'); [lia | auto].
  - intros Hd2 Hl0.
    change (Background.ticks (repeat now 5) st)
      with (Background.ticks (repeat now 4) st').
    rewrite (ticks_paid st' s' now 4 Ha'); [| lia | auto].
    rewrite Hscore, Hd2, Hl0. reflexivity.
Qed.

Lemma C3_daily_bonus_tick_witness :
  let s := mkSession 0 (7 * DAY_MS) 7 ["example.com"] (Some 0) None in
  let st := Background.mkStorage (Some s) (Some 0) (Some 350) None in
  let now := 2 * DAY_MS + 5 in
  (now < endTime s /\ JS.orZero (lastDailyBonus s) = 10 * lastDailyBonusDay s) /\
  snd (Background.updateSession now st) = Background.DailyProgress 20 /\
  score (fst (Background.updateSession now st)) = 370 /\
  score (Background.ticks (repeat now 5) st) = 370.
Proof.
  intros s st now.
  assert (Hend : now < endTime s) by reflexivity.
  assert (Hl : JS.orZero (lastDailyBonus s) = 10 * lastDailyBonusDay s)
    by reflexivity.
  destruct (C3_daily_bonus_tick st s now eq_refl Hend Hl)
    as (Hout & Hscore & _ & _ & Hfive).
  split; [split; [exact Hend | exact Hl]|].
  split; [exact Hout|]. split; [exact Hscore|].
  exact (Hfive eq_refl eq_refl).
Defined.

(** ** Natural completion *)

(** From the end time on, the tick hands the session to [completeSession];
    after that there is no session left and a tick changes nothing. *)
Lemma updateSession_expired st s now :
  Background.activeSession st = Some s ->
  endTime s <= now ->
  Background.updateSession now st = Background.completeSession s now st /\
  forall now',
    Background.updateSession now' (fst (Background.completeSession s now st))
    = (fst (Background.completeSession s now st), Background.NoActiveSession).
Proof.
  intros Ha Hend. unfold Background.updateSession. rewrite Ha.
  destruct (now >=? endTime s) eqn:E; [|lia]. split; reflexivity.
Qed.

Lemma days_of_whole_days k : k * DAY_MS / DAY_MS = k.
Proof. apply Z.div_mul. unfold DAY_MS. lia. Qed.

(** C6 (counterexample). A one day session that is completed ten days
    after its start counts ten days, pays 1000 points and adds ten days to
    the streak. *)
Lemma C6_unclamped_days :
  let s := mkSession 0 DAY_MS 1 ["example.com"] (Some 0) None in
  let st := Background.mkStorage (Some s) (Some 0) (Some 50) None in
  Background.updateSession (10 * DAY_MS) st
  = (Background.mkStorage None (Some 10) (Some 1050)
       (Some (mkStats 10 10 1 [mkHistoryEntry (10 * DAY_MS) 10 10])),
     Background.SessionCompleted 10 1000) /\
  ~ CompletionClampedSpec.
Proof.
  split; [reflexivity|].
  intros H.
  pose (s := mkSession 0 DAY_MS 1 ["example.com"] (Some 0) None).
  specialize (H s (10 * DAY_MS)
                (Background.mkStorage (Some s) (Some 0) (Some 50) None)
                10 1000 eq_refl).
  simpl in H. lia.
Qed.

(** C6 (amended). Natural completion counts
    [daysCompleted = floor((now - startTime) / 86400s)] and does not clamp
    it: completed [k] whole days after the start it counts [k] days, whatever
    the session's length. It pays [daysCompleted * 100] points, adds
    [daysCompleted] to the streak and leaves no active session, in the
    background worker and in the popup alike; completed at the start time
    it counts 0 days and pays nothing. *)
Theorem C6_completion s now st p :
  let d := daysElapsed s now in
  (snd (Background.completeSession s now st) = Background.SessionCompleted d (d * 100) /\
   score (fst (Background.completeSession s now st)) = score st + d * 100 /\
   streak (fst (Background.completeSession s now st)) = streak st + d /\
   Background.activeSession (fst (Background.completeSession s now st)) = None) /\
  (forall k,
     snd (Background.completeSession s (startTime s + k * DAY_MS) st)
     = Background.SessionCompleted k (k * 100)) /\
  (snd (Background.completeSession s (startTime s) st)
   = Background.SessionCompleted 0 0 /\
   score (fst (Background.completeSession s (startTime s) st)) = score st) /\
  (Popup.completeSession
     (Popup.mkState (Popup.sites p) (Some s) (Popup.totalScore p)
                    (Popup.currentStreak p) (Popup.stats p)
                    (Popup.lastEmergencyDisable p)) now
   = Some (Popup.mkState (Popup.sites p) None (Popup.totalScore p + d * 100)
             (Popup.currentStreak p + d)
             (mkStats (totalCleanDays (Popup.stats p) + d)
                      (Z.max (bestStreak (Popup.stats p)) (Popup.currentStreak p + d))
                      (sessionsCompleted (Popup.stats p) + 1)
                      (progressHistory (Popup.stats p)))
             (Popup.lastEmergencyDisable p))).
Proof.
  intros d. split; [|split; [|split]].
  - unfold Background.completeSession, score, streak. simpl.
    fold DAY_MS.
    change (24 * 60 * 60 * 1000) with DAY_MS.
    fold (daysElapsed s now). fold d. repeat split.
  - intros k. unfold Background.completeSession. simpl.
    change (24 * 60 * 60 * 1000) with DAY_MS.
    replace (startTime s + k * DAY_MS - startTime s) with (k * DAY_MS) by lia.
    now rewrite days_of_whole_days.
  - unfold Background.completeSession, score. simpl.
    rewrite Z.sub_diag. change (0 / (24 * 60 * 60 * 1000)) with 0.
    split; [reflexivity | lia].
  - reflexivity.
Qed.

(** ** The rate limiter *)

(** An action that has an entry in [limits] is limited as that entry says. *)
Lemma checkRateLimit_configured action limit :
  Security.limits action = Some limit ->
  LimitedAs action (Security.max limit) (Security.window limit).
Proof.
  intros H userId now rateLimits. unfold Security.checkRateLimit. rewrite H.
  reflexivity.
Qed.

(** An action without an entry is never limited and never recorded. *)
Lemma checkRateLimit_unconfigured action userId now rateLimits :
  Security.limits action = None ->
  Security.checkRateLimit userId now action rateLimits
  = (Security.Ok true, rateLimits).
Proof. intros H. unfold Security.checkRateLimit. now rewrite H. Qed.

(** The three windows that the table and the specification agree on. *)
Lemma rate_limit_add_site : LimitedAs "add_site" 5 (3600 * 1000).
Proof. exact (checkRateLimit_configured "add_site" _ eq_refl). Qed.

Lemma rate_limit_panic_mode : LimitedAs "panic_mode" 3 (1800 * 1000).
Proof. exact (checkRateLimit_configured "panic_mode" _ eq_refl). Qed.

Lemma rate_limit_emergency_resist : LimitedAs "emergency_resist" 10 (3600 * 1000).
Proof. exact (checkRateLimit_configured "emergency_resist" _ eq_refl). Qed.

(** The daily window is filed under ['session_start'], a name that no
    caller uses. *)
Lemma rate_limit_session_start : LimitedAs "session_start" 3 (86400 * 1000).
Proof. exact (checkRateLimit_configured "session_start" _ eq_refl). Qed.

(** Five [add_site] calls within the hour pass and the sixth is refused;
    once the hour is over a call passes again. *)
Lemma add_site_sixth_call :
  fst (Security.checkAll "u1" "add_site" [0; 1; 2; 3; 4; 5; 3600 * 1000 + 4] ∅)
  = [Security.Ok true; Security.Ok true; Security.Ok true; Security.Ok true;
     Security.Ok true; Security.Throw (Security.RateLimitExceeded "add_site");
     Security.Ok true].
Proof. vm_compute. reflexivity. Qed.

(** C5 (evaluation at the failing input). Four [start_session] requests of
    one user within four seconds all pass the rate limiter, and no time
    stamp is recorded for them: the action has no entry in the table, whose
    daily window is keyed ['session_start']. *)
Theorem C5_fourth_start_session_passes :
  Security.checkAll "u1" "start_session" [0; 1000; 2000; 3000] ∅
  = ([Security.Ok true; Security.Ok true; Security.Ok true; Security.Ok true], ∅)
  /\ Security.limits "start_session" = None
  /\ ~ RateLimitSpec.
Proof.
  split; [reflexivity|]. split; [reflexivity|].
  intros H.
  specialize (H "start_session" 3%nat (86400 * 1000) eq_refl
                "u1" 3000 {[ Security.rateKey "start_session" "u1" := [0; 1000; 2000] ]}).
  rewrite checkRateLimit_unconfigured in H by reflexivity.
  unfold recent in H. rewrite lookup_singleton_eq in H. simpl in H.
  discriminate H.
Qed.

(** ** The point policy *)

Lemma Qfloor_tenths b t : Qfloor (inject_Z b * (t # 10)) = b * t / 10.
Proof. unfold Qfloor, Qmult, inject_Z. simpl. reflexivity. Qed.

Lemma multiplier_tenths count :
  Security.getDiminishingReturnsMultiplier (Some count)
  = specMultiplierTenths count # 10 \/
  (count < 10 /\ Security.getDiminishingReturnsMultiplier (Some count) = 1%Q).
Proof.
  unfold Security.getDiminishingReturnsMultiplier, specMultiplierTenths.
  destruct (count <? 10) eqn:E1; [right; split; [lia | reflexivity]|].
  left. destruct (count <? 50); [reflexivity|].
  destruct (count <? 100); reflexivity.
Qed.

(** The points are the floor of base times multiplier, computed on
    integers. *)
Lemma calculateSecurePoints_floor action data count :
  Security.calculateSecurePoints action data (Some count)
  = JS.orZero (Security.pointRules action data) * specMultiplierTenths count / 10.
Proof.
  unfold Security.calculateSecurePoints.
  destruct (multiplier_tenths count) as [-> | [Hlt ->]].
  - apply Qfloor_tenths.
  - unfold specMultiplierTenths. destruct (count <? 10) eqn:E; [|lia].
    rewrite Z.div_mul by lia.
    unfold Qfloor, Qmult, inject_Z. simpl. rewrite Z.mul_1_r. apply Z.div_1_r.
Qed.

(** When the count cannot be read the multiplier is 1. *)
Lemma calculateSecurePoints_no_count action data :
  Security.calculateSecurePoints action data None
  = JS.orZero (Security.pointRules action data).
Proof.
  unfold Security.calculateSecurePoints. simpl.
  unfold Qfloor, Qmult, inject_Z. simpl. rewrite Z.mul_1_r. apply Z.div_1_r.
Qed.

Lemma pointRules_specBase action data base :
  specBase action data = Some base ->
  (action = "start_session" -> Security.d_duration data <> Some 0) ->
  (action = "complete_session" -> Security.d_daysCompleted data <> Some 0) ->
  Security.pointRules action data = Some base.
Proof.
  unfold specBase, Security.pointRules. intros H Hd Hc.
  destruct (String.eqb action "add_site"); [exact H|].
  destruct (String.eqb action "start_session") eqn:Es.
  { apply String.eqb_eq in Es. specialize (Hd Es).
    destruct (Security.d_duration data) as [d|]; [|discriminate].
    injection H as <-. simpl. destruct (d =? 0) eqn:E; [|reflexivity].
    apply Z.eqb_eq in E. subst. congruence. }
  destruct (String.eqb action "complete_session") eqn:Ec.
  { apply String.eqb_eq in Ec. specialize (Hc Ec).
    destruct (Security.d_daysCompleted data) as [d|]; [|discriminate].
    injection H as <-. simpl. destruct (d =? 0) eqn:E; [|reflexivity].
    apply Z.eqb_eq in E. subst. congruence. }
  destruct (String.eqb action "daily_bonus"); [exact H|].
  destruct (String.eqb action "emergency_resist").
  { destruct (String.eqb action "panic_mode"); exact H. }
  exact H.
Qed.

Lemma pricedOccurrences_spec userId action datas :
  forall counts : gmap (string * string) Z,
    snd (Security.pricedOccurrences userId action datas counts) = counts /\
    forall k data, datas !! k = Some data ->
      fst (Security.pricedOccurrences userId action datas counts) !! k
      = Some (Security.calculateSecurePoints action data
                (Security.actionCount counts userId action)).
Proof.
  induction datas as [|d datas IH]; intros counts.
  - split; [reflexivity|]. intros k data H. discriminate H.
  - destruct (IH counts) as [IH1 IH2]. split; [exact IH1|].
    intros [|k] data H.
    + injection H as <-. reflexivity.
    + apply IH2. exact H.
Qed.




(** The point table has no entry for ['emergency_disable'] (nor for
    ['emergency_attempt']): the hardened pipeline prices them at 0 points, so
    the penalty of 500 points is not taken on that path. *)
Lemma emergency_disable_unpriced data row :
  Security.calculateSecurePoints "emergency_disable" data row = 0 /\
  Security.calculateSecurePoints "emergency_attempt" data row = 0.
Proof.
  split.
  - destruct row; [rewrite calculateSecurePoints_floor
                  | rewrite calculateSecurePoints_no_count]; reflexivity.
  - destruct row; [rewrite calculateSecurePoints_floor
                  | rewrite calculateSecurePoints_no_count]; reflexivity.
Qed.

(** [validateEmergencyAttempt] does not bound the counter either: it
    refuses the action once the stored count is 3 or more. *)
Lemma validateEmergencyAttempt_refuses emergency_attempts :
  Security.validateEmergencyAttempt (Some emergency_attempts)
  = Security.Throw Security.MaxEmergencyAttempts
  <-> 3 <= JS.orZero emergency_attempts.
Proof.
  unfold Security.validateEmergencyAttempt.
  destruct (JS.orZero emergency_attempts >=? 3) eqn:E; split;
    try discriminate; try reflexivity; lia.
Qed.

(** ** The blocking status *)

Lemma prefix_spec p : forall s,
  String.prefix p s = true <-> exists rest, s = p +:+ rest.
Proof.
  induction p as [|a p IH]; intros s.
  - split; [intros _; now exists s | intros _; destruct s; reflexivity].
  - destruct s as [|b s]; simpl.
    + split; [discriminate | intros [rest H]; discriminate].
    + destruct (ascii_dec a b) as [->|Hne].
      * rewrite IH. split; intros [rest H]; exists rest; [now rewrite H | now injection H].
      * split; [discriminate | intros [rest H]; injection H; congruence].
Qed.

Lemma includes_unfold hay needle :
  JS.includes hay needle
  = String.prefix needle hay ||
    match hay with
    | EmptyString => false
    | String _ rest => JS.includes rest needle
    end.
Proof. destruct hay; reflexivity. Qed.

Lemma includes_spec hay : forall needle,
  JS.includes hay needle = true <-> isSubstring needle hay.
Proof.
  induction hay as [|c hay IH]; intros needle; rewrite includes_unfold.
  - rewrite orb_false_r, prefix_spec. split.
    + intros [rest H]. exists "", rest. exact H.
    + intros ([|x before] & after & H); [|discriminate]. now exists after.
  - rewrite orb_true_iff, prefix_spec, IH. split.
    + intros [[rest H] | (before & after & H)].
      * exists "", rest. exact H.
      * exists (String c before), after. simpl. now rewrite H.
    + intros ([|x before] & after & H).
      * left. now exists after.
      * right. injection H as _ H. now exists before, after.
Qed.

Lemma existsb_includes domain sites :
  existsb (fun site => JS.includes domain site) sites = true <->
  exists site, In site sites /\ isSubstring site domain.
Proof.
  rewrite existsb_exists. split; intros (site & Hin & H); exists site;
    (split; [exact Hin | now apply includes_spec]).
Qed.

Lemma includes_empty_needle hay : JS.includes hay "" = true.
Proof. destruct hay; reflexivity. Qed.

Lemma includes_empty_hay needle :
  JS.includes "" needle = true <-> needle = "".
Proof.
  destruct needle; simpl; split; try reflexivity; discriminate.
Qed.

Lemma existsb_includes_empty sites :
  existsb (fun site => JS.includes "" site) sites = true <-> In "" sites.
Proof.
  rewrite existsb_exists. split.
  - intros (site & Hin & H). apply includes_empty_hay in H. now subst.
  - intros H. exists "". split; [exact H | reflexivity].
Qed.

(** C10 (counterexample). The user types [http://] into the site box: the
    cleaned entry is the empty string, and it is copied into the session
    that is started next. With that session stored, an address that does
    not parse gets the domain [''], which contains the empty entry, and is
    reported blocked. *)
Lemma C10_unparsable_url_blocked :
  let popup := Popup.addSite (Samples.idle [] 0) "http://" in
  let started := snd (Popup.startBlockSession popup (Popup.Preset 7) true 0) in
  let st := Background.mkStorage (Popup.activeSession started) (Some 0)
                                 (Some 360) None in
  Popup.sites popup = [""] /\
  Popup.activeSession started
  = Some (mkSession 0 (7 * DAY_MS) 7 [""] (Some 0) None) /\
  Samples.hostname "not a url" = None /\
  Background.getBlockingStatus Samples.hostname st "not a url" 1000
  = Background.mkBlockingStatus true (Some "") (Some (7 * DAY_MS - 1000)) /\
  ~ BlockingSpec Samples.hostname.
Proof.
  repeat (split; [reflexivity|]).
  intros H.
  destruct (H (Background.mkStorage
                 (Some (mkSession 0 (7 * DAY_MS) 7 [""] (Some 0) None))
                 (Some 0) (Some 360) None) "not a url" 1000) as (_ & _ & Hu).
  destruct (Hu eq_refl) as [_ Hb]. discriminate Hb.
Qed.

(** C10 (amended). Without a stored session [getBlockingStatus] answers
    [blocked = false] for every address, whatever the site list holds. With
    a stored session it answers blocked exactly when the host name with a
    leading [www.] removed contains some site of the session's copy as a
    substring, so a host name that merely contains a blocked domain, such as
    [notexample.com] for [example.com], is blocked. An address that does not
    parse gets the host name [''] and is blocked exactly when the session's
    copy holds the empty string; it is not blocked when every site of the
    copy is non-empty. *)
Theorem C10_blocking_status (URL_hostname : string -> option string) st url now :
  let r := Background.getBlockingStatus URL_hostname st url now in
  (Background.activeSession st = None ->
   r = Background.mkBlockingStatus false None None) /\
  (forall s, Background.activeSession st = Some s ->
     (Background.blocked r = true <->
      exists site, In site (blockedSites s) /\
                   isSubstring site (Background.extractDomain URL_hostname url)) /\
     (forall hostname, URL_hostname url = Some hostname ->
        Background.extractDomain URL_hostname url = JS.stripPrefix "www." hostname) /\
     (URL_hostname url = Some "notexample.com" ->
      In "example.com" (blockedSites s) -> Background.blocked r = true) /\
     (URL_hostname url = None ->
      Background.extractDomain URL_hostname url = "" /\
      (Background.blocked r = true <-> In "" (blockedSites s)) /\
      ((forall site, In site (blockedSites s) -> site <> "") ->
       Background.blocked r = false))).
Proof.
  intros r. split.
  - intros H. unfold r, Background.getBlockingStatus. now rewrite H.
  - intros s H. unfold r, Background.getBlockingStatus. rewrite H.
    cbn [Background.blocked].
    split; [apply existsb_includes|]. split; [|split].
    + intros hostname Hh. unfold Background.extractDomain. now rewrite Hh.
    + intros Hh Hin. apply existsb_includes. exists "example.com".
      split; [exact Hin|]. unfold Background.extractDomain. rewrite Hh.
      exists "not", "". reflexivity.
    + intros Hh. unfold Background.extractDomain. rewrite Hh.
      split; [reflexivity|]. split; [apply existsb_includes_empty|].
      intros Hne.
      destruct (existsb (fun site => JS.includes "" site) (blockedSites s)) eqn:E;
        [|reflexivity].
      apply existsb_includes_empty in E. now apply Hne in E.
Qed.

Lemma C10_blocking_status_witness :
  let s := mkSession 0 (7 * DAY_MS) 7 ["example.com"] (Some 0) None in
  let st := Background.mkStorage (Some s) (Some 0) (Some 360) None in
  Background.blocked
    (Background.getBlockingStatus Samples.hostname st
       "https://www.notexample.com/page" 1000) = true /\
  Background.blocked
    (Background.getBlockingStatus Samples.hostname st "not a url" 1000) = false /\
  Background.getBlockingStatus Samples.hostname
    (Background.mkStorage None (Some 0) (Some 360) None) "https://example.com/" 1000
  = Background.mkBlockingStatus false None None.
Proof.
  intros s st. split; [|split].
  - destruct (C10_blocking_status Samples.hostname st
                "https://www.notexample.com/page" 1000) as [_ H].
    destruct (H s eq_refl) as (Hb & _).
    apply Hb. exists "example.com". split; [left; reflexivity|].
    exists "not", "". reflexivity.
  - destruct (C10_blocking_status Samples.hostname st "not a url" 1000) as [_ H].
    destruct (H s eq_refl) as (_ & _ & _ & Hu).
    destruct (Hu eq_refl) as (_ & _ & Hn).
    apply Hn. intros site [<- | []]. discriminate.
  - destruct (C10_blocking_status Samples.hostname
                (Background.mkStorage None (Some 0) (Some 360) None)
                "https://example.com/" 1000) as [H _].
    exact (H eq_refl).
Defined.

(** ** The hash chain *)

Section ChainFacts.

Import Security IntegrityLog.

Variable SHA256 : string -> string.
Variable JSON_stringify : BlockData -> string.
Variable difficulty : nat.

Abbreviation calculateHash := (Security.calculateHash SHA256 JSON_stringify).
Abbreviation mined := (Security.mined difficulty).
Abbreviation mine := (Security.mine SHA256 JSON_stringify difficulty).
Abbreviation createBlock := (Security.createBlock SHA256 JSON_stringify difficulty).
Abbreviation recordToBlockchain :=
  (Security.recordToBlockchain SHA256 JSON_stringify difficulty).
Abbreviation hashAt := (IntegrityLog.hashAt SHA256 JSON_stringify).
Abbreviation blockAt := (IntegrityLog.blockAt SHA256 JSON_stringify).
Abbreviation verifyFrom := (IntegrityLog.verifyFrom SHA256 JSON_stringify).
Abbreviation verifyChain := (IntegrityLog.verifyChain SHA256 JSON_stringify).
Abbreviation Appended := (IntegrityLog.Appended SHA256 JSON_stringify difficulty).
Abbreviation rowMined := (IntegrityLog.rowMined SHA256 JSON_stringify difficulty).

(** The block that the loop holds is determined by its nonce. *)
Lemma bump_blockAt d now n :
  Security.bump SHA256 JSON_stringify (blockAt d now n) = blockAt d now (n + 1).
Proof. reflexivity. Qed.

Lemma calculateHash_blockAt d now n :
  calculateHash (blockAt d now n) = hash (blockAt d now n).
Proof. reflexivity. Qed.

Lemma createBlock_blockAt d now fuel :
  createBlock d now fuel = mine fuel (blockAt d now 0).
Proof. reflexivity. Qed.

(** Whatever the loop returns is the block at some nonce, and its hash is
    mined. *)
Lemma mine_sound fuel : forall d now n b,
  mine fuel (blockAt d now n) = Some b ->
  exists k, b = blockAt d now (n + Z.of_nat k) /\ mined (hash b) = true.
Proof.
  induction fuel as [|fuel IH]; intros d now n b; simpl;
    destruct (mined (hashAt d now n)) eqn:E.
  - intros [= <-]. exists 0%nat. rewrite Z.add_0_r. split; [reflexivity | exact E].
  - discriminate.
  - intros [= <-]. exists 0%nat. rewrite Z.add_0_r. split; [reflexivity | exact E].
  - rewrite bump_blockAt. intros H. apply IH in H as (k & -> & Hm).
    exists (S k). split; [f_equal; lia | exact Hm].
Qed.

(** The loop returns as soon as the fuel covers a nonce whose hash is
    mined, with the first such nonce. *)
Lemma mine_total n : forall d now k fuel,
  (n <= fuel)%nat ->
  mined (hashAt d now (k + Z.of_nat n)) = true ->
  exists j, (j <= n)%nat /\
    mine fuel (blockAt d now k) = Some (blockAt d now (k + Z.of_nat j)) /\
    forall i, (i < j)%nat -> mined (hashAt d now (k + Z.of_nat i)) = false.
Proof.
  induction n as [|n IH]; intros d now k fuel Hf Hm.
  - exists 0%nat. rewrite Z.add_0_r in *. split; [lia|]. split; [|intros; lia].
    destruct fuel; simpl; now rewrite Hm.
  - destruct (mined (hashAt d now k)) eqn:E.
    + exists 0%nat. rewrite Z.add_0_r. split; [lia|]. split; [|intros; lia].
      destruct fuel; simpl; now rewrite E.
    + destruct fuel as [|fuel]; [lia|].
      destruct (IH d now (k + 1) fuel) as (j & Hj & Hr & Hleast); [lia| |].
      { replace (k + 1 + Z.of_nat n) with (k + Z.of_nat (S n)) by lia. exact Hm. }
      exists (S j). split; [lia|]. split.
      * simpl Security.mine. cbn [hash IntegrityLog.blockAt]. rewrite E.
        rewrite bump_blockAt, Hr. do 2 f_equal. lia.
      * intros [|i] Hi; [now rewrite Z.add_0_r|].
        replace (k + Z.of_nat (S i)) with (k + 1 + Z.of_nat i) by lia.
        apply Hleast. lia.
Qed.

Lemma createBlock_sound d now fuel b :
  createBlock d now fuel = Some b ->
  hash b = calculateHash b /\ mined (hash b) = true /\
  data b = d /\ previousHash b = bd_previousHash d /\ timestamp b = now /\
  0 <= nonce b.
Proof.
  rewrite createBlock_blockAt. intros H.
  apply mine_sound in H as (k & -> & Hm).
  repeat split; [exact Hm | simpl; lia].
Qed.

(** A mined hash starts with [difficulty] zero characters. *)
Lemma substring_prefix n : forall s,
  exists rest, s = String.substring 0 n s +:+ rest.
Proof.
  induction n as [|n IH]; intros [|c s]; simpl.
  - now exists "".
  - now exists (String c s).
  - now exists "".
  - destruct (IH s) as [rest H]. exists rest.
    change (String c s = String c (String.substring 0 n s +:+ rest)).
    f_equal. exact H.
Qed.

Lemma mined_leading_zeros h :
  mined h = true -> exists rest, h = JS.zeros difficulty +:+ rest.
Proof.
  unfold Security.mined. intros H. apply String.eqb_eq in H.
  destruct (substring_prefix difficulty h) as [rest Hr].
  exists rest. now rewrite <- H.
Qed.

Lemma getLastBlockHash_lastHash userId table :
  getLastBlockHash userId table = lastHash "0" (rowsOf userId table).
Proof. reflexivity. Qed.

Lemma lastHash_cons prev r rows :
  lastHash prev (r :: rows) = lastHash (block_hash r) rows.
Proof.
  unfold lastHash. simpl. destruct (List.rev rows); reflexivity.
Qed.

Lemma linked_snoc rows : forall prev r,
  linked prev rows -> previous_hash r = lastHash prev rows ->
  linked prev (rows ++ [r]).
Proof.
  induction rows as [|a rows IH]; intros prev r Hl Hp; simpl.
  - split; [exact Hp | exact I].
  - destruct Hl as [Ha Hl]. split; [exact Ha|].
    apply IH; [exact Hl|]. now rewrite <- lastHash_cons with (prev := prev).
Qed.

Lemma rowsOf_snoc userId table r :
  rowsOf userId (table ++ [r])
  = rowsOf userId table ++ (if String.eqb (user_id r) userId then [r] else []).
Proof.
  unfold rowsOf. rewrite List.filter_app. simpl.
  destruct (String.eqb (user_id r) userId); reflexivity.
Qed.

Lemma recordToBlockchain_sound userId action points isoNow dataDigest now fuel
    table row table' :
  recordToBlockchain userId action points isoNow dataDigest now fuel table
  = Some (row, table') ->
  table' = table ++ [row] /\
  user_id row = userId /\ action_type row = action /\
  points_awarded row = points /\ bd_points (data (block_data row)) = points /\
  block_hash row = hash (block_data row) /\
  hash (block_data row) = calculateHash (block_data row) /\
  mined (block_hash row) = true /\
  previous_hash row = previousHash (block_data row) /\
  previous_hash row = getLastBlockHash userId table.
Proof.
  unfold Security.recordToBlockchain.
  destruct (createBlock _ now fuel) as [b|] eqn:E; [|discriminate].
  intros [= <- <-]. apply createBlock_sound in E as (Hh & Hm & Hd & Hp & _).
  simpl. rewrite Hd, Hp. simpl. repeat split; assumption.
Qed.

Lemma Appended_rows table :
  Appended table ->
  Forall rowMined table /\ forall userId, linked "0" (rowsOf userId table).
Proof.
  induction 1 as [|table userId action points isoNow dataDigest now fuel row
                   table' _ [IHrows IHlinked] Hrec].
  - split; [constructor | intros; exact I].
  - apply recordToBlockchain_sound in Hrec
      as (-> & Hu & _ & _ & _ & Hbh & Hh & Hm & Hp & Hlast).
    split.
    + apply Forall_app. split; [exact IHrows|].
      constructor; [|constructor]. repeat split; assumption.
    + intros u. rewrite rowsOf_snoc.
      destruct (String.eqb (user_id row) u) eqn:E.
      * apply String.eqb_eq in E. apply linked_snoc; [apply IHlinked|].
        rewrite Hlast, getLastBlockHash_lastHash. congruence.
      * rewrite app_nil_r. apply IHlinked.
Qed.

(** The loop of [createBlock] ends whenever some nonce gives a mined hash
    and it is given that many turns. *)
Lemma createBlock_total d now n fuel :
  (n <= fuel)%nat ->
  mined (hashAt d now (Z.of_nat n)) = true ->
  exists b, createBlock d now fuel = Some b /\
            hash b = calculateHash b /\ mined (hash b) = true /\
            0 <= nonce b <= Z.of_nat n.
Proof.
  intros Hf Hm. rewrite createBlock_blockAt.
  destruct (mine_total n d now 0 fuel Hf Hm) as (j & Hj & Hr & _).
  exists (blockAt d now (0 + Z.of_nat j)). split; [exact Hr|].
  pose proof Hr as Hs. apply mine_sound in Hs as (k & _ & Hk).
  repeat split; [exact Hk | simpl; lia | simpl; lia].
Qed.


(** A chain whose stored hashes all match verifies. *)
Lemma verifyFrom_valid entries : forall k,
  Forall (fun e => calculateHash e = hash e) entries ->
  verifyFrom k entries = Valid.
Proof.
  induction entries as [|e entries IH]; intros k H; [reflexivity|].
  apply Forall_cons in H as [He H]. simpl. rewrite He, String.eqb_refl.
  now apply IH.
Qed.

(** The verdict names the first entry whose recomputed hash is not the
    stored one. *)
Lemma verifyFrom_first_mismatch entries : forall k i,
  verifyFrom k entries = TamperedAt i ->
  exists j e, i = (k + j)%nat /\ entries !! j = Some e /\
    calculateHash e <> hash e /\
    forall j' e', (j' < j)%nat -> entries !! j' = Some e' ->
                  calculateHash e' = hash e'.
Proof.
  induction entries as [|e entries IH]; intros k i; simpl; [discriminate|].
  destruct (String.eqb (calculateHash e) (hash e)) eqn:E.
  - intros H. apply IH in H as (j & e0 & -> & Hj & Hne & Hbefore).
    exists (S j), e0. split; [lia|]. split; [exact Hj|]. split; [exact Hne|].
    intros [|j'] e' Hlt He'.
    + injection He' as <-. now apply String.eqb_eq.
    + apply (Hbefore j'); [lia | exact He'].
  - intros [= <-]. exists 0%nat, e. split; [lia|]. split; [reflexivity|].
    split; [now apply String.eqb_neq | intros; lia].
Qed.

Lemma verifyFrom_insert entries : forall k i e e',
  Forall (fun e => calculateHash e = hash e) entries ->
  entries !! i = Some e ->
  verifyFrom k (<[i := e']> entries)
  = if String.eqb (calculateHash e') (hash e') then Valid
    else TamperedAt (k + i).
Proof.
  induction entries as [|a entries IH]; intros k i e e' H Hi; [discriminate|].
  apply Forall_cons in H as [Ha H]. destruct i as [|i]; simpl.
  - rewrite Nat.add_0_r.
    destruct (String.eqb (calculateHash e') (hash e')); [|reflexivity].
    now apply verifyFrom_valid.
  - rewrite Ha, String.eqb_refl. rewrite (IH (S k) i e e' H Hi).
    replace (S k + i)%nat with (k + S i)%nat by lia. reflexivity.
Qed.

Lemma Appended_entries table :
  Appended table ->
  Forall (fun e => calculateHash e = hash e) (entriesOf table).
Proof.
  intros Ha. destruct (Appended_rows table Ha) as [Hrows _].
  unfold entriesOf. apply Forall_map.
  eapply Forall_impl; [exact Hrows|].
  intros row (_ & Hh & _). simpl. now rewrite Hh.
Qed.

Lemma append_length s : forall t,
  String.length (s +:+ t) = (String.length s + String.length t)%nat.
Proof.
  induction s as [|c s IH]; intros t; simpl; [reflexivity|]. now rewrite IH.
Qed.

Lemma append_inv_tail s : forall s' t, s +:+ t = s' +:+ t -> s = s'.
Proof.
  induction s as [|c s IH]; intros [|c' s'] t H; simpl in H.
  - reflexivity.
  - apply (f_equal String.length) in H.
    change (String.length t = S (String.length (s' +:+ t))) in H.
    rewrite append_length in H. lia.
  - apply (f_equal String.length) in H.
    change (S (String.length (s +:+ t)) = String.length t) in H.
    rewrite append_length in H. lia.
  - injection H as -> H. f_equal. now apply (IH s' t).
Qed.

Lemma append_cancel_head (p s t : string) : p +:+ s = p +:+ t -> s = t.
Proof.
  induction p as [|c p IH]; simpl; intros H; [exact H|].
  injection H as H. now apply IH.
Qed.

Lemma map_insert {A B} (f : A -> B) (l : list A) : forall i x,
  List.map f (<[i := x]> l) = <[i := f x]> (List.map f l).
Proof.
  induction l as [|a l IH]; intros [|i] x; simpl; try reflexivity.
  f_equal. apply IH.
Qed.

Lemma entriesOf_lookup (table : list BlockRow) : forall i row,
  table !! i = Some row -> entriesOf table !! i = Some (block_data row).
Proof.
  induction table as [|r t IH]; intros [|i] row Hi; try discriminate Hi.
  - injection Hi as ->. reflexivity.
  - simpl. apply IH. exact Hi.
Qed.

(** The digest covers the points: when the digest has no collisions and
    the JSON text changes with the points, a block with other points has
    another hash. *)
Lemma tamper_changes_hash e p :
  (forall s s', SHA256 s = SHA256 s' -> s = s') ->
  (forall d q, JSON_stringify (setDataPoints q d) = JSON_stringify d ->
               q = bd_points d) ->
  p <> bd_points (data e) ->
  calculateHash (setPoints p e) <> calculateHash e.
Proof.
  intros Hinj Hjson Hp H. unfold Security.calculateHash in H.
  apply Hinj in H. cbn [previousHash timestamp data nonce IntegrityLog.setPoints] in H.
  apply append_cancel_head in H. apply append_cancel_head in H.
  apply append_inv_tail in H.
  apply Hp. apply (Hjson (data e) p). exact H.
Qed.


End ChainFacts.

(** The sample table is built by three appends. *)
Lemma log3_appended :
  IntegrityLog.Appended Samples.digest Samples.stringify
    Security.constructedDifficulty Samples.log3.
Proof.
  apply (IntegrityLog.Appended_snoc _ _ _ Samples.log2 "u1" "daily_bonus" 10
           "2025-09-03T10:00:00.000Z" "ctx" 1756893600000 64
           (List.last Samples.log3 (Security.mkBlockRow "" "" "" "" 0
              (Security.mkBlock 0 (Security.mkBlockData "" "" 0 "" "" "") "" 0 "")))).
  - apply (IntegrityLog.Appended_snoc _ _ _ Samples.log1 "u2" "add_site" 10
             "2025-09-02T11:00:00.000Z" "ctx" 1756810800000 64
             (List.last Samples.log2 (Security.mkBlockRow "" "" "" "" 0
                (Security.mkBlock 0 (Security.mkBlockData "" "" 0 "" "" "") "" 0 "")))).
    + apply (IntegrityLog.Appended_snoc _ _ _ [] "u1" "start_session" 350
               "2025-09-02T10:00:00.000Z" "ctx" 1756807200000 64
               (List.last Samples.log1 (Security.mkBlockRow "" "" "" "" 0
                  (Security.mkBlock 0 (Security.mkBlockData "" "" 0 "" "" "") "" 0 "")))).
      * constructor.
      * vm_compute. reflexivity.
    + vm_compute. reflexivity.
  - vm_compute. reflexivity.
Defined.


(** The stand-ins have what the tamper check needs: the sample digest
    keeps its input, and the sample text changes with the points. *)
Lemma numberToString_injective z z' :
  JS.numberToString z = JS.numberToString z' -> z = z'.
Proof.
  unfold JS.numberToString. intros H.
  assert (R : forall w, NilZero.int_of_string (NilZero.string_of_int (Z.to_int w))
                        = Some (Z.to_int w)).
  { intros w. apply NilZero.isi; destruct w; simpl; try discriminate;
      intros [= E]; exact (DecimalPos.Unsigned.to_uint_nonnil _ E). }
  apply DecimalZ.to_int_inj.
  pose proof (R z) as Rz. rewrite H, R in Rz. now injection Rz.
Qed.

Lemma digest_injective s s' : Samples.digest s = Samples.digest s' -> s = s'.
Proof.
  unfold Samples.digest.
  destruct (Samples.checksum s mod 4 =? 0)%nat,
           (Samples.checksum s' mod 4 =? 0)%nat;
    simpl; intros H; try discriminate H; now injection H.
Qed.

Lemma stringify_points d q :
  Samples.stringify (IntegrityLog.setDataPoints q d) = Samples.stringify d ->
  q = Security.bd_points d.
Proof.
  unfold Samples.stringify. cbn. intros H.
  apply append_cancel_head in H. apply append_cancel_head in H.
  apply append_cancel_head in H. apply append_cancel_head in H.
  apply append_inv_tail in H. now apply numberToString_injective.
Qed.



(** * Further properties of the code *)

(** ** The site list of the popup *)

Lemma existsb_eqb_In x l :
  existsb (String.eqb x) l = true <-> In x l.
Proof.
  rewrite existsb_exists. split.
  - intros (y & Hy & E). apply String.eqb_eq in E. now subst.
  - intros H. exists x. split; [exact H | apply String.eqb_refl].
Qed.

Lemma NoDup_app_one (x : string) l :
  List.NoDup l -> ~ In x l -> List.NoDup (l ++ [x]).
Proof.
  intros Hl Hx. induction Hl as [|y l Hy Hl IH]; simpl.
  - constructor; [intros [] | constructor].
  - constructor.
    + rewrite in_app_iff. intros [H | [H | []]]; [now apply Hy|].
      apply Hx. left. now symmetry.
    + apply IH. intros H. apply Hx. now right.
Qed.

(** The display refresh leaves the popup object alone unless a session's
    time is up; then it completes the session. *)
Lemma updateBlockStatus_running st shown :
  (forall s, Popup.activeSession st = Some s -> shown < endTime s) ->
  Popup.updateBlockStatus st shown = st.
Proof.
  intros H. unfold Popup.updateBlockStatus.
  destruct (Popup.activeSession st) as [s|]; [|reflexivity].
  specialize (H s eq_refl).
  destruct (endTime s - shown >? 0) eqn:E; [reflexivity | lia].
Qed.

Lemma updateBlockStatus_due st s shown :
  Popup.activeSession st = Some s ->
  endTime s <= shown ->
  Popup.updateBlockStatus st shown
  = Popup.mkState (Popup.sites st) None
      (Popup.totalScore st + (shown - startTime s) / DAY_MS * 100)
      (Popup.currentStreak st + (shown - startTime s) / DAY_MS)
      (mkStats (totalCleanDays (Popup.stats st) + (shown - startTime s) / DAY_MS)
               (Z.max (bestStreak (Popup.stats st))
                      (Popup.currentStreak st + (shown - startTime s) / DAY_MS))
               (sessionsCompleted (Popup.stats st) + 1)
               (progressHistory (Popup.stats st)))
      (Popup.lastEmergencyDisable st).
Proof.
  intros Hs Hend. unfold Popup.updateBlockStatus, Popup.completeSession.
  rewrite Hs. destruct (endTime s - shown >? 0) eqn:E; [lia | reflexivity].
Qed.

(** X1. [addSite] never lists a site twice: on a list without duplicates
    it either changes nothing (empty input, or the cleaned name is already
    listed) or appends the cleaned name. While no session's time is up when
    the display is refreshed, the points gained are 10 for each site gained
    and the session and the streak are not touched: a site added during a
    session is not part of what that session blocks. When the site is added
    and the time of the session is up, the refresh at the end of the method
    completes the session: it is cleared, and on top of the 10 points the
    score and the streak grow by 100 points and one day for every whole day
    since the start of the session. *)
Theorem addSite_grows_without_duplicates st site shown :
  List.NoDup (Popup.sites st) ->
  let st' := Popup.Handler.addSite st site shown in
  List.NoDup (Popup.sites st') /\
  ((st' = st /\ (site = "" \/ In (Popup.cleanSite site) (Popup.sites st))) \/
   (Popup.sites st' = Popup.sites st ++ [Popup.cleanSite site] /\
    site <> "" /\ ~ In (Popup.cleanSite site) (Popup.sites st))) /\
  ((forall s, Popup.activeSession st = Some s -> shown < endTime s) ->
   Popup.totalScore st'
   = Popup.totalScore st
     + 10 * (Z.of_nat (length (Popup.sites st')) - Z.of_nat (length (Popup.sites st))) /\
   Popup.activeSession st' = Popup.activeSession st /\
   Popup.currentStreak st' = Popup.currentStreak st) /\
  (forall s, Popup.activeSession st = Some s -> endTime s <= shown ->
     site <> "" -> ~ In (Popup.cleanSite site) (Popup.sites st) ->
     Popup.activeSession st' = None /\
     Popup.totalScore st'
     = Popup.totalScore st + 10 + (shown - startTime s) / DAY_MS * 100 /\
     Popup.currentStreak st'
     = Popup.currentStreak st + (shown - startTime s) / DAY_MS).
Proof.
  intros Hnd st'. subst st'. unfold Popup.Handler.addSite.
  destruct (String.eqb site "") eqn:Es.
  - apply String.eqb_eq in Es.
    split; [exact Hnd|]. split; [left; auto|]. split.
    + intros _. repeat split. lia.
    + intros s _ _ Hne _. contradiction.
  - apply String.eqb_neq in Es.
    destruct (existsb (String.eqb (Popup.cleanSite site)) (Popup.sites st)) eqn:E.
    + apply existsb_eqb_In in E.
      split; [exact Hnd|]. split; [left; auto|]. split.
      * intros _. repeat split. lia.
      * intros s _ _ _ Hn. contradiction.
    + assert (Hn : ~ In (Popup.cleanSite site) (Popup.sites st)).
      { intros H. apply existsb_eqb_In in H. congruence. }
      assert (Ea : Popup.addSite st site
                   = Popup.mkState (Popup.sites st ++ [Popup.cleanSite site])
                       (Popup.activeSession st) (Popup.totalScore st + 10)
                       (Popup.currentStreak st) (Popup.stats st)
                       (Popup.lastEmergencyDisable st)).
      { unfold Popup.addSite. apply String.eqb_neq in Es. now rewrite Es, E. }
      rewrite Ea. clear Ea.
      set (st1 := Popup.mkState (Popup.sites st ++ [Popup.cleanSite site])
                    (Popup.activeSession st) (Popup.totalScore st + 10)
                    (Popup.currentStreak st) (Popup.stats st)
                    (Popup.lastEmergencyDisable st)).
      assert (Hsites : Popup.sites (Popup.updateBlockStatus st1 shown)
                       = Popup.sites st ++ [Popup.cleanSite site]).
      { unfold Popup.updateBlockStatus, Popup.completeSession. simpl.
        destruct (Popup.activeSession st) as [s|]; [|reflexivity].
        destruct (endTime s - shown >? 0); reflexivity. }
      split; [rewrite Hsites; now apply NoDup_app_one|].
      split; [right; repeat split; assumption|]. split.
      * intros Hrun. rewrite (updateBlockStatus_running st1 shown) by exact Hrun.
        simpl. rewrite length_app. simpl. repeat split. lia.
      * intros s Hs Hend _ _.
        rewrite (updateBlockStatus_due st1 s shown Hs Hend). simpl.
        repeat split.
Qed.

Lemma addSite_grows_without_duplicates_witness :
  let s := mkSession 0 (3 * DAY_MS) 3 ["example.com"] (Some 0) None in
  let st := Popup.mkState ["example.com"] (Some s) 50 0 Samples.emptyStats None in
  (Popup.activeSession (Popup.Handler.addSite st "https://www.other.org/path" DAY_MS)
   = Some s /\
   Popup.totalScore (Popup.Handler.addSite st "https://www.other.org/path" DAY_MS)
   = 60) /\
  (Popup.activeSession
     (Popup.Handler.addSite st "https://www.other.org/path" (5 * DAY_MS)) = None /\
   Popup.totalScore
     (Popup.Handler.addSite st "https://www.other.org/path" (5 * DAY_MS)) = 560 /\
   Popup.currentStreak
     (Popup.Handler.addSite st "https://www.other.org/path" (5 * DAY_MS)) = 5).
Proof.
  intros s st.
  assert (Hnd : List.NoDup (Popup.sites st)).
  { constructor; [intros [] | constructor]. }
  split.
  - destruct (addSite_grows_without_duplicates st "https://www.other.org/path"
                DAY_MS Hnd) as (_ & _ & Hrun & _).
    destruct Hrun as (Hscore & Hact & _).
    { intros s' [= <-]. vm_compute. reflexivity. }
    split; [exact Hact | rewrite Hscore; vm_compute; reflexivity].
  - destruct (addSite_grows_without_duplicates st "https://www.other.org/path"
                (5 * DAY_MS) Hnd) as (_ & _ & _ & Hdue).
    destruct (Hdue s eq_refl) as (Hact & Hscore & Hstreak).
    + vm_compute. discriminate.
    + discriminate.
    + vm_compute. intros [H | []]. discriminate H.
    + split; [exact Hact|]. split; [rewrite Hscore | rewrite Hstreak];
        vm_compute; reflexivity.
Defined.

Lemma filter_not_eqb_absent x l :
  ~ In x l -> List.filter (fun s => negb (String.eqb s x)) l = l.
Proof.
  induction l as [|y l IH]; intros H; [reflexivity|]. simpl.
  destruct (String.eqb y x) eqn:E.
  - apply String.eqb_eq in E. exfalso. apply H. now left.
  - simpl. f_equal. apply IH. intros Hin. apply H. now right.
Qed.

(** [removeSite] takes the name out of the list and leaves the other names
    in their order; the session's own copy stays as it is. *)
Lemma removeSite_spec st site :
  ~ In site (Popup.sites (Popup.removeSite st site)) /\
  (forall s, s <> site ->
     (In s (Popup.sites (Popup.removeSite st site)) <-> In s (Popup.sites st))) /\
  Popup.activeSession (Popup.removeSite st site) = Popup.activeSession st /\
  Popup.totalScore (Popup.removeSite st site) = Popup.totalScore st.
Proof.
  unfold Popup.removeSite. simpl. repeat split.
  - rewrite filter_In. intros [_ H]. rewrite String.eqb_refl in H. discriminate.
  - rewrite filter_In. tauto.
  - intros Hin. rewrite filter_In. split; [exact Hin|].
    apply negb_true_iff. now apply String.eqb_neq.
Qed.



(** ** The remaining time *)

(** X3. For a remaining time that is not negative, the days, hours and
    minutes printed by [formatTimeRemaining] are the remaining time cut down
    to whole minutes: hours stay below 24, minutes below 60, and the three
    together are at most the remaining time and less than a minute short of
    it. Nothing is rounded up: with less than a minute left the text is
    [0m]. *)
Theorem formatTimeRemaining_parts ms :
  0 <= ms ->
  let d := Popup.remainingDays ms in
  let h := Popup.remainingHours ms in
  let m := Popup.remainingMinutes ms in
  0 <= d /\ 0 <= h < 24 /\ 0 <= m < 60 /\
  d * DAY_MS + h * (60 * 60 * 1000) + m * (60 * 1000) <= ms
  < d * DAY_MS + h * (60 * 60 * 1000) + m * (60 * 1000) + 60 * 1000 /\
  (ms < 60 * 1000 -> Popup.formatTimeRemaining ms = "0m").
Proof.
  intros Hms d h m.
  assert (Hd : d = ms / 86400000) by reflexivity.
  assert (Hh : h = ms mod 86400000 / 3600000).
  { unfold h, Popup.remainingHours. rewrite Z.rem_mod_nonneg by lia. reflexivity. }
  assert (Hm : m = ms mod 3600000 / 60000).
  { unfold m, Popup.remainingMinutes. rewrite Z.rem_mod_nonneg by lia. reflexivity. }
  assert (Hparts : 0 <= d /\ 0 <= h < 24 /\ 0 <= m < 60 /\
                   d * 86400000 + h * 3600000 + m * 60000 <= ms
                   < d * 86400000 + h * 3600000 + m * 60000 + 60000).
  { rewrite Hd, Hh, Hm.
    assert (E : ms mod 3600000 = (ms mod 86400000) mod 3600000).
    { symmetry. apply Z.mod_mod_divide. exists 24. reflexivity. }
    rewrite E. clear - Hms. Z.div_mod_to_equations. lia. }
  unfold DAY_MS. change (24 * 60 * 60 * 1000) with 86400000.
  change (60 * 60 * 1000) with 3600000. change (60 * 1000) with 60000.
  destruct Hparts as (H1 & H2 & H3 & H4).
  repeat split; try lia.
  intros Hlt. unfold Popup.formatTimeRemaining. fold d h m.
  assert (d = 0) by lia. assert (h = 0) by lia. assert (m = 0) by lia.
  replace d with 0 by lia. replace h with 0 by lia. replace m with 0 by lia.
  reflexivity.
Qed.

Lemma formatTimeRemaining_parts_witness :
  Popup.remainingDays 183845000 = 2 /\ Popup.remainingHours 183845000 = 3 /\
  Popup.remainingMinutes 183845000 = 4 /\
  Popup.formatTimeRemaining 183845000 = "2d 3h 4m" /\
  2 * DAY_MS + 3 * (60 * 60 * 1000) + 4 * (60 * 1000) <= 183845000.
Proof.
  assert (H : 0 <= 183845000) by lia.
  destruct (formatTimeRemaining_parts 183845000 H) as (_ & _ & _ & [Hle _] & _).
  repeat split; try reflexivity. exact Hle.
Defined.

(** ** Achievements *)

Lemma unlock_fold st now defs : forall acc id,
  fst (fold_left (Popup.unlock st now) defs acc) !! id
  = match fst acc !! id with
    | Some t => Some t
    | None =>
        if existsb (fun d => String.eqb (fst d) id && snd d st) defs
        then Some now else None
    end.
Proof.
  induction defs as [|d defs IH]; intros acc id; simpl.
  - now destruct (fst acc !! id).
  - rewrite IH. unfold Popup.unlock.
    destruct (fst acc !! fst d) as [t|] eqn:Ed.
    + destruct (fst acc !! id) as [t'|] eqn:Ei; [reflexivity|].
      destruct (String.eqb (fst d) id) eqn:E; [|reflexivity].
      apply String.eqb_eq in E. congruence.
    + destruct (snd d st) eqn:Ec; simpl.
      * destruct (String.eqb (fst d) id) eqn:E.
        -- apply String.eqb_eq in E. subst id.
           rewrite lookup_insert_eq, Ed. reflexivity.
        -- apply String.eqb_neq in E. rewrite lookup_insert_ne by exact E.
           reflexivity.
      * now rewrite andb_false_r.
Qed.

Lemma unlock_settled st now defs : forall acc,
  (forall d, In d defs -> is_Some (fst acc !! fst d) \/ snd d st = false) ->
  fold_left (Popup.unlock st now) defs acc = acc.
Proof.
  induction defs as [|d defs IH]; intros acc H; [reflexivity|]. simpl.
  assert (E : Popup.unlock st now acc d = acc).
  { unfold Popup.unlock. destruct (H d (or_introl eq_refl)) as [[t Ht] | Hc].
    - now rewrite Ht.
    - rewrite Hc. now destruct (fst acc !! fst d). }
  rewrite E. apply IH. intros d' Hin. apply H. now right.
Qed.



(** ** The popup object stays in good order *)

Lemma healthy_idle : Healthy (Samples.idle [] 0).
Proof.
  constructor; simpl; try lia; [constructor | discriminate].
Qed.

Lemma completeSession_when_due st s now :
  Healthy st ->
  Popup.activeSession st = Some s ->
  endTime s <= now ->
  duration s <= (now - startTime s) / DAY_MS.
Proof.
  intros H Hs Hend. destruct (healthy_session st H s Hs) as (Hd & He & _).
  apply Z.div_le_lower_bound; [unfold DAY_MS; lia|]. lia.
Qed.

Lemma startBlockSession_cases st choice confirmed now :
  snd (Popup.startBlockSession st choice confirmed now) = st \/
  exists days,
    Popup.chosenDays choice = Some days /\ Popup.sites st <> [] /\
    snd (Popup.startBlockSession st choice confirmed now)
    = Popup.mkState (Popup.sites st)
        (Some (mkSession now (now + days * 24 * 60 * 60 * 1000) days
                         (Popup.sites st) (Some 0) None))
        (Popup.totalScore st + days * 50) (Popup.currentStreak st)
        (Popup.stats st) (Popup.lastEmergencyDisable st).
Proof.
  unfold Popup.startBlockSession.
  destruct (Popup.sites st) eqn:Es; [now left|].
  destruct (Popup.chosenDays choice) as [days|]; [|now left].
  destruct confirmed; [|now left].
  right. exists days. repeat split. discriminate.
Qed.

Lemma perform_healthy a st st' :
  Permitted a -> Healthy st -> Popup.perform a st = Some st' -> Healthy st'.
Proof.
  intros Hp H. pose proof H as [Hsc Hstr Hbest Hnd Hses].
  destruct a as [site | site | choice confirmed now | | | reason now | now];
    simpl Popup.perform.
  - intros [= <-]. unfold Popup.addSite.
    destruct (String.eqb site ""); [exact H|].
    destruct (existsb (String.eqb (Popup.cleanSite site)) (Popup.sites st)) eqn:E;
      [exact H|].
    constructor; simpl; try assumption; try lia.
    apply NoDup_app_one; [exact Hnd|].
    intros Hin. apply existsb_eqb_In in Hin. congruence.
  - intros [= <-]. constructor; simpl; try assumption.
    now apply List.NoDup_filter.
  - intros [= <-].
    destruct (startBlockSession_cases st choice confirmed now)
      as [-> | (days & Ec & Es & ->)]; [exact H|].
    assert (Hdays : 1 <= days).
    { destruct choice as [d | d].
      - apply chosenDays_custom_range in Ec. lia.
      - simpl in Ec. injection Ec as <-. exact Hp. }
    constructor; simpl; try assumption; try lia.
    intros s [= <-]. simpl. unfold DAY_MS. lia.
  - destruct (Popup.activeSession st) as [s|] eqn:Es.
    + destruct (attemptEmergencyDisable_step st s Es) as (st1 & E & Ha & Hs1 & Hs2).
      rewrite E. intros [= <-].
      unfold Popup.attemptEmergencyDisable in E. rewrite Es in E.
      injection E as <-. constructor; simpl; try assumption.
      intros s' [= <-]. simpl. destruct (Hses s eq_refl) as (? & ? & ?).
      repeat split; try assumption. lia.
    + unfold Popup.attemptEmergencyDisable. rewrite Es. discriminate.
  - intros [= <-]. constructor; simpl; try assumption. lia.
  - unfold Popup.emergencyConfirm, Popup.performEmergencyDisable.
    destruct (Popup.activeSession st); [|discriminate].
    intros [= <-]. constructor; simpl; try assumption; try lia. discriminate.
  - intros [= <-]. unfold Popup.updateBlockStatus.
    destruct (Popup.activeSession st) as [s|] eqn:Es; [|exact H].
    destruct (endTime s - now >? 0) eqn:Ed; [exact H|].
    unfold Popup.completeSession. rewrite Es.
    assert (Hdue : duration s <= (now - startTime s) / DAY_MS).
    { apply (completeSession_when_due st s now); [exact H | exact Es | lia]. }
    destruct (healthy_session st H s Es) as (Hd1 & _).
    constructor; simpl; try assumption; try lia. discriminate.
Qed.

(** X5. Every run of popup actions keeps the popup object in good order,
    starting from one that is: the score and the streak never go below 0,
    the streak never exceeds the best streak, no site is listed twice, and a
    stored session lasts its [duration] in whole days, at least one. The
    only condition is that the duration list offers no day count below
    one. *)
Theorem performAll_healthy actions : forall st st',
  Forall Permitted actions ->
  Healthy st ->
  Popup.performAll actions st = Some st' ->
  Healthy st'.
Proof.
  induction actions as [|a actions IH]; intros st st' Hp H; simpl.
  - now intros [= <-].
  - apply Forall_cons in Hp as [Ha Hp].
    destruct (Popup.perform a st) as [st1|] eqn:E; [|discriminate].
    apply IH; [exact Hp|]. now apply (perform_healthy a st).
Qed.

Lemma performAll_healthy_witness :
  exists st',
    Popup.performAll
      [Popup.AddSite "example.com";
       Popup.StartBlockSession (Popup.Custom (Some 3)) true 0;
       Popup.AttemptEmergencyDisable;
       Popup.UpdateDisplay (5 * DAY_MS);
       Popup.RemoveSite "example.com"] (Samples.idle [] 0) = Some st' /\
    Healthy st' /\ Popup.totalScore st' = 660 /\ Popup.currentStreak st' = 5.
Proof.
  eexists. split; [vm_compute; reflexivity|]. split; [|split; reflexivity].
  apply (performAll_healthy
           [Popup.AddSite "example.com";
            Popup.StartBlockSession (Popup.Custom (Some 3)) true 0;
            Popup.AttemptEmergencyDisable;
            Popup.UpdateDisplay (5 * DAY_MS);
            Popup.RemoveSite "example.com"] (Samples.idle [] 0)).
  - repeat constructor.
  - exact healthy_idle.
  - vm_compute. reflexivity.
Defined.

(** ** Starting a session and giving it up *)

(** X6. A session of at least one day that is started and given up at
    once (the display refresh that ends the start finds it running; then
    three presses of the emergency button and the confirmation) leaves the
    score at [max(0, score + days * 50 - 500)] and the streak at 0, with no
    session left for a later refresh to complete: the penalty is taken
    after the start bonus was paid, so
    from 10 days on a user whose score is not negative never ends below the
    score held before the start, and above it from 11 days on. *)
Theorem start_then_disable st choice days now shown reason now' :
  Popup.sites st <> [] ->
  Popup.chosenDays choice = Some days ->
  1 <= days ->
  shown < now + days * DAY_MS ->
  exists st1 st',
    Popup.Handler.startBlockSession st choice true now shown = (Popup.Started, st1) /\
    Popup.performAll
      [Popup.AttemptEmergencyDisable; Popup.AttemptEmergencyDisable;
       Popup.AttemptEmergencyDisable; Popup.EmergencyConfirm reason now'] st1
    = Some st' /\
    Popup.totalScore st' = Z.max 0 (Popup.totalScore st + days * 50 - 500) /\
    Popup.currentStreak st' = 0 /\
    Popup.activeSession st' = None /\
    Popup.sites st' = Popup.sites st /\
    (forall shown', Popup.updateBlockStatus st' shown' = st') /\
    (0 <= Popup.totalScore st -> 10 <= days ->
     Popup.totalScore st <= Popup.totalScore st') /\
    (0 <= Popup.totalScore st -> 11 <= days ->
     Popup.totalScore st < Popup.totalScore st').
Proof.
  intros Hs Hc Hd Hshown.
  assert (E : Popup.startBlockSession st choice true now
              = (Popup.Started,
                 Popup.mkState (Popup.sites st)
                   (Some (mkSession now (now + days * 24 * 60 * 60 * 1000) days
                                    (Popup.sites st) (Some 0) None))
                   (Popup.totalScore st + days * 50) (Popup.currentStreak st)
                   (Popup.stats st) (Popup.lastEmergencyDisable st))).
  { unfold Popup.startBlockSession.
    destruct (Popup.sites st); [congruence|]. now rewrite Hc. }
  eexists. eexists. split; [|split].
  - unfold Popup.Handler.startBlockSession. rewrite E.
    rewrite updateBlockStatus_running; [reflexivity|].
    intros s [= <-]. simpl. unfold DAY_MS in Hshown. lia.
  - reflexivity.
  - simpl. repeat split; lia.
Qed.

Lemma start_then_disable_witness :
  exists st1 st',
    Popup.Handler.startBlockSession (Samples.idle ["example.com"] 0)
      (Popup.Custom (Some 30)) true 0 5 = (Popup.Started, st1) /\
    Popup.performAll
      [Popup.AttemptEmergencyDisable; Popup.AttemptEmergencyDisable;
       Popup.AttemptEmergencyDisable; Popup.EmergencyConfirm "" 1000] st1
    = Some st' /\
    Popup.totalScore st' = 1000.
Proof.
  destruct (start_then_disable (Samples.idle ["example.com"] 0)
              (Popup.Custom (Some 30)) 30 0 5 "" 1000)
    as (st1 & st' & Hstart & Hrun & Hscore & _);
    [discriminate | reflexivity | lia | vm_compute; reflexivity |].
  exists st1, st'. split; [exact Hstart|]. split; [exact Hrun | exact Hscore].
Defined.

(** ** The worker's storage ([background.js]) *)

Lemma set_lookup (items : list (string * Store.Value)) :
  forall (store : gmap string Store.Value) k,
    List.NoDup (List.map fst items) ->
    Store.set items store !! k
    = match (list_to_map items : gmap string Store.Value) !! k with
      | Some v => Some v
      | None => store !! k
      end.
Proof.
  induction items as [|[k0 v0] items IH]; intros store k Hnd.
  - reflexivity.
  - inversion Hnd as [|? ? Hnot Hnd']; subst.
    change (Store.set ((k0, v0) :: items) store)
      with (Store.set items (<[k0 := v0]> store)).
    rewrite (IH _ _ Hnd'). simpl list_to_map.
    destruct (decide (k0 = k)) as [->|Hne].
    + rewrite !lookup_insert_eq.
      rewrite (not_elem_of_list_to_map_1 (M := gmap string) items k); [reflexivity|].
      intros Hin. apply Hnot. apply list_elem_of_In. exact Hin.
    + rewrite !lookup_insert_ne by exact Hne. reflexivity.
Qed.

Lemma missing_lookup (store : gmap string Store.Value)
    (items : list (string * Store.Value)) k :
  (list_to_map
     (List.filter (fun item => match store !! fst item with
                               | None => true
                               | Some _ => false
                               end) items) : gmap string Store.Value) !! k
  = match store !! k with
    | None => (list_to_map items : gmap string Store.Value) !! k
    | Some _ => None
    end.
Proof.
  induction items as [|[k0 v0] items IH]; simpl.
  - rewrite lookup_empty. now destruct (store !! k).
  - destruct (store !! k0) eqn:E0; simpl.
    + rewrite IH. destruct (decide (k0 = k)) as [->|Hne].
      * now rewrite E0.
      * now rewrite lookup_insert_ne by exact Hne.
    + destruct (decide (k0 = k)) as [->|Hne].
      * rewrite !lookup_insert_eq. now rewrite E0.
      * rewrite !lookup_insert_ne by exact Hne. exact IH.
Qed.

Lemma missing_NoDup (store : gmap string Store.Value)
    (items : list (string * Store.Value)) :
  List.NoDup (List.map fst items) ->
  List.NoDup
    (List.map fst
       (List.filter (fun item => match store !! fst item with
                                 | None => true
                                 | Some _ => false
                                 end) items)).
Proof.
  induction items as [|[k0 v0] items IH]; simpl; intros Hnd; [constructor|].
  inversion Hnd as [|? ? Hnot Hnd']; subst.
  destruct (store !! k0); simpl; [now apply IH|].
  constructor; [|now apply IH].
  intros Hin. apply Hnot. apply in_map_iff in Hin as (item & <- & Hin).
  apply in_map. apply filter_In in Hin. tauto.
Qed.

Lemma initializeStorage_lookup (store : gmap string Store.Value) k :
  Store.initializeStorage store !! k
  = match store !! k with
    | Some v => Some v
    | None => (list_to_map Store.defaultData : gmap string Store.Value) !! k
    end.
Proof.
  assert (E : Store.initializeStorage store
              = Store.set
                  (List.filter (fun item => match store !! fst item with
                                            | None => true
                                            | Some _ => false
                                            end) Store.defaultData) store).
  { unfold Store.initializeStorage. now destruct (List.filter _ _). }
  rewrite E, set_lookup, missing_lookup.
  - destruct (store !! k); [reflexivity|].
    now destruct ((list_to_map Store.defaultData : gmap string Store.Value) !! k).
  - apply missing_NoDup. vm_compute.
    repeat (constructor; [simpl; intuition discriminate|]). constructor.
Qed.

(** X7. [initializeStorage] keeps every value that is stored and gives each
    of its seven keys that is missing the default of the table; running it
    again changes nothing; and it leaves the keys outside its table alone,
    among them ['panicModeStats'] and ['emergencyLog']. *)
Theorem initializeStorage_fills_missing (store : gmap string Store.Value) :
  (forall k v, store !! k = Some v -> Store.initializeStorage store !! k = Some v) /\
  (forall k v, store !! k = None -> In (k, v) Store.defaultData ->
               Store.initializeStorage store !! k = Some v) /\
  (forall k, ~ In k (List.map fst Store.defaultData) ->
             Store.initializeStorage store !! k = store !! k) /\
  Store.initializeStorage (Store.initializeStorage store)
  = Store.initializeStorage store.
Proof.
  repeat split.
  - intros k v H. now rewrite initializeStorage_lookup, H.
  - intros k v H Hin. rewrite initializeStorage_lookup, H.
    apply (elem_of_list_to_map_1 (M := gmap string)).
    + apply NoDup_ListNoDup. vm_compute.
      repeat (constructor; [simpl; intuition discriminate|]). constructor.
    + apply list_elem_of_In. exact Hin.
  - intros k Hk. rewrite initializeStorage_lookup.
    destruct (store !! k) eqn:E; [reflexivity|].
    apply (not_elem_of_list_to_map_1 (M := gmap string)).
    intros Hin. apply Hk. apply list_elem_of_In. exact Hin.
  - apply map_eq. intros k. rewrite !initializeStorage_lookup.
    destruct (store !! k); [reflexivity|].
    now destruct ((list_to_map Store.defaultData : gmap string Store.Value) !! k).
Qed.

Lemma initializeStorage_fills_missing_witness :
  let store : gmap string Store.Value := {[ "totalScore" := Store.Num 70 ]} in
  Store.initializeStorage store !! "totalScore" = Some (Store.Num 70) /\
  Store.initializeStorage store !! "currentStreak" = Some (Store.Num 0).
Proof.
  intros store.
  destruct (initializeStorage_fills_missing store) as (Hkeep & Hfill & _ & _).
  split.
  - apply Hkeep. reflexivity.
  - apply Hfill; [reflexivity | simpl; tauto].
Defined.

Lemma call_keeps_missing c (store : gmap string Store.Value) :
  store !! "panicModeStats" = None ->
  store !! "emergencyLog" = None ->
  Store.call c store !! "panicModeStats" = None /\
  Store.call c store !! "emergencyLog" = None /\
  Store.totalScore (Store.call c store) = Store.totalScore store.
Proof.
  intros Hp He. destruct c as [|now|data now]; simpl.
  - rewrite !initializeStorage_lookup, Hp, He.
    repeat split; try reflexivity.
    unfold Store.totalScore. rewrite initializeStorage_lookup.
    destruct (store !! "totalScore") eqn:E; reflexivity.
  - unfold Store.handlePanicMode. rewrite Hp. simpl. tauto.
  - unfold Store.handleEmergencyDisable. rewrite He. simpl. tauto.
Qed.

(** X8. The worker reads ['panicModeStats'] and ['emergencyLog'] from the
    object that [chrome.storage.local.get] answers with, and nothing of the
    worker creates them. While they are missing, [handlePanicMode] and
    [handleEmergencyDisable] throw before writing: whatever messages
    arrive, the two keys stay missing and the score stays as it is, so the
    25 points of the panic mode are never paid. *)
Theorem worker_only_keys_stay_missing calls (store : gmap string Store.Value) :
  store !! "panicModeStats" = None ->
  store !! "emergencyLog" = None ->
  Store.run calls store !! "panicModeStats" = None /\
  Store.run calls store !! "emergencyLog" = None /\
  Store.totalScore (Store.run calls store) = Store.totalScore store /\
  (forall now, Store.handlePanicMode now (Store.run calls store) = None) /\
  (forall data now,
     Store.handleEmergencyDisable data now (Store.run calls store) = None).
Proof.
  revert store. induction calls as [|c calls IH]; intros store Hp He.
  - simpl. repeat split; try assumption.
    + intros now. unfold Store.handlePanicMode. now rewrite Hp.
    + intros data now. unfold Store.handleEmergencyDisable. now rewrite He.
  - destruct (call_keeps_missing c store Hp He) as (Hp' & He' & Hs).
    change (Store.run (c :: calls) store)
      with (Store.run calls (Store.call c store)).
    rewrite <- Hs. apply IH; assumption.
Qed.

Lemma worker_only_keys_stay_missing_witness :
  Store.totalScore
    (Store.run [Store.Initialize; Store.PanicMode 1000; Store.PanicMode 2000]
               ({[ "totalScore" := Store.Num 70 ]})) = 70.
Proof.
  assert (Hp : ({[ "totalScore" := Store.Num 70 ]} : gmap string Store.Value)
               !! "panicModeStats" = None) by (vm_compute; reflexivity).
  assert (He : ({[ "totalScore" := Store.Num 70 ]} : gmap string Store.Value)
               !! "emergencyLog" = None) by (vm_compute; reflexivity).
  destruct (worker_only_keys_stay_missing
              [Store.Initialize; Store.PanicMode 1000; Store.PanicMode 2000]
              ({[ "totalScore" := Store.Num 70 ]}) Hp He)
    as (_ & _ & H & _).
  rewrite H. vm_compute. reflexivity.
Defined.

(** X9. With its entry in the store, [handlePanicMode] adds one to the
    count, records the time, adds 25 points to the score (a score that is
    missing counts as 0) and touches no other key. *)
Theorem handlePanicMode_counts now (store : gmap string Store.Value) count lastUsed :
  store !! "panicModeStats" = Some (Store.PanicModeStats count lastUsed) ->
  exists store',
    Store.handlePanicMode now store = Some store' /\
    store' !! "panicModeStats" = Some (Store.PanicModeStats (count + 1) (Some now)) /\
    store' !! "totalScore" = Some (Store.Num (Store.totalScore store + 25)) /\
    forall k, k <> "panicModeStats" -> k <> "totalScore" ->
              store' !! k = store !! k.
Proof.
  intros H. unfold Store.handlePanicMode. rewrite H. eexists.
  split; [reflexivity|]. unfold Store.set. simpl.
  assert (Hs : Store.totalScore
                 (<["panicModeStats" := Store.PanicModeStats (count + 1) (Some now)]>
                    store)
               = Store.totalScore store).
  { unfold Store.totalScore. now rewrite lookup_insert_ne by discriminate. }
  rewrite Hs. repeat split.
  - rewrite lookup_insert_ne by discriminate. apply lookup_insert_eq.
  - apply lookup_insert_eq.
  - intros k Hk1 Hk2. now rewrite !lookup_insert_ne by congruence.
Qed.

Lemma handlePanicMode_counts_witness :
  exists store',
    Store.handlePanicMode 5000
      (<["panicModeStats" := Store.PanicModeStats 0 None]>
         ({[ "totalScore" := Store.Num 70 ]})) = Some store' /\
    store' !! "totalScore" = Some (Store.Num 95).
Proof.
  assert (Hp : (<["panicModeStats" := Store.PanicModeStats 0 None]>
                  ({[ "totalScore" := Store.Num 70 ]}) : gmap string Store.Value)
               !! "panicModeStats" = Some (Store.PanicModeStats 0 None))
    by (vm_compute; reflexivity).
  destruct (handlePanicMode_counts 5000
              (<["panicModeStats" := Store.PanicModeStats 0 None]>
                 ({[ "totalScore" := Store.Num 70 ]})) 0 None Hp)
    as (store' & H & _ & Hs & _).
  exists store'. split; [exact H|]. rewrite Hs. vm_compute. reflexivity.
Defined.

(** ** The hourly alarm over a whole session ([background.js]) *)

Lemma ticks_app nows nows' st :
  Background.ticks (nows ++ nows') st
  = Background.ticks nows' (Background.ticks nows st).
Proof.
  revert st. induction nows as [|now nows IH]; intros st; [reflexivity|].
  simpl. apply IH.
Qed.

(** One tick before the end: the session stays, the bonus recorded grows to
    ten points per elapsed day, and the score grows by the difference. *)
Lemma updateSession_before_end st s now :
  Background.activeSession st = Some s ->
  now < endTime s ->
  exists s',
    Background.activeSession (fst (Background.updateSession now st)) = Some s' /\
    startTime s' = startTime s /\ endTime s' = endTime s /\
    JS.orZero (lastDailyBonus s')
    = Z.max (10 * daysElapsed s now) (JS.orZero (lastDailyBonus s)) /\
    score (fst (Background.updateSession now st))
    = score st + (JS.orZero (lastDailyBonus s') - JS.orZero (lastDailyBonus s)) /\
    Background.currentStreak (fst (Background.updateSession now st))
    = Background.currentStreak st.
Proof.
  intros Ha Hend. rewrite (updateSession_running st s now Ha Hend).
  destruct (10 * daysElapsed s now >? JS.orZero (lastDailyBonus s)) eqn:E.
  - eexists. split; [reflexivity|]. simpl. repeat split; try lia.
  - exists s. simpl. repeat split; try assumption; lia.
Qed.

(** X10. Ticks before the end of a session telescope: however many there
    are and whenever they come, the session stays, the streak is untouched,
    and the score has grown by exactly the growth of the bonus recorded in
    the session, which ends as the largest of its old value and ten points
    per elapsed day of any of the ticks. *)
Theorem ticks_before_end nows :
  forall st s,
    Background.activeSession st = Some s ->
    Forall (fun now => now < endTime s) nows ->
    exists s',
      Background.activeSession (Background.ticks nows st) = Some s' /\
      startTime s' = startTime s /\ endTime s' = endTime s /\
      score (Background.ticks nows st)
      = score st + (JS.orZero (lastDailyBonus s') - JS.orZero (lastDailyBonus s)) /\
      Background.currentStreak (Background.ticks nows st)
      = Background.currentStreak st /\
      JS.orZero (lastDailyBonus s) <= JS.orZero (lastDailyBonus s') /\
      Forall (fun now => 10 * daysElapsed s now <= JS.orZero (lastDailyBonus s')) nows /\
      (lastDailyBonus s' = lastDailyBonus s \/
       Exists (fun now => JS.orZero (lastDailyBonus s') = 10 * daysElapsed s now) nows).
Proof.
  induction nows as [|now nows IH]; intros st s Ha Hall.
  - exists s. simpl. repeat split; try assumption; try lia; auto.
  - inversion Hall as [|? ? Hnow Hrest]; subst.
    destruct (updateSession_before_end st s now Ha Hnow)
      as (s1 & Ha1 & Hs1 & He1 & Hl1 & Hsc1 & Hst1).
    assert (Hrest' : Forall (fun now => now < endTime s1) nows)
      by now rewrite He1.
    destruct (IH _ s1 Ha1 Hrest')
      as (s' & Ha' & Hs' & He' & Hsc' & Hst' & Hle & Hub & Hex).
    exists s'. simpl Background.ticks.
    assert (Hd : forall t, daysElapsed s1 t = daysElapsed s t)
      by (intros t; unfold daysElapsed; now rewrite Hs1).
    split; [exact Ha'|]. split; [congruence|]. split; [congruence|].
    split; [lia|]. split; [congruence|]. split; [lia|]. split.
    + constructor; [lia|].
      eapply List.Forall_impl; [|exact Hub]. simpl. intros t Ht.
      rewrite <- Hd. exact Ht.
    + destruct Hex as [Heq|Hex].
      * destruct (Z.max_spec (10 * daysElapsed s now) (JS.orZero (lastDailyBonus s)))
          as [[Hlt Hm]|[Hge Hm]].
        -- rewrite (updateSession_running st s now Ha Hnow) in Ha1.
           destruct (10 * daysElapsed s now >? JS.orZero (lastDailyBonus s)) eqn:E;
             [lia|].
           simpl in Ha1. left. congruence.
        -- right. apply Exists_cons_hd. rewrite Heq. lia.
      * right. apply Exists_cons_tl.
        eapply List.Exists_impl; [|exact Hex]. simpl. intros t Ht.
        rewrite <- Hd. exact Ht.
Qed.

Lemma ticks_before_end_witness :
  let s := mkSession 0 (7 * DAY_MS) 7 ["example.com"] (Some 0) None in
  let st := Background.mkStorage (Some s) (Some 0) (Some 350) None in
  exists s',
    Background.activeSession
      (Background.ticks [DAY_MS; 3 * DAY_MS; 2 * DAY_MS; 3 * DAY_MS + 5] st)
    = Some s' /\
    score (Background.ticks [DAY_MS; 3 * DAY_MS; 2 * DAY_MS; 3 * DAY_MS + 5] st)
    = score st + (JS.orZero (lastDailyBonus s') - JS.orZero (lastDailyBonus s)).
Proof.
  intros s st.
  destruct (ticks_before_end [DAY_MS; 3 * DAY_MS; 2 * DAY_MS; 3 * DAY_MS + 5]
              st s eq_refl) as (s' & Ha & _ & _ & Hsc & _).
  - repeat constructor.
  - exists s'. split; [exact Ha | exact Hsc].
Defined.

Lemma updateSession_never_lowers st now :
  (forall s, Background.activeSession st = Some s -> startTime s <= endTime s) ->
  score st <= score (fst (Background.updateSession now st)) /\
  streak st <= streak (fst (Background.updateSession now st)) /\
  (forall s', Background.activeSession (fst (Background.updateSession now st)) = Some s' ->
              startTime s' <= endTime s').
Proof.
  intros Hwf. destruct (Background.activeSession st) as [s|] eqn:Ha.
  - specialize (Hwf s eq_refl). destruct (Z.lt_ge_cases now (endTime s)) as [Hlt|Hge].
    + destruct (updateSession_before_end st s now Ha Hlt)
        as (s1 & Ha1 & Hs1 & He1 & Hl1 & Hsc1 & Hst1).
      split; [lia|]. split; [unfold streak; rewrite Hst1; lia|].
      intros s' Hs'. rewrite Ha1 in Hs'. injection Hs' as <-. lia.
    + destruct (updateSession_expired st s now Ha Hge) as [-> _].
      unfold Background.completeSession, score, streak. simpl.
      assert (0 <= (now - startTime s) / (24 * 60 * 60 * 1000))
        by (apply Z.div_pos; lia).
      repeat split; try lia. discriminate.
  - unfold Background.updateSession. rewrite Ha. simpl.
    repeat split; try lia. intros s' Hs'. congruence.
Qed.

(** X11. The alarm never takes anything away: for a stored session whose
    end is not before its start, no sequence of ticks lowers the score or
    the streak, whether the ticks pay daily bonuses, complete the session or
    find none. *)
Theorem ticks_never_lower nows :
  forall st,
    (forall s, Background.activeSession st = Some s -> startTime s <= endTime s) ->
    score st <= score (Background.ticks nows st) /\
    streak st <= streak (Background.ticks nows st).
Proof.
  induction nows as [|now nows IH]; intros st Hwf; simpl; [lia|].
  destruct (updateSession_never_lowers st now Hwf) as (Hsc & Hst & Hwf').
  destruct (IH _ Hwf') as [Hsc' Hst']. lia.
Qed.

Lemma ticks_never_lower_witness :
  let st := Background.mkStorage
              (Some (mkSession 0 (2 * DAY_MS) 2 ["example.com"] (Some 0) None))
              (Some 3) (Some 100) None in
  score st <= score (Background.ticks [DAY_MS; 2 * DAY_MS; 3 * DAY_MS] st) /\
  streak st <= streak (Background.ticks [DAY_MS; 2 * DAY_MS; 3 * DAY_MS] st).
Proof.
  intros st. apply (ticks_never_lower [DAY_MS; 2 * DAY_MS; 3 * DAY_MS] st).
  intros s Hs. injection Hs as <-. vm_compute. discriminate.
Defined.

Lemma hourly_snoc start n :
  Background.hourly start (S n)
  = Background.hourly start n ++ [start + Z.of_nat (S n) * (60 * 60 * 1000)].
Proof.
  unfold Background.hourly. rewrite seq_S, map_app. reflexivity.
Qed.

Lemma days_of_hours start k s :
  startTime s = start ->
  daysElapsed s (start + k * (60 * 60 * 1000)) = k / 24.
Proof.
  intros <-. unfold daysElapsed, DAY_MS.
  replace (startTime s + k * (60 * 60 * 1000) - startTime s)
    with (k * (60 * 60 * 1000)) by lia.
  replace (24 * 60 * 60 * 1000) with (24 * (60 * 60 * 1000)) by lia.
  apply Z.div_mul_cancel_r; lia.
Qed.

Lemma hourly_running n :
  forall st s d,
    Background.activeSession st = Some s ->
    endTime s = startTime s + d * DAY_MS ->
    lastDailyBonus s = None ->
    Z.of_nat n < 24 * d ->
    exists s',
      Background.activeSession (Background.ticks (Background.hourly (startTime s) n) st)
      = Some s' /\
      startTime s' = startTime s /\ endTime s' = endTime s /\
      JS.orZero (lastDailyBonus s') = 10 * (Z.of_nat n / 24) /\
      score (Background.ticks (Background.hourly (startTime s) n) st)
      = score st + 10 * (Z.of_nat n / 24) /\
      Background.currentStreak (Background.ticks (Background.hourly (startTime s) n) st)
      = Background.currentStreak st.
Proof.
  induction n as [|n IH]; intros st s d Ha He Hl Hn.
  - exists s. simpl. rewrite Hl. simpl.
    change (Z.of_nat 0 / 24) with 0.
    repeat split; try assumption; try reflexivity; lia.
  - destruct (IH st s d Ha He Hl ltac:(lia))
      as (s1 & Ha1 & Hs1 & He1 & Hl1 & Hsc1 & Hst1).
    rewrite hourly_snoc, ticks_app. simpl Background.ticks.
    set (st1 := Background.ticks (Background.hourly (startTime s) n) st) in *.
    set (now := startTime s + Z.of_nat (S n) * (60 * 60 * 1000)).
    assert (Hnow : now < endTime s1).
    { rewrite He1, He. unfold now, DAY_MS. lia. }
    destruct (updateSession_before_end st1 s1 now Ha1 Hnow)
      as (s2 & Ha2 & Hs2 & He2 & Hl2 & Hsc2 & Hst2).
    assert (Hd : daysElapsed s1 now = Z.of_nat (S n) / 24)
      by (apply days_of_hours; exact Hs1).
    assert (Hmono : Z.of_nat n / 24 <= Z.of_nat (S n) / 24)
      by (apply Z.div_le_mono; lia).
    exists s2. split; [exact Ha2|]. split; [congruence|]. split; [congruence|].
    split; [lia|]. split; [lia|]. congruence.
Qed.

(** X12. A session of [d] days that the popup has just stored, with the
    alarm firing every hour from its start: the tick number [24 * d] falls
    on the end time and completes the session. By then the alarm has paid
    10 points for each of the first [d - 1] days and 100 points for each of
    the [d] days at completion, the streak has grown by [d], and no session
    is left. *)
Theorem hourly_session_total st s d :
  Background.activeSession st = Some s ->
  1 <= d ->
  endTime s = startTime s + d * DAY_MS ->
  lastDailyBonus s = None ->
  let st' := Background.ticks (Background.hourly (startTime s) (Z.to_nat (24 * d))) st in
  Background.activeSession st' = None /\
  score st' = score st + 10 * (d - 1) + 100 * d /\
  streak st' = streak st + d.
Proof.
  intros Ha Hd He Hl.
  assert (En : Z.to_nat (24 * d) = S (Z.to_nat (24 * d - 1))) by lia.
  rewrite En, hourly_snoc, ticks_app.
  destruct (hourly_running (Z.to_nat (24 * d - 1)) st s d Ha He Hl ltac:(lia))
    as (s1 & Ha1 & Hs1 & He1 & Hl1 & Hsc1 & Hst1).
  set (st1 := Background.ticks
                (Background.hourly (startTime s) (Z.to_nat (24 * d - 1))) st) in *.
  assert (Enow : startTime s + Z.of_nat (S (Z.to_nat (24 * d - 1))) * (60 * 60 * 1000)
                 = endTime s1).
  { rewrite He1, He. unfold DAY_MS. lia. }
  rewrite Enow. simpl Background.ticks.
  destruct (updateSession_expired st1 s1 (endTime s1) Ha1 ltac:(lia)) as [-> _].
  assert (Edays : (endTime s1 - startTime s1) / (24 * 60 * 60 * 1000) = d).
  { rewrite He1, Hs1, He.
    replace (startTime s + d * DAY_MS - startTime s) with (d * DAY_MS) by lia.
    apply days_of_whole_days. }
  assert (Epaid : Z.of_nat (Z.to_nat (24 * d - 1)) / 24 = d - 1).
  { rewrite Z2Nat.id by lia. symmetry.
    apply (Z.div_unique (24 * d - 1) 24 (d - 1) 23); lia. }
  unfold Background.completeSession, score, streak in *. simpl.
  rewrite Edays. rewrite Hst1. repeat split; lia.
Qed.

Lemma hourly_session_total_witness :
  let s := mkSession 1000 (1000 + 2 * DAY_MS) 2 ["example.com"] (Some 0) None in
  let st := Background.mkStorage (Some s) (Some 0) (Some 100) None in
  score (Background.ticks (Background.hourly 1000 48) st) = 100 + 10 + 200.
Proof.
  intros s st.
  destruct (hourly_session_total st s 2 eq_refl) as (_ & H & _);
    [lia | reflexivity | reflexivity |].
  exact H.
Defined.

(** X13. The end time plays no part in the answer of [getBlockingStatus]:
    a stored session whose end has passed still blocks every address whose
    domain contains one of its sites, with a negative time remaining, until
    the worker completes it. The next tick, or the check at start-up, does
    so, both with the same result, and from then on nothing is blocked. *)
Theorem expired_session_blocks (URL_hostname : string -> option string)
    st s url site now :
  Background.activeSession st = Some s ->
  endTime s < now ->
  In site (blockedSites s) ->
  isSubstring site (Background.extractDomain URL_hostname url) ->
  let r := Background.getBlockingStatus URL_hostname st url now in
  Background.blocked r = true /\
  (exists t, Background.timeRemaining r = Some t /\ t < 0) /\
  fst (Background.checkActiveSession now st) = fst (Background.updateSession now st) /\
  forall url' now',
    Background.blocked
      (Background.getBlockingStatus URL_hostname
         (fst (Background.updateSession now st)) url' now') = false.
Proof.
  intros Ha Hend Hin Hsub r. unfold r, Background.getBlockingStatus. rewrite Ha.
  cbn [Background.blocked Background.timeRemaining].
  split; [apply existsb_includes; eauto|].
  split; [exists (endTime s - now); split; [reflexivity | lia]|].
  destruct (updateSession_expired st s now Ha ltac:(lia)) as [E _].
  rewrite E. split.
  - unfold Background.checkActiveSession. rewrite Ha.
    destruct (now >=? endTime s) eqn:G; [reflexivity | lia].
  - intros url' now'. reflexivity.
Qed.

Lemma expired_session_blocks_witness :
  let s := mkSession 0 DAY_MS 1 ["example.com"] (Some 0) None in
  let st := Background.mkStorage (Some s) (Some 0) (Some 50) None in
  Background.blocked
    (Background.getBlockingStatus Samples.hostname st
       "https://www.example.com/page" (5 * DAY_MS)) = true.
Proof.
  intros s st.
  apply (expired_session_blocks Samples.hostname st s
           "https://www.example.com/page" "example.com" (5 * DAY_MS) eq_refl).
  - vm_compute. reflexivity.
  - simpl. tauto.
  - exists "", "". vm_compute. reflexivity.
Defined.

(** ** The rate limiter as a sliding window ([checkRateLimit]) *)

Lemma checkAll_cons userId action now rest (m : gmap string (list Z)) :
  Security.checkAll userId action (now :: rest) m
  = (fst (Security.checkRateLimit userId now action m)
       :: fst (Security.checkAll userId action rest
                 (snd (Security.checkRateLimit userId now action m))),
     snd (Security.checkAll userId action rest
            (snd (Security.checkRateLimit userId now action m)))).
Proof.
  simpl. destruct (Security.checkRateLimit userId now action m) as [r m'].
  simpl. now destruct (Security.checkAll userId action rest m').
Qed.

Lemma filter_window_later (now now' window : Z) (times : list Z) :
  now <= now' ->
  List.filter (fun time => now' - time <? window)
    (List.filter (fun time => now - time <? window) times)
  = List.filter (fun time => now' - time <? window) times.
Proof.
  intros Hle. induction times as [|t times IH]; [reflexivity|]. simpl.
  destruct (now - t <? window) eqn:E; simpl.
  - now rewrite IH.
  - rewrite IH. destruct (now' - t <? window) eqn:E'; [lia | reflexivity].
Qed.

Lemma checkAll_history action limit userId :
  Security.limits action = Some limit ->
  forall nows (m : gmap string (list Z)) history,
    StronglySorted Z.le nows ->
    (forall now, In now nows ->
       recent m (Security.rateKey action userId) now (Security.window limit)
       = List.filter (fun time => now - time <? Security.window limit) history) ->
    List.map accepted (fst (Security.checkAll userId action nows m))
    = fst (slidingWindow (Security.max limit) (Security.window limit) history nows) /\
    snd (slidingWindow (Security.max limit) (Security.window limit) history nows)
    = history ++ acceptedTimes nows
                   (List.map accepted (fst (Security.checkAll userId action nows m))).
Proof.
  intros Hl. induction nows as [|now rest IH]; intros m history Hs Hinv.
  - simpl. now rewrite app_nil_r.
  - apply StronglySorted_inv in Hs as [Hs Hle].
    rewrite checkAll_cons. cbn [fst snd List.map slidingWindow].
    rewrite (checkRateLimit_configured action limit Hl userId now m).
    cbv zeta. rewrite (Hinv now (or_introl eq_refl)).
    destruct (Nat.leb (Security.max limit)
                (length (List.filter (fun time => now - time <? Security.window limit)
                                     history))) eqn:E.
    + cbn [fst snd accepted acceptedTimes].
      destruct (IH m history Hs) as [H1 H2].
      { intros now' Hin. apply Hinv. now right. }
      split; [now rewrite H1 | exact H2].
    + cbn [fst snd accepted acceptedTimes].
      destruct (IH (<[Security.rateKey action userId :=
                       List.filter (fun time => now - time <? Security.window limit)
                                   history ++ [now]]> m)
                   (history ++ [now]) Hs) as [H1 H2].
      { intros now' Hin. unfold recent. rewrite lookup_insert_eq. simpl.
        rewrite !List.filter_app. f_equal.
        apply filter_window_later.
        rewrite Forall_forall in Hle. apply Hle.
        apply list_elem_of_In. exact Hin. }
      split; [now rewrite H1 | rewrite H2, <- app_assoc; reflexivity].
Qed.

(** X14. Pruning loses nothing. [checkRateLimit] stores only the time
    stamps that were still inside the window at the last accepted call.
    For calls of one user and action that arrive in the order of their
    clock readings, starting without an entry, its decisions are those of
    the limiter that keeps the whole history of accepted calls: a call goes
    through exactly when fewer than [max] accepted calls lie within the
    window that ends at it. *)
Theorem checkRateLimit_is_sliding_window action limit userId nows
    (rateLimits : gmap string (list Z)) :
  Security.limits action = Some limit ->
  rateLimits !! Security.rateKey action userId = None ->
  StronglySorted Z.le nows ->
  List.map accepted (fst (Security.checkAll userId action nows rateLimits))
  = fst (slidingWindow (Security.max limit) (Security.window limit) [] nows).
Proof.
  intros Hl Hm Hs.
  apply (checkAll_history action limit userId Hl nows rateLimits [] Hs).
  intros now _. unfold recent. now rewrite Hm.
Qed.

Lemma checkRateLimit_is_sliding_window_witness :
  List.map accepted
    (fst (Security.checkAll "u1" "panic_mode"
            [0; 1000; 2000; 3000; 1800000; 1800500; 1801000; 1802000] ∅))
  = [true; true; true; false; true; false; true; true].
Proof.
  rewrite (checkRateLimit_is_sliding_window "panic_mode"
             (Security.mkLimit 3 (30 * 60 * 1000)) "u1"
             [0; 1000; 2000; 3000; 1800000; 1800500; 1801000; 1802000] ∅).
  - vm_compute. reflexivity.
  - reflexivity.
  - apply lookup_empty.
  - repeat constructor; vm_compute; discriminate.
Defined.

Lemma slidingWindow_bound max window nows :
  forall history : list Z,
    (forall i t, history !! i = Some t ->
       (length (List.filter (fun u => (t - u <? window)%Z) (take (S i) history))
        <= max)%nat) ->
    forall i t, snd (slidingWindow max window history nows) !! i = Some t ->
      (length (List.filter (fun u => (t - u <? window)%Z)
                 (take (S i) (snd (slidingWindow max window history nows))))
       <= max)%nat.
Proof.
  induction nows as [|now rest IH]; intros history HP; [exact HP|].
  cbn [slidingWindow]. cbv zeta.
  destruct (Nat.leb max (length (List.filter (fun time => now - time <? window) history)))
    eqn:E; cbn [snd].
  - apply IH. exact HP.
  - apply IH. intros i t Hi.
    destruct (Nat.lt_ge_cases i (length history)) as [Hlt|Hge].
    + rewrite lookup_app_l in Hi by exact Hlt.
      rewrite take_app_le by lia. now apply HP.
    + rewrite lookup_app_r in Hi by exact Hge.
      destruct (i - length history)%nat eqn:Ei; [|discriminate].
      injection Hi as <-.
      rewrite take_ge by (rewrite length_app; simpl; lia).
      rewrite List.filter_app, length_app.
      apply Nat.leb_gt in E.
      assert (length (List.filter (fun u => (now - u <? window)%Z) [now]) <= 1)%nat
        by (simpl; destruct (now - now <? window)%Z; simpl; lia).
      lia.
Qed.

(** X15. What the limiter guarantees. For calls of one user and a limited
    action that arrive in the order of their clock readings, starting
    without an entry: whenever a call goes through, the calls that have gone
    through within the window ending at it, itself included, number at most
    [max]. *)
Theorem checkRateLimit_window_bound action limit userId nows
    (rateLimits : gmap string (list Z)) :
  Security.limits action = Some limit ->
  rateLimits !! Security.rateKey action userId = None ->
  StronglySorted Z.le nows ->
  let times :=
    acceptedTimes nows
      (List.map accepted (fst (Security.checkAll userId action nows rateLimits))) in
  forall i t, times !! i = Some t ->
    (length (List.filter (fun u => (t - u <? Security.window limit)%Z) (take (S i) times))
     <= Security.max limit)%nat.
Proof.
  intros Hl Hm Hs times.
  destruct (checkAll_history action limit userId Hl nows rateLimits [] Hs) as [_ H].
  { intros now _. unfold recent. now rewrite Hm. }
  simpl in H. fold times in H. rewrite <- H.
  apply slidingWindow_bound. intros i t Hi. discriminate.
Qed.

Lemma checkRateLimit_window_bound_witness :
  let times :=
    acceptedTimes [0; 1000; 2000; 3000; 1800000]
      (List.map accepted
         (fst (Security.checkAll "u1" "panic_mode" [0; 1000; 2000; 3000; 1800000] ∅))) in
  (length (List.filter (fun u => (1800000 - u <? 30 * 60 * 1000)%Z) (take 4 times)) <= 3)%nat.
Proof.
  intros times.
  apply (checkRateLimit_window_bound "panic_mode"
           (Security.mkLimit 3 (30 * 60 * 1000)) "u1"
           [0; 1000; 2000; 3000; 1800000] ∅).
  - reflexivity.
  - apply lookup_empty.
  - repeat constructor; vm_compute; discriminate.
  - vm_compute. reflexivity.
Defined.

Lemma limits_configured action limit :
  Security.limits action = Some limit ->
  action = "add_site" \/ action = "panic_mode" \/
  action = "emergency_resist" \/ action = "session_start".
Proof.
  unfold Security.limits.
  destruct (String.eqb_spec action "add_site"); [tauto|].
  destruct (String.eqb_spec action "panic_mode"); [tauto|].
  destruct (String.eqb_spec action "emergency_resist"); [tauto|].
  destruct (String.eqb_spec action "session_start"); [tauto|].
  discriminate.
Qed.

Lemma append_inv_head (p s t : string) : p +:+ s = p +:+ t -> s = t.
Proof.
  induction p as [|c p IH]; simpl; intros H; [exact H|].
  injection H as H. now apply IH.
Qed.

Lemma rateKey_injective action limit action' limit' userId userId' :
  Security.limits action = Some limit ->
  Security.limits action' = Some limit' ->
  Security.rateKey action userId = Security.rateKey action' userId' ->
  action = action' /\ userId = userId'.
Proof.
  intros H H' E.
  apply limits_configured in H. apply limits_configured in H'.
  destruct H as [-> | [-> | [-> | ->]]]; destruct H' as [-> | [-> | [-> | ->]]];
    try discriminate E;
    (split; [reflexivity|]);
    unfold Security.rateKey in E;
    apply append_inv_head in E; apply append_inv_head in E; exact E.
Qed.

(** X16. The limits do not interfere. The entries of [rateLimits] are keyed
    by the action and the user joined with an underscore; for the actions
    of the table, two different pairs never share a key. A call for another
    action or another user therefore leaves the entry of this one as it was
    and does not change the outcome of its next call. *)
Theorem rate_limits_independent action limit userId now action' userId' now'
    (rateLimits : gmap string (list Z)) :
  Security.limits action = Some limit ->
  (action, userId) <> (action', userId') ->
  let rateLimits' := snd (Security.checkRateLimit userId' now' action' rateLimits) in
  rateLimits' !! Security.rateKey action userId
  = rateLimits !! Security.rateKey action userId /\
  fst (Security.checkRateLimit userId now action rateLimits')
  = fst (Security.checkRateLimit userId now action rateLimits).
Proof.
  intros Hl Hne rateLimits'.
  assert (E : rateLimits' !! Security.rateKey action userId
              = rateLimits !! Security.rateKey action userId).
  { unfold rateLimits', Security.checkRateLimit.
    destruct (Security.limits action') as [limit'|] eqn:Hl'; [|reflexivity].
    destruct (Security.max limit' <=? _)%nat; [reflexivity|]. simpl.
    apply lookup_insert_ne. intros Hk.
    destruct (rateKey_injective action' limit' action limit userId' userId Hl' Hl Hk).
    congruence. }
  split; [exact E|].
  rewrite !(checkRateLimit_configured action limit Hl). cbv zeta.
  unfold recent. rewrite E.
  now destruct (Security.max limit <=? _)%nat.
Qed.

Lemma rate_limits_independent_witness :
  fst (Security.checkRateLimit "u1" 5000 "add_site"
         (snd (Security.checkRateLimit "u2" 4000 "add_site" ∅)))
  = fst (Security.checkRateLimit "u1" 5000 "add_site" ∅).
Proof.
  apply (rate_limits_independent "add_site" (Security.mkLimit 5 (60 * 60 * 1000))
           "u1" 5000 "add_site" "u2" 4000 ∅ eq_refl).
  intros H. discriminate H.
Defined.

(** ** The cooldown of the panic mode ([validatePanicMode]) *)

Lemma fold_max_spec rest : forall t,
  (fold_left Z.max rest t = t \/ In (fold_left Z.max rest t) rest) /\
  t <= fold_left Z.max rest t /\
  Forall (fun x => x <= fold_left Z.max rest t) rest.
Proof.
  induction rest as [|x rest IH]; intros t; simpl.
  - split; [now left|]. split; [lia | constructor].
  - destruct (IH (Z.max t x)) as (Hin & Hle & Hall).
    split; [|split].
    + destruct Hin as [Heq|Hin]; [|now right; right].
      destruct (Z.max_spec t x) as [[_ Hm]|[_ Hm]]; rewrite Hm in Heq |- *.
      * right. left. now symmetry.
      * now left.
    + lia.
    + constructor; [lia | exact Hall].
Qed.

Lemma latest_spec logs last :
  Security.latest logs = Some last ->
  In last logs /\ Forall (fun t => t <= last) logs.
Proof.
  destruct logs as [|t rest]; [discriminate|]. simpl. intros H.
  injection H as <-. destruct (fold_max_spec rest t) as (Hin & Hle & Hall).
  split.
  - destruct Hin as [->|Hin]; [now left | now right].
  - constructor; assumption.
Qed.

Lemma validatePanicMode_step now logs :
  match Security.validatePanicMode now logs with
  | (Security.PanicAllowed, logs') =>
      logs' = logs ++ [now] /\
      Forall (fun t => t + Security.cooldown <= now) logs
  | (Security.OnCooldown _, logs') =>
      logs' = logs /\ exists t, In t logs /\ now < t + Security.cooldown
  end.
Proof.
  unfold Security.validatePanicMode.
  destruct (Security.latest logs) as [last|] eqn:E.
  - destruct (latest_spec logs last E) as [Hin Hall].
    destruct (now - last <? Security.cooldown) eqn:C.
    + split; [reflexivity|]. exists last. split; [exact Hin | lia].
    + split; [reflexivity|].
      eapply List.Forall_impl; [|exact Hall]. simpl. intros t Ht. lia.
  - destruct logs; [|discriminate]. split; [reflexivity | constructor].
Qed.

Lemma spaced_snoc (gap : Z) logs now :
  StronglySorted (fun a b => a + gap <= b) logs ->
  Forall (fun t => t + gap <= now) logs ->
  StronglySorted (fun a b => a + gap <= b) (logs ++ [now]).
Proof.
  induction logs as [|t logs IH]; intros Hs Hall; simpl.
  - repeat constructor.
  - apply StronglySorted_inv in Hs as [Hs Ht].
    inversion Hall as [|? ? Hnow Hall']; subst.
    constructor; [now apply IH|].
    apply Forall_app. split; [exact Ht | now constructor].
Qed.

(** X17. The log of the panic mode stays spaced: a call is logged only when
    it comes at least thirty minutes after the latest row, so, starting
    from rows that are thirty minutes apart (or from none), the rows are
    thirty minutes apart from each other after any calls at any instants,
    in or out of order. *)
Theorem panic_logs_spaced nows :
  forall logs,
    StronglySorted (fun a b => a + Security.cooldown <= b) logs ->
    StronglySorted (fun a b => a + Security.cooldown <= b)
                   (Security.panicCalls nows logs).
Proof.
  induction nows as [|now nows IH]; intros logs Hs; [exact Hs|].
  change (Security.panicCalls (now :: nows) logs)
    with (Security.panicCalls nows (snd (Security.validatePanicMode now logs))).
  apply IH. pose proof (validatePanicMode_step now logs) as H.
  destruct (Security.validatePanicMode now logs) as [[|remaining] logs'].
  - destruct H as [-> Hall]. simpl. now apply spaced_snoc.
  - destruct H as [-> _]. exact Hs.
Qed.

Lemma panic_logs_spaced_witness :
  StronglySorted (fun a b => a + Security.cooldown <= b)
    (Security.panicCalls [5000; 6000; 1805000; 1000; 3700000] []).
Proof.
  apply (panic_logs_spaced [5000; 6000; 1805000; 1000; 3700000] []).
  constructor.
Defined.

(** X18. The minutes announced by a refusal are right. When
    [validatePanicMode] refuses a call with N minutes remaining, N is
    positive, a call N minutes later is let through, and a call any smaller
    whole number of minutes later is refused as well; when no row is ahead
    of the clock, N is at most 30. *)
Theorem panic_cooldown_remaining now logs remaining :
  fst (Security.validatePanicMode now logs) = Security.OnCooldown remaining ->
  1 <= remaining /\
  fst (Security.validatePanicMode (now + remaining * 60000) logs)
  = Security.PanicAllowed /\
  (forall m, 0 <= m < remaining ->
     exists remaining',
       fst (Security.validatePanicMode (now + m * 60000) logs)
       = Security.OnCooldown remaining') /\
  (Forall (fun t => t <= now) logs -> remaining <= 30).
Proof.
  unfold Security.validatePanicMode.
  destruct (Security.latest logs) as [last|] eqn:E; [|discriminate].
  destruct (now - last <? Security.cooldown) eqn:C; [|discriminate].
  simpl. intros H. injection H as <-.
  unfold Security.ceilMinutes, Security.cooldown in *.
  apply Z.ltb_lt in C.
  set (x := 30 * 60 * 1000 - (now - last)) in *.
  assert (Hx : 0 < x) by (unfold x; lia).
  assert (Hq : - x = 60000 * (- x / 60000) + (- x) mod 60000)
    by (apply Z.div_mod; lia).
  assert (Hr : 0 <= (- x) mod 60000 < 60000) by (apply Z.mod_pos_bound; lia).
  split; [lia|]. split; [|split].
  - destruct (now + - (- x / 60000) * 60000 - last <? 30 * 60 * 1000) eqn:C';
      [|reflexivity].
    apply Z.ltb_lt in C'. unfold x in *. lia.
  - intros m Hm.
    destruct (now + m * 60000 - last <? 30 * 60 * 1000) eqn:C'.
    + eexists. reflexivity.
    + apply Z.ltb_ge in C'. unfold x in *. lia.
  - intros Hall. destruct (latest_spec logs last E) as [Hin _].
    rewrite Forall_forall in Hall. apply list_elem_of_In in Hin.
    specialize (Hall last Hin). unfold x in *. lia.
Qed.

Lemma panic_cooldown_remaining_witness :
  fst (Security.validatePanicMode (25 * 60000 + 1 + 17 * 60000) [12 * 60000])
  = Security.PanicAllowed.
Proof.
  apply (panic_cooldown_remaining (25 * 60000 + 1) [12 * 60000] 17).
  vm_compute. reflexivity.
Defined.

(** ** The order of the checks ([validateAndAwardPoints]) *)

Lemma checkRateLimit_throws userId now action (m : gmap string (list Z)) e m' :
  Security.checkRateLimit userId now action m = (Security.Throw e, m') ->
  e = Security.RateLimitExceeded action /\ m' = m.
Proof.
  unfold Security.checkRateLimit.
  destruct (Security.limits action) as [limit|]; [|discriminate].
  destruct (Nat.leb _ _); [|discriminate].
  intros [= <- <-]. split; reflexivity.
Qed.

Lemma validateEmergencyAttempt_error row e :
  Security.validateEmergencyAttempt row = Security.Throw e ->
  e = Security.MaxEmergencyAttempts \/ e = Security.QueryFailed.
Proof.
  unfold Security.validateEmergencyAttempt. destruct row as [attempts|].
  - destruct (JS.orZero attempts >=? 3); [|discriminate]. intros [= <-]. now left.
  - intros [= <-]. now right.
Qed.

Lemma validateSession_error data rows e :
  Security.validateSession data rows = Security.Throw e ->
  e = Security.InvalidSessionDuration \/ e = Security.SessionAlreadyActive \/
  e = Security.QueryFailed.
Proof.
  unfold Security.validateSession.
  destruct (_ || _); [intros [= <-]; tauto|].
  destruct rows as [rows|]; [|intros [= <-]; tauto].
  destruct (_ && _); [intros [= <-]; tauto | discriminate].
Qed.

Lemma validate_limiter userId now action data q st :
  Pipeline.serverValid q = true ->
  Pipeline.timestampValid q = true ->
  Pipeline.pastLimiter (fst (Pipeline.validate userId now action data q st))
  = accepted (fst (Security.checkRateLimit userId now action (Pipeline.rateLimits st))) /\
  Pipeline.rateLimits (snd (Pipeline.validate userId now action data q st))
  = snd (Security.checkRateLimit userId now action (Pipeline.rateLimits st)).
Proof.
  intros Hs Ht. unfold Pipeline.validate. rewrite Hs, Ht. cbn [negb].
  destruct (Security.checkRateLimit userId now action (Pipeline.rateLimits st))
    as [[b|e] m'] eqn:El.
  - cbn [fst snd accepted].
    destruct (String.eqb action "add_site" && negb (Pipeline.siteAccepted q));
      [split; reflexivity|].
    destruct (if String.eqb action "panic_mode"
              then Security.validatePanicMode now (Pipeline.panicLogs st)
              else (Security.PanicAllowed, Pipeline.panicLogs st))
      as [[|remaining] logs']; [|split; reflexivity].
    destruct (if String.eqb action "emergency_resist"
              then Security.validateEmergencyAttempt (Pipeline.emergencyRow q)
              else Security.Ok true) as [b1|e1] eqn:Ee.
    + destruct (if JS.includes action "session"
                then Security.validateSession data (Pipeline.activeRows q)
                else Security.Ok true) as [b2|e2] eqn:Ev; [split; reflexivity|].
      destruct (JS.includes action "session"); [|discriminate].
      apply validateSession_error in Ev.
      destruct Ev as [-> | [-> | ->]]; split; reflexivity.
    + destruct (String.eqb action "emergency_resist"); [|discriminate].
      apply validateEmergencyAttempt_error in Ee.
      destruct Ee as [-> | ->]; split; reflexivity.
  - apply checkRateLimit_throws in El as [-> ->]. split; reflexivity.
Qed.

(** X19. A refused request has used its slot. [validateAndAwardPoints]
    consults the limiter before the validators of the action, and the
    limiter records the call at once. For the requests of one user and
    action that pass the two remote checks at the head, the limiter lets
    through and refuses exactly as if it had been called alone at the
    instants of all the requests, whatever the site check, the cooldown and
    the session and emergency validators decide in between; its map
    afterwards is the same as well. *)
Theorem refused_requests_use_slots userId action requests :
  forall st,
    Forall (fun r => Pipeline.serverValid (Pipeline.queries r) = true /\
                     Pipeline.timestampValid (Pipeline.queries r) = true) requests ->
    List.map Pipeline.pastLimiter (fst (Pipeline.validateAll userId action requests st))
    = List.map accepted
        (fst (Security.checkAll userId action (List.map Pipeline.at_time requests)
                (Pipeline.rateLimits st))) /\
    Pipeline.rateLimits (snd (Pipeline.validateAll userId action requests st))
    = snd (Security.checkAll userId action (List.map Pipeline.at_time requests)
             (Pipeline.rateLimits st)).
Proof.
  induction requests as [|r requests IH]; intros st Hall; [split; reflexivity|].
  inversion Hall as [|? ? [Hs Ht] Hall']; subst.
  cbn [Pipeline.validateAll List.map fst snd]. rewrite checkAll_cons. cbn [fst snd List.map].
  destruct (validate_limiter userId (Pipeline.at_time r) action (Pipeline.data r)
              (Pipeline.queries r) st Hs Ht) as [H1 H2].
  destruct (IH (snd (Pipeline.validate userId (Pipeline.at_time r) action
                       (Pipeline.data r) (Pipeline.queries r) st)) Hall')
    as [IH1 IH2].
  rewrite H2 in IH1, IH2. split; [now rewrite H1, IH1 | exact IH2].
Qed.

Lemma refused_requests_use_slots_witness :
  let bad := Pipeline.mkQueries true true false None None None in
  let good := Pipeline.mkQueries true true true None None None in
  let request now q := Pipeline.mkRequest now (Security.mkActionData None None None) q in
  List.map Pipeline.pastLimiter
    (fst (Pipeline.validateAll "u1" "add_site"
            [request 0 bad; request 1000 bad; request 2000 bad; request 3000 bad;
             request 4000 bad; request 5000 good]
            (Pipeline.mkState ∅ [])))
  = [true; true; true; true; true; false].
Proof.
  intros bad good request.
  destruct (refused_requests_use_slots "u1" "add_site"
              [request 0 bad; request 1000 bad; request 2000 bad; request 3000 bad;
               request 4000 bad; request 5000 good]
              (Pipeline.mkState ∅ [])) as [H _].
  - repeat constructor.
  - rewrite H. vm_compute. reflexivity.
Defined.

(** X20. The hardened popup reports a completed session without a day
    count, so the point table falls back on one day: whenever the remote
    checks pass and the session query answers, the request goes through
    every check, is not limited, changes nothing in the limiter or the
    panic log, and is priced at 100 points times the multiplier of the
    user's count, whatever the length of the session. *)
Theorem complete_session_flat_price userId now q st rows :
  Pipeline.serverValid q = true ->
  Pipeline.timestampValid q = true ->
  Pipeline.activeRows q = Some rows ->
  Pipeline.validate userId now "complete_session" SecurePopup.completeSessionData q st
  = (Pipeline.Points
       (match Pipeline.actionCount q with
        | Some count => 10 * specMultiplierTenths count
        | None => 100
        end), st).
Proof.
  intros Hs Ht Hr. unfold Pipeline.validate. rewrite Hs, Ht, Hr. cbn [negb].
  change (Security.checkRateLimit userId now "complete_session" (Pipeline.rateLimits st))
    with (Security.Ok true, Pipeline.rateLimits st).
  cbn -[Security.calculateSecurePoints].
  destruct st as [limits logs]. cbn [Pipeline.rateLimits Pipeline.panicLogs].
  rewrite andb_false_r. f_equal. f_equal.
  destruct (Pipeline.actionCount q) as [count|].
  - rewrite calculateSecurePoints_floor.
    change (JS.orZero (Security.pointRules "complete_session"
                         SecurePopup.completeSessionData)) with 100.
    unfold specMultiplierTenths.
    repeat (destruct (_ <? _)); reflexivity.
  - apply calculateSecurePoints_no_count.
Qed.

Lemma complete_session_flat_price_witness :
  fst (Pipeline.validate "u1" 0 "complete_session" SecurePopup.completeSessionData
         (Pipeline.mkQueries true true true None (Some 1%nat) (Some 60))
         (Pipeline.mkState ∅ []))
  = Pipeline.Points 60.
Proof.
  rewrite (complete_session_flat_price "u1" 0
             (Pipeline.mkQueries true true true None (Some 1%nat) (Some 60))
             (Pipeline.mkState ∅ []) 1%nat); reflexivity.
Defined.

(** X21. An action that the point table does not price, whose name does
    not contain ['session'] and is not the name of a member of
    [Object.prototype] (for such a name the lookups in the two tables find
    the inherited member) meets no check after the two remote ones: it is
    not limited, not validated, leaves the limiter and the panic log as
    they were, and is handed on with 0 points. The hardened popup sends
    ['emergency_disable'], ['emergency_attempt'] and ['remove_site'], all
    of this kind, so its emergency disable costs no points. *)
Theorem unpriced_action_unchecked userId now action data q st :
  Pipeline.serverValid q = true ->
  Pipeline.timestampValid q = true ->
  Security.pointRules action data = None ->
  JS.includes action "session" = false ->
  JS.objectPrototypeMember action = false ->
  Pipeline.validate userId now action data q st = (Pipeline.Points 0, st) /\
  (action = "emergency_disable" \/ action = "emergency_attempt" \/
   action = "remove_site" ->
   forall data', Pipeline.validate userId now action data' q st
                 = (Pipeline.Points 0, st)).
Proof.
  assert (main : forall action data,
            Pipeline.serverValid q = true ->
            Pipeline.timestampValid q = true ->
            Security.pointRules action data = None ->
            JS.includes action "session" = false ->
            Pipeline.validate userId now action data q st = (Pipeline.Points 0, st)).
  { clear action data. intros action data Hs Ht Hp Hi.
    unfold Pipeline.validate. rewrite Hs, Ht, Hi. cbn [negb].
    unfold Security.pointRules in Hp.
    destruct (String.eqb action "add_site") eqn:E1; [discriminate|].
    destruct (String.eqb action "start_session") eqn:E2; [discriminate|].
    destruct (String.eqb action "complete_session") eqn:E3; [discriminate|].
    destruct (String.eqb action "daily_bonus") eqn:E4; [discriminate|].
    destruct (String.eqb action "emergency_resist") eqn:E5; [discriminate|].
    destruct (String.eqb action "panic_mode") eqn:E6; [discriminate|].
    assert (El : Security.limits action = None).
    { unfold Security.limits. rewrite E1, E6, E5.
      destruct (String.eqb_spec action "session_start") as [->|]; [|reflexivity].
      discriminate Hi. }
    rewrite (checkRateLimit_unconfigured action userId now _ El).
    cbn [andb]. destruct st as [limits logs].
    cbn [Pipeline.rateLimits Pipeline.panicLogs].
    f_equal. f_equal.
    unfold Security.calculateSecurePoints, Security.pointRules.
    rewrite E1, E2, E3, E4, E5, E6. simpl JS.orZero.
    destruct (Security.getDiminishingReturnsMultiplier (Pipeline.actionCount q))
      as [n d]. reflexivity. }
  intros Hs Ht Hp Hi _. split; [now apply main|].
  intros [-> | [-> | ->]] data'; apply main; auto.
Qed.

Lemma unpriced_action_unchecked_witness :
  Pipeline.validate "u1" 0 "emergency_disable" (Security.mkActionData None None None)
    (Pipeline.mkQueries true true true None None (Some 3))
    (Pipeline.mkState ∅ [])
  = (Pipeline.Points 0, Pipeline.mkState ∅ []).
Proof.
  apply unpriced_action_unchecked; reflexivity.
Defined.

(** ** The proof of work and the heads of the chains *)

Section ChainHeads.

Import Security IntegrityLog.

Variable SHA256 : string -> string.
Variable JSON_stringify : BlockData -> string.
Variable difficulty : nat.

Abbreviation mined := (Security.mined difficulty).
Abbreviation mine := (Security.mine SHA256 JSON_stringify difficulty).
Abbreviation createBlock := (Security.createBlock SHA256 JSON_stringify difficulty).
Abbreviation recordToBlockchain :=
  (Security.recordToBlockchain SHA256 JSON_stringify difficulty).
Abbreviation hashAt := (IntegrityLog.hashAt SHA256 JSON_stringify).
Abbreviation blockAt := (IntegrityLog.blockAt SHA256 JSON_stringify).

(** What the loop returns is the block at the first mined nonce, reached
    within the turns it was given. *)
Lemma mine_least fuel : forall d now n b,
  mine fuel (blockAt d now n) = Some b ->
  exists j, (j <= fuel)%nat /\ b = blockAt d now (n + Z.of_nat j) /\
    mined (hashAt d now (n + Z.of_nat j)) = true /\
    forall i, (i < j)%nat -> mined (hashAt d now (n + Z.of_nat i)) = false.
Proof.
  induction fuel as [|fuel IH]; intros d now n b; simpl;
    destruct (mined (hashAt d now n)) eqn:E.
  - intros [= <-]. exists 0%nat. rewrite Z.add_0_r.
    repeat split; [lia | exact E | intros; lia].
  - discriminate.
  - intros [= <-]. exists 0%nat. rewrite Z.add_0_r.
    repeat split; [lia | exact E | intros; lia].
  - rewrite (bump_blockAt SHA256 JSON_stringify). intros H.
    apply IH in H as (j & Hj & -> & Hm & Hleast).
    exists (S j). split; [lia|].
    replace (n + Z.of_nat (S j)) with (n + 1 + Z.of_nat j) by lia.
    split; [reflexivity|]. split; [exact Hm|].
    intros [|i] Hi; [now rewrite Z.add_0_r|].
    replace (n + Z.of_nat (S i)) with (n + 1 + Z.of_nat i) by lia.
    apply Hleast. lia.
Qed.

(** X22. The block that [createBlock] returns carries the least nonce,
    counted from 0, whose hash has the leading zeros: every smaller nonce
    was tried and failed. The loop needs as many turns as that nonce, and
    with more turns it returns the same block. *)
Theorem createBlock_least_nonce d now fuel b :
  createBlock d now fuel = Some b ->
  0 <= nonce b <= Z.of_nat fuel /\
  b = blockAt d now (nonce b) /\
  mined (hashAt d now (nonce b)) = true /\
  (forall i, 0 <= i < nonce b -> mined (hashAt d now i) = false) /\
  (forall fuel', (fuel <= fuel')%nat -> createBlock d now fuel' = Some b).
Proof.
  rewrite (createBlock_blockAt SHA256 JSON_stringify). intros H.
  apply mine_least in H as (j & Hj & -> & Hm & Hleast).
  cbn [nonce IntegrityLog.blockAt]. rewrite Z.add_0_l in *.
  split; [lia|]. split; [reflexivity|]. split; [exact Hm|]. split.
  - intros i Hi. specialize (Hleast (Z.to_nat i) ltac:(lia)).
    rewrite Z.add_0_l, Z2Nat.id in Hleast by lia. exact Hleast.
  - intros fuel' Hf. rewrite (createBlock_blockAt SHA256 JSON_stringify).
    destruct (mine_total SHA256 JSON_stringify difficulty j d now 0 fuel')
      as (j' & Hj' & Hr & _); [lia | now rewrite Z.add_0_l |].
    rewrite Hr. rewrite Z.add_0_l. do 2 f_equal.
    destruct (Nat.eq_dec j' j) as [->|Hne]; [reflexivity|].
    apply mine_least in Hr as (j2 & _ & Hb & Hm2 & _).
    assert (E : j2 = j').
    { apply (f_equal nonce) in Hb. cbn [nonce IntegrityLog.blockAt] in Hb. lia. }
    subst j2. specialize (Hleast j' ltac:(lia)). congruence.
Qed.


End ChainHeads.

Lemma createBlock_least_nonce_witness :
  exists b,
    Security.createBlock Samples.digest Samples.stringify 1
      (Security.mkBlockData "u1" "add_site" 10 "t" "d" "0") 1000 200 = Some b /\
    forall fuel', (200 <= fuel')%nat ->
      Security.createBlock Samples.digest Samples.stringify 1
        (Security.mkBlockData "u1" "add_site" 10 "t" "d" "0") 1000 fuel' = Some b.
Proof.
  destruct (Security.createBlock Samples.digest Samples.stringify 1
              (Security.mkBlockData "u1" "add_site" 10 "t" "d" "0") 1000 200)
    as [b|] eqn:E; [|vm_compute in E; discriminate E].
  exists b. split; [reflexivity|].
  apply (createBlock_least_nonce Samples.digest Samples.stringify 1 _ 1000 200 b E).
Defined.


(** ** The score kept by the backend *)

Lemma updateScores_app points points' total :
  Backend.updateScores (points ++ points') total
  = Backend.updateScores points' (Backend.updateScores points total).
Proof. unfold Backend.updateScores. apply fold_left_app. Qed.

Lemma updateScores_nonneg points : forall total,
  0 <= total -> 0 <= Backend.updateScores points total.
Proof.
  induction points as [|p points IH]; intros total H; [exact H|].
  apply IH. unfold Backend.updateScore. lia.
Qed.

Lemma updateScores_lower points : forall total,
  total + fold_right Z.add 0 points <= Backend.updateScores points total.
Proof.
  induction points as [|p points IH]; intros total; simpl; [lia|].
  specialize (IH (Backend.updateScore total p)).
  unfold Backend.updateScores in *. unfold Backend.updateScore in IH at 1. lia.
Qed.

Lemma updateScores_unclamped points : forall total,
  (forall k, 0 <= total + fold_right Z.add 0 (take k points)) ->
  Backend.updateScores points total = total + fold_right Z.add 0 points.
Proof.
  induction points as [|p points IH]; intros total H; simpl; [lia|].
  pose proof (H 1%nat) as H1. simpl in H1.
  change (Backend.updateScores (p :: points) total)
    with (Backend.updateScores points (Backend.updateScore total p)).
  assert (E : Backend.updateScore total p = total + p)
    by (unfold Backend.updateScore; lia).
  rewrite E, IH; [lia|].
  intros k. specialize (H (S k)). simpl in H. lia.
Qed.

(** X24. [updateScore] clamps the score at 0 after every single update, so
    what a run of updates leaves depends on their order. The result is
    never below 0 once an update has been made and never below the plain
    sum; it is the plain sum when no partial sum goes below 0. A deduction
    that exceeds the score is forgiven in part: taking [penalty] first and
    awarding [award] afterwards leaves at least as much as the other order,
    and strictly more when the penalty exceeds the score and the award is
    positive. *)
Theorem updateScore_order points total :
  (points <> [] -> 0 <= Backend.updateScores points total) /\
  total + fold_right Z.add 0 points <= Backend.updateScores points total /\
  ((forall k, 0 <= total + fold_right Z.add 0 (take k points)) ->
   Backend.updateScores points total = total + fold_right Z.add 0 points) /\
  (forall award penalty,
     0 <= total -> 0 <= award -> 0 <= penalty ->
     Backend.updateScores [award; - penalty] total
     <= Backend.updateScores [- penalty; award] total /\
     (total < penalty -> 0 < award ->
      Backend.updateScores [award; - penalty] total
      < Backend.updateScores [- penalty; award] total)).
Proof.
  split; [|split; [|split]].
  - destruct points as [|p points]; [congruence|]. intros _.
    change (Backend.updateScores (p :: points) total)
      with (Backend.updateScores points (Backend.updateScore total p)).
    apply updateScores_nonneg. unfold Backend.updateScore. lia.
  - apply updateScores_lower.
  - apply updateScores_unclamped.
  - intros award penalty Ht Ha Hp.
    unfold Backend.updateScores, Backend.updateScore. simpl. split; lia.
Qed.

Lemma updateScore_order_witness :
  Backend.updateScores [300; - 500] 100 < Backend.updateScores [- 500; 300] 100.
Proof.
  destruct (updateScore_order [] 100) as (_ & _ & _ & H).
  destruct (H 300 500) as [_ Hlt]; [lia | lia | lia |].
  apply Hlt; lia.
Defined.
